(** * Fitness tracker: the in-memory record store and its CRUD layer

    A shallow embedding of [src/db/database.py], [src/models/schemas.py] and
    [src/db/crud.py].  The module-level dictionaries and id counters of
    [database.py] become the fields of one [Store] record that every
    operation of [crud.py] takes and returns; an operation's Python return
    value is the first component of its result. *)

From Stdlib Require Import PrimFloat.
From stdpp Require Import base decidable option list numbers strings.

Local Open Scope Z_scope.

(** ** Python dictionaries

    A Python [dict] keeps its entries in insertion order: assigning to a key
    that is present replaces the value in place, assigning to a new key
    appends an entry, and [values()] walks the entries in that order.  The
    linear scans of [crud.py] ([get_user_by_username], [delete_exercise])
    return at the first hit in that order, so a dictionary is modelled as the
    list of its entries. *)
Module PyDict.
Section dict.
Context {K V : Type} `{EqDecision K}.

Definition dict := list (K * V).

(** [d.get(k)] *)
Fixpoint dget (k : K) (d : dict) : option V :=
  match d with
  | [] => None
  | (k', v) :: r => if decide (k = k') then Some v else dget k r
  end.

(** [k in d] *)
Definition dmem (k : K) (d : dict) : bool :=
  match dget k d with Some _ => true | None => false end.

(** [d[k] = v] *)
Fixpoint dset (k : K) (v : V) (d : dict) : dict :=
  match d with
  | [] => [(k, v)]
  | (k', v') :: r =>
      if decide (k = k') then (k, v) :: r else (k', v') :: dset k v r
  end.

(** [del d[k]] *)
Fixpoint ddel (k : K) (d : dict) : dict :=
  match d with
  | [] => []
  | (k', v') :: r =>
      if decide (k = k') then ddel k r else (k', v') :: ddel k r
  end.

(** [d.values()] *)
Definition dvalues (d : dict) : list V := map snd d.

End dict.
Global Arguments dict : clear implicits.
End PyDict.
Import PyDict.

(** ** Schemas ([src/models/schemas.py])

    Python [int] is [Z], [float] is the kernel's binary64 [float], [str] is
    [string], [Optional[T]] is [option T].  A [datetime] is a point on the
    clock and a [date] a calendar day; the code only stores and compares
    them, so both are integers (a timestamp, a day number).  A pydantic
    class that extends a base class holds the base record as a field:
    [**x.model_dump()] then copies that field. *)

Definition datetime := Z.
Definition date := Z.

Inductive WorkoutCategory :=
  STRENGTH | CARDIO | MOBILITY | HIIT | YOGA | CROSSFIT.

Inductive MuscleGroup :=
  CHEST | BACK | LEGS | SHOULDERS | ARMS | CORE | FULL_BODY.

(** [UserCreate(UserBase)]: validated input, so [email] and [username] are
    strings. *)
Record UserCreate := {
  uc_email : string;
  uc_username : string;
  uc_full_name : option string;
  uc_password : string
}.

(** [UserUpdate]: every field is optional and [model_dump(exclude_unset=True)]
    keeps the fields the caller set, so a field is [None] when unset and
    [Some v] when set, where [v] itself may be Python's [None]. *)
Record UserUpdate := {
  uu_email : option (option string);
  uu_username : option (option string);
  uu_full_name : option (option string)
}.

(** [User(UserBase)] as stored.  [update_user] assigns patch values with
    [setattr], which pydantic does not validate, so the stored [email] and
    [username] can come to hold Python's [None]. *)
Record User := {
  u_id : Z;
  u_email : option string;
  u_username : option string;
  u_full_name : option string;
  u_is_active : bool;
  u_created_at : datetime
}.

Record ExerciseBase := {
  eb_name : string;
  eb_description : option string;
  eb_muscle_groups : list MuscleGroup;
  eb_equipment_needed : option string
}.

(** [class ExerciseCreate(ExerciseBase): pass] *)
Definition ExerciseCreate := ExerciseBase.

Record Exercise := {
  ex_base : ExerciseBase;
  ex_id : Z;
  ex_created_by : option Z
}.

Record ExerciseSetBase := {
  esb_reps : option Z;
  esb_weight : option float;
  esb_duration_seconds : option Z;
  esb_distance : option float;
  esb_notes : option string
}.

Record ExerciseSetCreate := {
  esc_base : ExerciseSetBase;
  esc_exercise_id : Z
}.

Record ExerciseSet := {
  es_base : ExerciseSetBase;
  es_id : Z;
  es_exercise_id : Z
}.

Record WorkoutBase := {
  wb_title : string;
  wb_description : option string;
  wb_category : WorkoutCategory;
  wb_duration_minutes : Z;
  wb_calories_burned : option Z;
  wb_notes : option string
}.

Record WorkoutCreate := {
  wc_base : WorkoutBase;
  wc_exercise_sets : option (list ExerciseSetCreate)
}.

Record Workout := {
  w_base : WorkoutBase;
  w_id : Z;
  w_created_at : datetime;
  w_user_id : option Z
}.

(** [WorkoutDetail(Workout)] adds the joined exercise sets. *)
Record WorkoutDetail := {
  wd_workout : Workout;
  wd_exercise_sets : list ExerciseSet
}.

Record WorkoutPlanBase := {
  wpb_name : string;
  wpb_description : option string;
  wpb_duration_weeks : Z;
  wpb_target_muscle_groups : list MuscleGroup;
  wpb_difficulty_level : Z
}.

(** [class WorkoutPlanCreate(WorkoutPlanBase): pass] *)
Definition WorkoutPlanCreate := WorkoutPlanBase.

Record WorkoutPlan := {
  wp_base : WorkoutPlanBase;
  wp_id : Z;
  wp_created_at : datetime;
  wp_created_by : Z;
  wp_workouts : list Z
}.

(** [UserStats(UserStatsBase)]; the counters default to 0 and the optional
    fields to [None]. *)
Record UserStats := {
  us_weight : option float;
  us_height : option float;
  us_body_fat_percentage : option float;
  us_total_workouts : Z;
  us_total_workout_minutes : Z;
  us_streak_days : Z;
  us_last_workout_date : option date;
  us_user_id : Z;
  us_last_updated : datetime
}.

Record ProgressLogBase := {
  plb_log_date : date;
  plb_weight : option float;
  plb_body_fat_percentage : option float;
  plb_notes : option string;
  plb_measurements : option (dict string float)
}.

(** [class ProgressLogCreate(ProgressLogBase): pass] *)
Definition ProgressLogCreate := ProgressLogBase.

Record ProgressLog := {
  pl_base : ProgressLogBase;
  pl_id : Z;
  pl_user_id : Z;
  pl_created_at : datetime
}.

(** ** The record store ([src/db/database.py])

    One field per module-level dictionary and per id counter. *)
Record Store := {
  users_db : dict Z User;
  users_passwords : dict string string;
  exercises_db : dict Z Exercise;
  exercise_sets_db : dict Z ExerciseSet;
  workouts_db : dict Z Workout;
  workout_exercise_sets : dict Z (list Z);
  workout_plans_db : dict Z WorkoutPlan;
  user_stats_db : dict Z UserStats;
  progress_logs_db : dict Z ProgressLog;
  user_id_counter : Z;
  workout_id_counter : Z;
  exercise_id_counter : Z;
  exercise_set_id_counter : Z;
  workout_plan_id_counter : Z;
  progress_log_id_counter : Z
}.

(** What an operation reads from outside the store: the clock
    ([datetime.now()], [date.today()]) and the password hasher of
    [utils/auth.py] (passlib's bcrypt context, a library call).  The
    timestamps of [datetime.now()] are only stored, never compared, and are
    one reading, [env_now].  [create_workout] reads [date.today()] twice and
    compares the readings: [env_today] is the date it assigns to
    [last_workout_date], [env_today_check] the date it reads again on the
    next line for the streak test; the two differ when the calendar day
    changes between the two calls. *)
Record Env := {
  env_now : datetime;
  env_today : date;
  env_today_check : date;
  get_password_hash : string -> string
}.

(** Assignment to one global: the store with that field replaced. *)
Definition set_users_db (x : dict Z User) (s : Store) : Store :=
  {| users_db := x; users_passwords := users_passwords s;
     exercises_db := exercises_db s; exercise_sets_db := exercise_sets_db s;
     workouts_db := workouts_db s;
     workout_exercise_sets := workout_exercise_sets s;
     workout_plans_db := workout_plans_db s;
     user_stats_db := user_stats_db s;
     progress_logs_db := progress_logs_db s;
     user_id_counter := user_id_counter s;
     workout_id_counter := workout_id_counter s;
     exercise_id_counter := exercise_id_counter s;
     exercise_set_id_counter := exercise_set_id_counter s;
     workout_plan_id_counter := workout_plan_id_counter s;
     progress_log_id_counter := progress_log_id_counter s |}.

Definition set_users_passwords (x : dict string string) (s : Store) : Store :=
  {| users_db := users_db s; users_passwords := x;
     exercises_db := exercises_db s; exercise_sets_db := exercise_sets_db s;
     workouts_db := workouts_db s;
     workout_exercise_sets := workout_exercise_sets s;
     workout_plans_db := workout_plans_db s;
     user_stats_db := user_stats_db s;
     progress_logs_db := progress_logs_db s;
     user_id_counter := user_id_counter s;
     workout_id_counter := workout_id_counter s;
     exercise_id_counter := exercise_id_counter s;
     exercise_set_id_counter := exercise_set_id_counter s;
     workout_plan_id_counter := workout_plan_id_counter s;
     progress_log_id_counter := progress_log_id_counter s |}.

Definition set_exercises_db (x : dict Z Exercise) (s : Store) : Store :=
  {| users_db := users_db s; users_passwords := users_passwords s;
     exercises_db := x; exercise_sets_db := exercise_sets_db s;
     workouts_db := workouts_db s;
     workout_exercise_sets := workout_exercise_sets s;
     workout_plans_db := workout_plans_db s;
     user_stats_db := user_stats_db s;
     progress_logs_db := progress_logs_db s;
     user_id_counter := user_id_counter s;
     workout_id_counter := workout_id_counter s;
     exercise_id_counter := exercise_id_counter s;
     exercise_set_id_counter := exercise_set_id_counter s;
     workout_plan_id_counter := workout_plan_id_counter s;
     progress_log_id_counter := progress_log_id_counter s |}.

Definition set_exercise_sets_db (x : dict Z ExerciseSet) (s : Store) : Store :=
  {| users_db := users_db s; users_passwords := users_passwords s;
     exercises_db := exercises_db s; exercise_sets_db := x;
     workouts_db := workouts_db s;
     workout_exercise_sets := workout_exercise_sets s;
     workout_plans_db := workout_plans_db s;
     user_stats_db := user_stats_db s;
     progress_logs_db := progress_logs_db s;
     user_id_counter := user_id_counter s;
     workout_id_counter := workout_id_counter s;
     exercise_id_counter := exercise_id_counter s;
     exercise_set_id_counter := exercise_set_id_counter s;
     workout_plan_id_counter := workout_plan_id_counter s;
     progress_log_id_counter := progress_log_id_counter s |}.

Definition set_workouts_db (x : dict Z Workout) (s : Store) : Store :=
  {| users_db := users_db s; users_passwords := users_passwords s;
     exercises_db := exercises_db s; exercise_sets_db := exercise_sets_db s;
     workouts_db := x; workout_exercise_sets := workout_exercise_sets s;
     workout_plans_db := workout_plans_db s;
     user_stats_db := user_stats_db s;
     progress_logs_db := progress_logs_db s;
     user_id_counter := user_id_counter s;
     workout_id_counter := workout_id_counter s;
     exercise_id_counter := exercise_id_counter s;
     exercise_set_id_counter := exercise_set_id_counter s;
     workout_plan_id_counter := workout_plan_id_counter s;
     progress_log_id_counter := progress_log_id_counter s |}.

Definition set_workout_exercise_sets (x : dict Z (list Z)) (s : Store) : Store :=
  {| users_db := users_db s; users_passwords := users_passwords s;
     exercises_db := exercises_db s; exercise_sets_db := exercise_sets_db s;
     workouts_db := workouts_db s; workout_exercise_sets := x;
     workout_plans_db := workout_plans_db s;
     user_stats_db := user_stats_db s;
     progress_logs_db := progress_logs_db s;
     user_id_counter := user_id_counter s;
     workout_id_counter := workout_id_counter s;
     exercise_id_counter := exercise_id_counter s;
     exercise_set_id_counter := exercise_set_id_counter s;
     workout_plan_id_counter := workout_plan_id_counter s;
     progress_log_id_counter := progress_log_id_counter s |}.

Definition set_workout_plans_db (x : dict Z WorkoutPlan) (s : Store) : Store :=
  {| users_db := users_db s; users_passwords := users_passwords s;
     exercises_db := exercises_db s; exercise_sets_db := exercise_sets_db s;
     workouts_db := workouts_db s;
     workout_exercise_sets := workout_exercise_sets s;
     workout_plans_db := x; user_stats_db := user_stats_db s;
     progress_logs_db := progress_logs_db s;
     user_id_counter := user_id_counter s;
     workout_id_counter := workout_id_counter s;
     exercise_id_counter := exercise_id_counter s;
     exercise_set_id_counter := exercise_set_id_counter s;
     workout_plan_id_counter := workout_plan_id_counter s;
     progress_log_id_counter := progress_log_id_counter s |}.

Definition set_user_stats_db (x : dict Z UserStats) (s : Store) : Store :=
  {| users_db := users_db s; users_passwords := users_passwords s;
     exercises_db := exercises_db s; exercise_sets_db := exercise_sets_db s;
     workouts_db := workouts_db s;
     workout_exercise_sets := workout_exercise_sets s;
     workout_plans_db := workout_plans_db s; user_stats_db := x;
     progress_logs_db := progress_logs_db s;
     user_id_counter := user_id_counter s;
     workout_id_counter := workout_id_counter s;
     exercise_id_counter := exercise_id_counter s;
     exercise_set_id_counter := exercise_set_id_counter s;
     workout_plan_id_counter := workout_plan_id_counter s;
     progress_log_id_counter := progress_log_id_counter s |}.

Definition set_progress_logs_db (x : dict Z ProgressLog) (s : Store) : Store :=
  {| users_db := users_db s; users_passwords := users_passwords s;
     exercises_db := exercises_db s; exercise_sets_db := exercise_sets_db s;
     workouts_db := workouts_db s;
     workout_exercise_sets := workout_exercise_sets s;
     workout_plans_db := workout_plans_db s;
     user_stats_db := user_stats_db s; progress_logs_db := x;
     user_id_counter := user_id_counter s;
     workout_id_counter := workout_id_counter s;
     exercise_id_counter := exercise_id_counter s;
     exercise_set_id_counter := exercise_set_id_counter s;
     workout_plan_id_counter := workout_plan_id_counter s;
     progress_log_id_counter := progress_log_id_counter s |}.

Definition set_user_id_counter (x : Z) (s : Store) : Store :=
  {| users_db := users_db s; users_passwords := users_passwords s;
     exercises_db := exercises_db s; exercise_sets_db := exercise_sets_db s;
     workouts_db := workouts_db s;
     workout_exercise_sets := workout_exercise_sets s;
     workout_plans_db := workout_plans_db s;
     user_stats_db := user_stats_db s;
     progress_logs_db := progress_logs_db s; user_id_counter := x;
     workout_id_counter := workout_id_counter s;
     exercise_id_counter := exercise_id_counter s;
     exercise_set_id_counter := exercise_set_id_counter s;
     workout_plan_id_counter := workout_plan_id_counter s;
     progress_log_id_counter := progress_log_id_counter s |}.

Definition set_workout_id_counter (x : Z) (s : Store) : Store :=
  {| users_db := users_db s; users_passwords := users_passwords s;
     exercises_db := exercises_db s; exercise_sets_db := exercise_sets_db s;
     workouts_db := workouts_db s;
     workout_exercise_sets := workout_exercise_sets s;
     workout_plans_db := workout_plans_db s;
     user_stats_db := user_stats_db s;
     progress_logs_db := progress_logs_db s;
     user_id_counter := user_id_counter s; workout_id_counter := x;
     exercise_id_counter := exercise_id_counter s;
     exercise_set_id_counter := exercise_set_id_counter s;
     workout_plan_id_counter := workout_plan_id_counter s;
     progress_log_id_counter := progress_log_id_counter s |}.

Definition set_exercise_id_counter (x : Z) (s : Store) : Store :=
  {| users_db := users_db s; users_passwords := users_passwords s;
     exercises_db := exercises_db s; exercise_sets_db := exercise_sets_db s;
     workouts_db := workouts_db s;
     workout_exercise_sets := workout_exercise_sets s;
     workout_plans_db := workout_plans_db s;
     user_stats_db := user_stats_db s;
     progress_logs_db := progress_logs_db s;
     user_id_counter := user_id_counter s;
     workout_id_counter := workout_id_counter s; exercise_id_counter := x;
     exercise_set_id_counter := exercise_set_id_counter s;
     workout_plan_id_counter := workout_plan_id_counter s;
     progress_log_id_counter := progress_log_id_counter s |}.

Definition set_exercise_set_id_counter (x : Z) (s : Store) : Store :=
  {| users_db := users_db s; users_passwords := users_passwords s;
     exercises_db := exercises_db s; exercise_sets_db := exercise_sets_db s;
     workouts_db := workouts_db s;
     workout_exercise_sets := workout_exercise_sets s;
     workout_plans_db := workout_plans_db s;
     user_stats_db := user_stats_db s;
     progress_logs_db := progress_logs_db s;
     user_id_counter := user_id_counter s;
     workout_id_counter := workout_id_counter s;
     exercise_id_counter := exercise_id_counter s;
     exercise_set_id_counter := x;
     workout_plan_id_counter := workout_plan_id_counter s;
     progress_log_id_counter := progress_log_id_counter s |}.

Definition set_workout_plan_id_counter (x : Z) (s : Store) : Store :=
  {| users_db := users_db s; users_passwords := users_passwords s;
     exercises_db := exercises_db s; exercise_sets_db := exercise_sets_db s;
     workouts_db := workouts_db s;
     workout_exercise_sets := workout_exercise_sets s;
     workout_plans_db := workout_plans_db s;
     user_stats_db := user_stats_db s;
     progress_logs_db := progress_logs_db s;
     user_id_counter := user_id_counter s;
     workout_id_counter := workout_id_counter s;
     exercise_id_counter := exercise_id_counter s;
     exercise_set_id_counter := exercise_set_id_counter s;
     workout_plan_id_counter := x;
     progress_log_id_counter := progress_log_id_counter s |}.

Definition set_progress_log_id_counter (x : Z) (s : Store) : Store :=
  {| users_db := users_db s; users_passwords := users_passwords s;
     exercises_db := exercises_db s; exercise_sets_db := exercise_sets_db s;
     workouts_db := workouts_db s;
     workout_exercise_sets := workout_exercise_sets s;
     workout_plans_db := workout_plans_db s;
     user_stats_db := user_stats_db s;
     progress_logs_db := progress_logs_db s;
     user_id_counter := user_id_counter s;
     workout_id_counter := workout_id_counter s;
     exercise_id_counter := exercise_id_counter s;
     exercise_set_id_counter := exercise_set_id_counter s;
     workout_plan_id_counter := workout_plan_id_counter s;
     progress_log_id_counter := x |}.

(** Attribute assignment on a stored object ([obj.field = x]). *)
Definition set_us_weight (x : option float) (r : UserStats) : UserStats :=
  {| us_weight := x; us_height := us_height r;
     us_body_fat_percentage := us_body_fat_percentage r;
     us_total_workouts := us_total_workouts r;
     us_total_workout_minutes := us_total_workout_minutes r;
     us_streak_days := us_streak_days r;
     us_last_workout_date := us_last_workout_date r;
     us_user_id := us_user_id r; us_last_updated := us_last_updated r |}.

Definition set_us_body_fat_percentage (x : option float) (r : UserStats) : UserStats :=
  {| us_weight := us_weight r; us_height := us_height r;
     us_body_fat_percentage := x; us_total_workouts := us_total_workouts r;
     us_total_workout_minutes := us_total_workout_minutes r;
     us_streak_days := us_streak_days r;
     us_last_workout_date := us_last_workout_date r;
     us_user_id := us_user_id r; us_last_updated := us_last_updated r |}.

Definition set_us_total_workouts (x : Z) (r : UserStats) : UserStats :=
  {| us_weight := us_weight r; us_height := us_height r;
     us_body_fat_percentage := us_body_fat_percentage r;
     us_total_workouts := x;
     us_total_workout_minutes := us_total_workout_minutes r;
     us_streak_days := us_streak_days r;
     us_last_workout_date := us_last_workout_date r;
     us_user_id := us_user_id r; us_last_updated := us_last_updated r |}.

Definition set_us_total_workout_minutes (x : Z) (r : UserStats) : UserStats :=
  {| us_weight := us_weight r; us_height := us_height r;
     us_body_fat_percentage := us_body_fat_percentage r;
     us_total_workouts := us_total_workouts r;
     us_total_workout_minutes := x; us_streak_days := us_streak_days r;
     us_last_workout_date := us_last_workout_date r;
     us_user_id := us_user_id r; us_last_updated := us_last_updated r |}.

Definition set_us_streak_days (x : Z) (r : UserStats) : UserStats :=
  {| us_weight := us_weight r; us_height := us_height r;
     us_body_fat_percentage := us_body_fat_percentage r;
     us_total_workouts := us_total_workouts r;
     us_total_workout_minutes := us_total_workout_minutes r;
     us_streak_days := x; us_last_workout_date := us_last_workout_date r;
     us_user_id := us_user_id r; us_last_updated := us_last_updated r |}.

Definition set_us_last_workout_date (x : option date) (r : UserStats) : UserStats :=
  {| us_weight := us_weight r; us_height := us_height r;
     us_body_fat_percentage := us_body_fat_percentage r;
     us_total_workouts := us_total_workouts r;
     us_total_workout_minutes := us_total_workout_minutes r;
     us_streak_days := us_streak_days r; us_last_workout_date := x;
     us_user_id := us_user_id r; us_last_updated := us_last_updated r |}.

Definition set_us_last_updated (x : datetime) (r : UserStats) : UserStats :=
  {| us_weight := us_weight r; us_height := us_height r;
     us_body_fat_percentage := us_body_fat_percentage r;
     us_total_workouts := us_total_workouts r;
     us_total_workout_minutes := us_total_workout_minutes r;
     us_streak_days := us_streak_days r;
     us_last_workout_date := us_last_workout_date r;
     us_user_id := us_user_id r; us_last_updated := x |}.

(** [setattr(current_user, field, value)] for the fields of [UserUpdate]. *)
Definition set_u_email (x : option string) (r : User) : User :=
  {| u_id := u_id r; u_email := x; u_username := u_username r;
     u_full_name := u_full_name r; u_is_active := u_is_active r;
     u_created_at := u_created_at r |}.

Definition set_u_username (x : option string) (r : User) : User :=
  {| u_id := u_id r; u_email := u_email r; u_username := x;
     u_full_name := u_full_name r; u_is_active := u_is_active r;
     u_created_at := u_created_at r |}.

Definition set_u_full_name (x : option string) (r : User) : User :=
  {| u_id := u_id r; u_email := u_email r; u_username := u_username r;
     u_full_name := x; u_is_active := u_is_active r;
     u_created_at := u_created_at r |}.

(** The plan with its [workouts] list replaced (the list is mutated in place). *)
Definition set_wp_workouts (x : list Z) (r : WorkoutPlan) : WorkoutPlan :=
  {| wp_base := wp_base r; wp_id := wp_id r;
     wp_created_at := wp_created_at r; wp_created_by := wp_created_by r;
     wp_workouts := x |}.

(** ** Seed data ([src/db/database.py])

    The module builds its dictionaries when it is imported; [e] is the clock
    at that moment.  The counters start one above the number of seeded
    entries. *)
Local Open Scope string_scope.
(* 21.8 is rounded to the nearest binary64 value, as Python does. *)
#[local] Set Warnings "-inexact-float".

Definition seed_users_db (e : Env) : dict Z User :=
  [ (1, {| u_id := 1; u_email := Some "john@example.com";
           u_username := Some "johndoe"; u_full_name := Some "John Doe";
           u_is_active := true; u_created_at := env_now e |});
    (2, {| u_id := 2; u_email := Some "jane@example.com";
           u_username := Some "janedoe"; u_full_name := Some "Jane Smith";
           u_is_active := true; u_created_at := env_now e |}) ].

Definition seed_users_passwords : dict string string :=
  [ ("johndoe", "$2b$12$EixZaYVK1fsbw1ZfbX3OXePaWxn96p36WQoeG6Lruj3vjPGga31lW");
    ("janedoe", "$2b$12$EixZaYVK1fsbw1ZfbX3OXePaWxn96p36WQoeG6Lruj3vjPGga31lW") ].

Definition seed_exercises_db : dict Z Exercise :=
  [ (1, {| ex_base := {| eb_name := "Barbell Bench Press";
             eb_description := Some "Lie on a flat bench and press the barbell upward";
             eb_muscle_groups := [CHEST; SHOULDERS; ARMS];
             eb_equipment_needed := Some "Barbell, Bench" |};
           ex_id := 1; ex_created_by := Some 1 |});
    (2, {| ex_base := {| eb_name := "Squat";
             eb_description := Some "Lower your body by bending your knees, keeping your back straight";
             eb_muscle_groups := [LEGS];
             eb_equipment_needed := Some "Barbell, Squat Rack" |};
           ex_id := 2; ex_created_by := Some 1 |});
    (3, {| ex_base := {| eb_name := "Deadlift";
             eb_description := Some "Lift the barbell from the ground to hip level";
             eb_muscle_groups := [BACK; LEGS];
             eb_equipment_needed := Some "Barbell" |};
           ex_id := 3; ex_created_by := Some 1 |});
    (4, {| ex_base := {| eb_name := "Running";
             eb_description := Some "Running at steady pace";
             eb_muscle_groups := [LEGS; CORE];
             eb_equipment_needed := Some "None" |};
           ex_id := 4; ex_created_by := Some 2 |});
    (5, {| ex_base := {| eb_name := "Plank";
             eb_description := Some "Hold the position with your body weight on forearms and toes";
             eb_muscle_groups := [CORE];
             eb_equipment_needed := Some "None" |};
           ex_id := 5; ex_created_by := Some 2 |}) ].

Definition seed_exercise_sets_db : dict Z ExerciseSet :=
  [ (1, {| es_base := {| esb_reps := Some 10; esb_weight := Some 135.0%float;
             esb_duration_seconds := None; esb_distance := None;
             esb_notes := Some "Felt strong today" |};
           es_id := 1; es_exercise_id := 1 |});
    (2, {| es_base := {| esb_reps := Some 8; esb_weight := Some 225.0%float;
             esb_duration_seconds := None; esb_distance := None;
             esb_notes := None |};
           es_id := 2; es_exercise_id := 2 |});
    (3, {| es_base := {| esb_reps := None; esb_weight := None;
             esb_duration_seconds := Some 1800; esb_distance := Some 5.0%float;
             esb_notes := Some "Steady pace" |};
           es_id := 3; es_exercise_id := 4 |});
    (4, {| es_base := {| esb_reps := None; esb_weight := None;
             esb_duration_seconds := Some 60; esb_distance := None;
             esb_notes := Some "Core engaged" |};
           es_id := 4; es_exercise_id := 5 |}) ].

Definition seed_workouts_db (e : Env) : dict Z Workout :=
  [ (1, {| w_base := {| wb_title := "Morning Run";
             wb_description := Some "5K run around the park";
             wb_category := CARDIO; wb_duration_minutes := 30;
             wb_calories_burned := Some 300;
             wb_notes := Some "Felt great, good pace" |};
           w_id := 1; w_created_at := env_now e; w_user_id := Some 2 |});
    (2, {| w_base := {| wb_title := "Chest Day";
             wb_description := Some "Focused on chest exercises";
             wb_category := STRENGTH; wb_duration_minutes := 45;
             wb_calories_burned := Some 250;
             wb_notes := Some "Increased weight on bench press" |};
           w_id := 2; w_created_at := env_now e; w_user_id := Some 1 |});
    (3, {| w_base := {| wb_title := "Yoga Session";
             wb_description := Some "Full body stretching";
             wb_category := MOBILITY; wb_duration_minutes := 60;
             wb_calories_burned := Some 150;
             wb_notes := Some "Focused on breathing techniques" |};
           w_id := 3; w_created_at := env_now e; w_user_id := Some 2 |}) ].

Definition seed_workout_exercise_sets : dict Z (list Z) :=
  [ (1, [3]); (2, [1]); (3, [4]) ].

Definition seed_workout_plans_db (e : Env) : dict Z WorkoutPlan :=
  [ (1, {| wp_base := {| wpb_name := "Beginner Strength Program";
             wpb_description := Some "8-week program for beginners to build strength";
             wpb_duration_weeks := 8;
             wpb_target_muscle_groups := [FULL_BODY];
             wpb_difficulty_level := 1 |};
           wp_id := 1; wp_created_at := env_now e; wp_created_by := 1;
           wp_workouts := [2; 3] |});
    (2, {| wp_base := {| wpb_name := "5K Training Plan";
             wpb_description := Some "6-week program to prepare for a 5K run";
             wpb_duration_weeks := 6;
             wpb_target_muscle_groups := [LEGS; CORE];
             wpb_difficulty_level := 2 |};
           wp_id := 2; wp_created_at := env_now e; wp_created_by := 2;
           wp_workouts := [1] |}) ].

Definition seed_user_stats_db (e : Env) : dict Z UserStats :=
  [ (1, {| us_weight := Some 180.0%float; us_height := Some 72.0%float;
           us_body_fat_percentage := Some 15.0%float;
           us_total_workouts := 15; us_total_workout_minutes := 750;
           us_streak_days := 3; us_last_workout_date := Some (env_today e);
           us_user_id := 1; us_last_updated := env_now e |});
    (2, {| us_weight := Some 140.0%float; us_height := Some 65.0%float;
           us_body_fat_percentage := Some 22.0%float;
           us_total_workouts := 22; us_total_workout_minutes := 1200;
           us_streak_days := 5; us_last_workout_date := Some (env_today e);
           us_user_id := 2; us_last_updated := env_now e |}) ].

Definition seed_progress_logs_db (e : Env) : dict Z ProgressLog :=
  [ (1, {| pl_base := {| plb_log_date := env_today e;
             plb_weight := Some 180.0%float; plb_body_fat_percentage := Some 15.0%float;
             plb_notes := Some "Feeling stronger this week";
             plb_measurements :=
               Some [("chest", 42.0%float); ("waist", 34.0%float); ("arms", 15.5%float)] |};
           pl_id := 1; pl_user_id := 1; pl_created_at := env_now e |});
    (2, {| pl_base := {| plb_log_date := env_today e;
             plb_weight := Some 140.0%float; plb_body_fat_percentage := Some 21.8%float;
             plb_notes := Some "Down 0.2% body fat from last week";
             plb_measurements :=
               Some [("chest", 36.0%float); ("waist", 28.0%float); ("thighs", 22.0%float)] |};
           pl_id := 2; pl_user_id := 2; pl_created_at := env_now e |}) ].

Definition database (e : Env) : Store :=
  {| users_db := seed_users_db e;
     users_passwords := seed_users_passwords;
     exercises_db := seed_exercises_db;
     exercise_sets_db := seed_exercise_sets_db;
     workouts_db := seed_workouts_db e;
     workout_exercise_sets := seed_workout_exercise_sets;
     workout_plans_db := seed_workout_plans_db e;
     user_stats_db := seed_user_stats_db e;
     progress_logs_db := seed_progress_logs_db e;
     user_id_counter := Z.of_nat (length (seed_users_db e)) + 1;
     workout_id_counter := Z.of_nat (length (seed_workouts_db e)) + 1;
     exercise_id_counter := Z.of_nat (length seed_exercises_db) + 1;
     exercise_set_id_counter := Z.of_nat (length seed_exercise_sets_db) + 1;
     workout_plan_id_counter := Z.of_nat (length (seed_workout_plans_db e)) + 1;
     progress_log_id_counter := Z.of_nat (length (seed_progress_logs_db e)) + 1 |}.

Local Close Scope string_scope.

(** ** CRUD operations ([src/db/crud.py])

    Each operation takes the store and returns its Python result with the
    store it leaves behind.  Python's truth tests are written out: an
    [Optional] list is true when it is a non-empty list, an [Optional[int]]
    when it is a non-zero integer, an [Optional[float]] when it is a float
    other than zero, and a pydantic object is always true. *)

Definition truthy_list {A : Type} (o : option (list A)) : bool :=
  match o with Some (_ :: _) => true | _ => false end.

Definition truthy_int (o : option Z) : bool :=
  match o with Some n => negb (n =? 0) | None => false end.

Definition truthy_float (o : option float) : bool :=
  match o with Some x => negb (PrimFloat.eqb x 0%float) | None => false end.

(** *** Users *)

Definition get_users (s : Store) : list User := dvalues (users_db s).

Definition get_user (user_id : Z) (s : Store) : option User :=
  dget user_id (users_db s).

Definition get_user_by_username (username : string) (s : Store) : option User :=
  find (fun user => bool_decide (u_username user = Some username))
       (dvalues (users_db s)).

Definition get_user_by_email (email : string) (s : Store) : option User :=
  find (fun user => bool_decide (u_email user = Some email))
       (dvalues (users_db s)).

Definition create_user (e : Env) (user : UserCreate) (s : Store)
  : option User * Store :=
  match get_user_by_username (uc_username user) s with
  | Some _ => (None, s)
  | None =>
  match get_user_by_email (uc_email user) s with
  | Some _ => (None, s)
  | None =>
      let new_user :=
        {| u_id := user_id_counter s;
           u_email := Some (uc_email user);
           u_username := Some (uc_username user);
           u_full_name := uc_full_name user;
           u_is_active := true;
           u_created_at := env_now e |} in
      let s1 := set_users_db (dset (user_id_counter s) new_user (users_db s)) s in
      let s2 := set_users_passwords
                  (dset (uc_username user)
                        (get_password_hash e (uc_password user))
                        (users_passwords s1)) s1 in
      let s3 := set_user_stats_db
                  (dset (user_id_counter s2)
                        {| us_weight := None; us_height := None;
                           us_body_fat_percentage := None;
                           us_total_workouts := 0;
                           us_total_workout_minutes := 0;
                           us_streak_days := 0;
                           us_last_workout_date := None;
                           us_user_id := user_id_counter s2;
                           us_last_updated := env_now e |}
                        (user_stats_db s2)) s2 in
      let s4 := set_user_id_counter (user_id_counter s3 + 1) s3 in
      (Some new_user, s4)
  end end.

(** [for field, value in update_data.items(): setattr(current_user, field,
    value)], the items being the fields of the patch that were set. *)
Definition apply_user_update (user_data : UserUpdate) (current_user : User) : User :=
  let u1 := match uu_email user_data with
            | Some v => set_u_email v current_user | None => current_user end in
  let u2 := match uu_username user_data with
            | Some v => set_u_username v u1 | None => u1 end in
  match uu_full_name user_data with
  | Some v => set_u_full_name v u2 | None => u2 end.

Definition update_user (user_id : Z) (user_data : UserUpdate) (s : Store)
  : option User * Store :=
  match dget user_id (users_db s) with
  | None => (None, s)
  | Some current_user =>
      let current_user := apply_user_update user_data current_user in
      (Some current_user,
       set_users_db (dset user_id current_user (users_db s)) s)
  end.

Definition delete_user (user_id : Z) (s : Store) : bool * Store :=
  match dget user_id (users_db s) with
  | None => (false, s)
  | Some user =>
      let s1 := set_users_db (ddel user_id (users_db s)) s in
      let s2 := match u_username user with
                | Some name =>
                    if dmem name (users_passwords s1)
                    then set_users_passwords (ddel name (users_passwords s1)) s1
                    else s1
                | None => s1
                end in
      let s3 := if dmem user_id (user_stats_db s2)
                then set_user_stats_db (ddel user_id (user_stats_db s2)) s2
                else s2 in
      (true, s3)
  end.

(** *** Workouts *)

Definition get_workout (workout_id : Z) (s : Store) : option Workout :=
  dget workout_id (workouts_db s).

Definition get_workouts_by_user (user_id : Z) (s : Store) : list Workout :=
  List.filter (fun workout => bool_decide (w_user_id workout = Some user_id))
              (dvalues (workouts_db s)).

(** [workout_exercise_sets.get(workout_id, [])] *)
Definition exercise_set_ids (workout_id : Z) (s : Store) : list Z :=
  default [] (dget workout_id (workout_exercise_sets s)).

Definition get_workout_detail (workout_id : Z) (s : Store) : option WorkoutDetail :=
  match dget workout_id (workouts_db s) with
  | None => None
  | Some workout =>
      let exercise_sets :=
        omap (fun es_id => dget es_id (exercise_sets_db s))
             (exercise_set_ids workout_id s) in
      Some {| wd_workout := workout; wd_exercise_sets := exercise_sets |}
  end.

(** [ExerciseSet(id=exercise_set_id_counter, **es_data.model_dump())] *)
Definition new_exercise_set (id : Z) (es_data : ExerciseSetCreate) : ExerciseSet :=
  {| es_base := esc_base es_data; es_id := id;
     es_exercise_id := esc_exercise_id es_data |}.

(** [workout_exercise_sets[workout_id].append(x)].  Both callers assign
    [[]] to the key first, so the key is present (see
    [append_after_reset]); Python would raise [KeyError] otherwise. *)
Definition append_exercise_set_id (workout_id x : Z) (d : dict Z (list Z))
  : dict Z (list Z) :=
  match dget workout_id d with
  | Some l => dset workout_id (l ++ [x]) d
  | None => d
  end.

(** The loop [for es_data in ...exercise_sets] shared by [create_workout]
    and [update_workout]; the first component is the local list
    [exercise_sets] that [create_workout] builds alongside. *)
Fixpoint add_exercise_sets (workout_id : Z) (data : list ExerciseSetCreate)
    (s : Store) : list ExerciseSet * Store :=
  match data with
  | [] => ([], s)
  | es_data :: rest =>
      let new_set := new_exercise_set (exercise_set_id_counter s) es_data in
      let s1 := set_exercise_sets_db
                  (dset (exercise_set_id_counter s) new_set (exercise_sets_db s)) s in
      let s2 := set_workout_exercise_sets
                  (append_exercise_set_id workout_id (exercise_set_id_counter s1)
                     (workout_exercise_sets s1)) s1 in
      let s3 := set_exercise_set_id_counter (exercise_set_id_counter s2 + 1) s2 in
      let (exercise_sets, s') := add_exercise_sets workout_id rest s3 in
      (new_set :: exercise_sets, s')
  end.

(** The statistics update of [create_workout] on the stored [UserStats]
    object.  [user_stats.last_workout_date = date.today()] assigns the first
    reading of the date; [if user_stats.last_workout_date == date.today()]
    compares it with the second. *)
Definition record_workout (e : Env) (duration_minutes : Z) (user_stats : UserStats)
  : UserStats :=
  let st1 := set_us_total_workouts (us_total_workouts user_stats + 1) user_stats in
  let st2 := set_us_total_workout_minutes
               (us_total_workout_minutes st1 + duration_minutes) st1 in
  let st3 := set_us_last_workout_date (Some (env_today e)) st2 in
  let st4 := if bool_decide (us_last_workout_date st3 = Some (env_today_check e))
             then set_us_streak_days (us_streak_days st3 + 1) st3
             else set_us_streak_days 1 st3 in
  set_us_last_updated (env_now e) st4.

(** The block [if user_id and user_id in user_stats_db: ...] of
    [create_workout]; the stored object is updated in place. *)
Definition update_user_stats (e : Env) (duration_minutes : Z) (user_id : option Z)
    (stats : dict Z UserStats) : dict Z UserStats :=
  if truthy_int user_id then
    match user_id with
    | Some uid =>
        match dget uid stats with
        | Some user_stats =>
            dset uid (record_workout e duration_minutes user_stats) stats
        | None => stats
        end
    | None => stats
    end
  else stats.

Definition create_workout (e : Env) (workout : WorkoutCreate) (user_id : option Z)
    (s : Store) : WorkoutDetail * Store :=
  let new_workout :=
    {| w_base := wc_base workout; w_id := workout_id_counter s;
       w_created_at := env_now e; w_user_id := user_id |} in
  let s1 := set_workouts_db
              (dset (workout_id_counter s) new_workout (workouts_db s)) s in
  let s2 := set_workout_exercise_sets
              (dset (workout_id_counter s1) [] (workout_exercise_sets s1)) s1 in
  let (exercise_sets, s3) :=
    if truthy_list (wc_exercise_sets workout)
    then add_exercise_sets (workout_id_counter s2)
           (default [] (wc_exercise_sets workout)) s2
    else ([], s2) in
  let s4 := set_user_stats_db
              (update_user_stats e (wb_duration_minutes (wc_base workout))
                 user_id (user_stats_db s3)) s3 in
  let s5 := set_workout_id_counter (workout_id_counter s4 + 1) s4 in
  ({| wd_workout := new_workout; wd_exercise_sets := exercise_sets |}, s5).

(** [for es_id in ids: if es_id in exercise_sets_db: del exercise_sets_db[es_id]] *)
Definition remove_exercise_sets (ids : list Z) (d : dict Z ExerciseSet)
  : dict Z ExerciseSet :=
  fold_left (fun d es_id => if dmem es_id d then ddel es_id d else d) ids d.

Definition update_workout (workout_id : Z) (workout_data : WorkoutCreate)
    (s : Store) : option WorkoutDetail * Store :=
  match dget workout_id (workouts_db s) with
  | None => (None, s)
  | Some old =>
      let updated_workout :=
        {| w_base := wc_base workout_data; w_id := workout_id;
           w_created_at := w_created_at old; w_user_id := w_user_id old |} in
      let s1 := set_workouts_db
                  (dset workout_id updated_workout (workouts_db s)) s in
      let s2 :=
        if truthy_list (wc_exercise_sets workout_data) then
          let sa := set_exercise_sets_db
                      (remove_exercise_sets (exercise_set_ids workout_id s1)
                         (exercise_sets_db s1)) s1 in
          let sb := set_workout_exercise_sets
                      (dset workout_id [] (workout_exercise_sets sa)) sa in
          snd (add_exercise_sets workout_id
                 (default [] (wc_exercise_sets workout_data)) sb)
        else s1 in
      (get_workout_detail workout_id s2, s2)
  end.

Definition delete_workout (workout_id : Z) (s : Store) : bool * Store :=
  if dmem workout_id (workouts_db s) then
    let s1 := set_exercise_sets_db
                (remove_exercise_sets (exercise_set_ids workout_id s)
                   (exercise_sets_db s)) s in
    let s2 := if dmem workout_id (workout_exercise_sets s1)
              then set_workout_exercise_sets
                     (ddel workout_id (workout_exercise_sets s1)) s1
              else s1 in
    let s3 := set_workouts_db (ddel workout_id (workouts_db s2)) s2 in
    (true, s3)
  else (false, s).

(** *** Exercises *)

Definition get_exercise (exercise_id : Z) (s : Store) : option Exercise :=
  dget exercise_id (exercises_db s).

Definition create_exercise (exercise : ExerciseCreate) (user_id : option Z)
    (s : Store) : Exercise * Store :=
  let new_exercise :=
    {| ex_base := exercise; ex_id := exercise_id_counter s;
       ex_created_by := user_id |} in
  let s1 := set_exercises_db
              (dset (exercise_id_counter s) new_exercise (exercises_db s)) s in
  (new_exercise, set_exercise_id_counter (exercise_id_counter s1 + 1) s1).

Definition update_exercise (exercise_id : Z) (exercise_data : ExerciseCreate)
    (s : Store) : option Exercise * Store :=
  match dget exercise_id (exercises_db s) with
  | None => (None, s)
  | Some old =>
      let updated_exercise :=
        {| ex_base := exercise_data; ex_id := exercise_id;
           ex_created_by := ex_created_by old |} in
      (Some updated_exercise,
       set_exercises_db (dset exercise_id updated_exercise (exercises_db s)) s)
  end.

Definition delete_exercise (exercise_id : Z) (s : Store) : bool * Store :=
  if dmem exercise_id (exercises_db s) then
    if existsb (fun es => es_exercise_id es =? exercise_id)
               (dvalues (exercise_sets_db s))
    then (false, s)
    else (true, set_exercises_db (ddel exercise_id (exercises_db s)) s)
  else (false, s).

(** *** Workout plans *)

Definition get_workout_plan (plan_id : Z) (s : Store) : option WorkoutPlan :=
  dget plan_id (workout_plans_db s).

Definition create_workout_plan (e : Env) (plan : WorkoutPlanCreate) (user_id : Z)
    (s : Store) : WorkoutPlan * Store :=
  let new_plan :=
    {| wp_base := plan; wp_id := workout_plan_id_counter s;
       wp_created_at := env_now e; wp_created_by := user_id;
       wp_workouts := [] |} in
  let s1 := set_workout_plans_db
              (dset (workout_plan_id_counter s) new_plan (workout_plans_db s)) s in
  (new_plan, set_workout_plan_id_counter (workout_plan_id_counter s1 + 1) s1).

Definition update_workout_plan (plan_id : Z) (plan_data : WorkoutPlanCreate)
    (s : Store) : option WorkoutPlan * Store :=
  match dget plan_id (workout_plans_db s) with
  | None => (None, s)
  | Some current_plan =>
      let updated_plan :=
        {| wp_base := plan_data; wp_id := plan_id;
           wp_created_at := wp_created_at current_plan;
           wp_created_by := wp_created_by current_plan;
           wp_workouts := wp_workouts current_plan |} in
      (Some updated_plan,
       set_workout_plans_db (dset plan_id updated_plan (workout_plans_db s)) s)
  end.

Definition delete_workout_plan (plan_id : Z) (s : Store) : bool * Store :=
  if dmem plan_id (workout_plans_db s)
  then (true, set_workout_plans_db (ddel plan_id (workout_plans_db s)) s)
  else (false, s).

(** [x in l] on a list of ids *)
Definition id_in (x : Z) (l : list Z) : bool :=
  if in_dec Z.eq_dec x l then true else false.

Definition add_workout_to_plan (plan_id workout_id : Z) (s : Store)
  : option WorkoutPlan * Store :=
  if negb (dmem plan_id (workout_plans_db s))
     || negb (dmem workout_id (workouts_db s))
  then (None, s)
  else
    match dget plan_id (workout_plans_db s) with
    | None => (None, s)
    | Some plan =>
        if negb (id_in workout_id (wp_workouts plan)) then
          let plan := set_wp_workouts (wp_workouts plan ++ [workout_id]) plan in
          (Some plan,
           set_workout_plans_db (dset plan_id plan (workout_plans_db s)) s)
        else (Some plan, s)
    end.

(** [l.remove(x)]: drops the first occurrence *)
Fixpoint list_remove (x : Z) (l : list Z) : list Z :=
  match l with
  | [] => []
  | y :: r => if decide (x = y) then r else y :: list_remove x r
  end.

Definition remove_workout_from_plan (plan_id workout_id : Z) (s : Store)
  : option WorkoutPlan * Store :=
  match dget plan_id (workout_plans_db s) with
  | None => (None, s)
  | Some plan =>
      if id_in workout_id (wp_workouts plan) then
        let plan := set_wp_workouts (list_remove workout_id (wp_workouts plan)) plan in
        (Some plan,
         set_workout_plans_db (dset plan_id plan (workout_plans_db s)) s)
      else (Some plan, s)
  end.

(** *** Progress logs and statistics *)

Definition get_progress_log (log_id : Z) (s : Store) : option ProgressLog :=
  dget log_id (progress_logs_db s).

Definition create_progress_log (e : Env) (log : ProgressLogCreate) (user_id : Z)
    (s : Store) : ProgressLog * Store :=
  let new_log :=
    {| pl_base := log; pl_id := progress_log_id_counter s;
       pl_user_id := user_id; pl_created_at := env_now e |} in
  let s1 := set_progress_logs_db
              (dset (progress_log_id_counter s) new_log (progress_logs_db s)) s in
  let s2 :=
    match dget user_id (user_stats_db s1) with
    | Some user_stats =>
        let st1 := if truthy_float (plb_weight log)
                   then set_us_weight (plb_weight log) user_stats
                   else user_stats in
        let st2 := if truthy_float (plb_body_fat_percentage log)
                   then set_us_body_fat_percentage (plb_body_fat_percentage log) st1
                   else st1 in
        let st3 := set_us_last_updated (env_now e) st2 in
        set_user_stats_db (dset user_id st3 (user_stats_db s1)) s1
    | None => s1
    end in
  (new_log, set_progress_log_id_counter (progress_log_id_counter s2 + 1) s2).

Definition delete_progress_log (log_id : Z) (s : Store) : bool * Store :=
  if dmem log_id (progress_logs_db s)
  then (true, set_progress_logs_db (ddel log_id (progress_logs_db s)) s)
  else (false, s).

Definition get_user_stats (user_id : Z) (s : Store) : option UserStats :=
  dget user_id (user_stats_db s).

(** ** Reachable stores

    The mutating operations as commands; a store is reachable when it is the
    seed store or the result of running a command on a reachable store. *)

Inductive Op :=
| CreateUser (user : UserCreate)
| UpdateUser (user_id : Z) (user_data : UserUpdate)
| DeleteUser (user_id : Z)
| CreateWorkout (workout : WorkoutCreate) (user_id : option Z)
| UpdateWorkout (workout_id : Z) (workout_data : WorkoutCreate)
| DeleteWorkout (workout_id : Z)
| CreateExercise (exercise : ExerciseCreate) (user_id : option Z)
| UpdateExercise (exercise_id : Z) (exercise_data : ExerciseCreate)
| DeleteExercise (exercise_id : Z)
| CreateWorkoutPlan (plan : WorkoutPlanCreate) (user_id : Z)
| UpdateWorkoutPlan (plan_id : Z) (plan_data : WorkoutPlanCreate)
| DeleteWorkoutPlan (plan_id : Z)
| AddWorkoutToPlan (plan_id workout_id : Z)
| RemoveWorkoutFromPlan (plan_id workout_id : Z)
| CreateProgressLog (log : ProgressLogCreate) (user_id : Z)
| DeleteProgressLog (log_id : Z).

Definition run (e : Env) (o : Op) (s : Store) : Store :=
  match o with
  | CreateUser user => snd (create_user e user s)
  | UpdateUser user_id user_data => snd (update_user user_id user_data s)
  | DeleteUser user_id => snd (delete_user user_id s)
  | CreateWorkout workout user_id => snd (create_workout e workout user_id s)
  | UpdateWorkout workout_id workout_data =>
      snd (update_workout workout_id workout_data s)
  | DeleteWorkout workout_id => snd (delete_workout workout_id s)
  | CreateExercise exercise user_id => snd (create_exercise exercise user_id s)
  | UpdateExercise exercise_id exercise_data =>
      snd (update_exercise exercise_id exercise_data s)
  | DeleteExercise exercise_id => snd (delete_exercise exercise_id s)
  | CreateWorkoutPlan plan user_id => snd (create_workout_plan e plan user_id s)
  | UpdateWorkoutPlan plan_id plan_data =>
      snd (update_workout_plan plan_id plan_data s)
  | DeleteWorkoutPlan plan_id => snd (delete_workout_plan plan_id s)
  | AddWorkoutToPlan plan_id workout_id =>
      snd (add_workout_to_plan plan_id workout_id s)
  | RemoveWorkoutFromPlan plan_id workout_id =>
      snd (remove_workout_from_plan plan_id workout_id s)
  | CreateProgressLog log user_id => snd (create_progress_log e log user_id s)
  | DeleteProgressLog log_id => snd (delete_progress_log log_id s)
  end.

Inductive reachable : Store -> Prop :=
| reachable_init (e : Env) : reachable (database e)
| reachable_step (e : Env) (o : Op) (s : Store) :
    reachable s -> reachable (run e o s).

(** What the id counters guarantee in every reachable store. *)
Record store_inv (s : Store) : Prop := {
  (** the ids a workout lists as its exercise sets were all handed out
      already *)
  inv_set_ids : forall wid l x,
    dget wid (workout_exercise_sets s) = Some l -> In x l ->
    x < exercise_set_id_counter s;
  (** a workout is stored under its own id *)
  inv_workout_key : forall wid w,
    dget wid (workouts_db s) = Some w -> w_id w = wid;
  (** user ids start at 1 *)
  inv_user_counter : 0 < user_id_counter s;
  inv_stats_key : forall uid st,
    dget uid (user_stats_db s) = Some st -> 0 < uid;
  (** a plan lists a workout at most once *)
  inv_plan_nodup : forall pid plan,
    dget pid (workout_plans_db s) = Some plan -> List.NoDup (wp_workouts plan)
}.

(** The exercise sets the loop creates from [data] when the counter stands
    at [c]: one per input, in input order, with consecutive ids. *)
Fixpoint materialize (c : Z) (data : list ExerciseSetCreate) : list ExerciseSet :=
  match data with
  | [] => []
  | es_data :: rest => new_exercise_set c es_data :: materialize (c + 1) rest
  end.

(** [exercise_sets_db] after storing each of [sets] under its id. *)
Definition store_sets (sets : list ExerciseSet) (d : dict Z ExerciseSet)
  : dict Z ExerciseSet :=
  fold_left (fun d es => dset (es_id es) es d) sets d.

(** ** Uniqueness of user names and e-mail addresses *)

(** Two users stored under different ids share neither a username nor an
    e-mail address. *)
Definition users_unique (s : Store) : Prop :=
  forall id1 id2 u1 u2,
    id1 <> id2 ->
    dget id1 (users_db s) = Some u1 ->
    dget id2 (users_db s) = Some u2 ->
    (forall name, u_username u1 = Some name -> u_username u2 <> Some name) /\
    (forall email, u_email u1 = Some email -> u_email u2 <> Some email).

(** ** A concrete environment for the examples *)

Definition sample_env : Env :=
  {| env_now := 1762214400; env_today := 20396; env_today_check := 20396;
     get_password_hash := fun password => String.append "$2b$12$" password |}.

(** A call during which the calendar day changes between the two readings
    of [date.today()]. *)
Definition sample_env_midnight : Env :=
  {| env_now := 1762300799; env_today := 20396; env_today_check := 20397;
     get_password_hash := fun password => String.append "$2b$12$" password |}.

Definition sample_base : WorkoutBase :=
  {| wb_title := "Leg Day"; wb_description := None; wb_category := STRENGTH;
     wb_duration_minutes := 20; wb_calories_burned := None; wb_notes := None |}.

Definition sample_set (exercise_id : Z) : ExerciseSetCreate :=
  {| esc_base := {| esb_reps := Some 12; esb_weight := None;
                    esb_duration_seconds := None; esb_distance := None;
                    esb_notes := None |};
     esc_exercise_id := exercise_id |}.

Definition sample_update : WorkoutCreate :=
  {| wc_base := sample_base;
     wc_exercise_sets := Some [sample_set 2; sample_set 3] |}.


(** ** The remaining queries of [crud.py] *)

#[global] Instance WorkoutCategory_eq_dec : EqDecision WorkoutCategory.
Proof. solve_decision. Defined.

#[global] Instance MuscleGroup_eq_dec : EqDecision MuscleGroup.
Proof. solve_decision. Defined.

(** [WorkoutFilter]: every field is optional. *)
Record WorkoutFilter := {
  wf_from_date : option date;
  wf_to_date : option date;
  wf_categories : option (list WorkoutCategory);
  wf_min_duration : option Z;
  wf_max_duration : option Z;
  wf_muscle_groups : option (list MuscleGroup)
}.

(** [x in l] for the members of an enumeration *)
Definition enum_in {A : Type} `{EqDecision A} (x : A) (l : list A) : bool :=
  existsb (fun y => bool_decide (x = y)) l.

(** The body of the loop over [filtered_workouts] in the muscle-group
    filter: the workout is kept when one of its exercise sets that is still
    stored names a stored exercise with one of the wanted muscle groups. *)
Definition targets_muscle_groups (muscle_groups : list MuscleGroup)
    (workout : Workout) (s : Store) : bool :=
  let exercise_ids :=
    omap (fun es_id => match dget es_id (exercise_sets_db s) with
                       | Some es => Some (es_exercise_id es)
                       | None => None
                       end)
         (exercise_set_ids (w_id workout) s) in
  existsb (fun exercise_id =>
             match dget exercise_id (exercises_db s) with
             | Some exercise =>
                 existsb (fun mg => enum_in mg (eb_muscle_groups (ex_base exercise)))
                         muscle_groups
             | None => false
             end)
          exercise_ids.

(** [get_workouts].  [date_of] is [datetime.date()], the calendar day of a
    timestamp.  A [date] is always true; the duration bounds are integers,
    so a bound of 0 is false and is skipped like an unset one. *)
Definition get_workouts (date_of : datetime -> date)
    (filters : option WorkoutFilter) (s : Store) : list Workout :=
  let workouts := dvalues (workouts_db s) in
  match filters with
  | None => workouts
  | Some filters =>
      let fw := workouts in
      let fw := match wf_from_date filters with
                | Some from_date =>
                    List.filter (fun w => from_date <=? date_of (w_created_at w)) fw
                | None => fw
                end in
      let fw := match wf_to_date filters with
                | Some to_date =>
                    List.filter (fun w => date_of (w_created_at w) <=? to_date) fw
                | None => fw
                end in
      let fw := if truthy_list (wf_categories filters)
                then List.filter
                       (fun w => enum_in (wb_category (w_base w))
                                         (default [] (wf_categories filters))) fw
                else fw in
      let fw := if truthy_int (wf_min_duration filters)
                then List.filter
                       (fun w => default 0 (wf_min_duration filters)
                                 <=? wb_duration_minutes (w_base w)) fw
                else fw in
      let fw := if truthy_int (wf_max_duration filters)
                then List.filter
                       (fun w => wb_duration_minutes (w_base w)
                                 <=? default 0 (wf_max_duration filters)) fw
                else fw in
      if truthy_list (wf_muscle_groups filters)
      then List.filter
             (fun w => targets_muscle_groups
                         (default [] (wf_muscle_groups filters)) w s) fw
      else fw
  end.

Definition get_workouts_by_category (category : WorkoutCategory) (s : Store)
  : list Workout :=
  List.filter (fun workout => bool_decide (wb_category (w_base workout) = category))
              (dvalues (workouts_db s)).

Definition get_exercises (s : Store) : list Exercise := dvalues (exercises_db s).

Definition get_exercises_by_muscle_group (muscle_group : MuscleGroup) (s : Store)
  : list Exercise :=
  List.filter (fun ex => enum_in muscle_group (eb_muscle_groups (ex_base ex)))
              (dvalues (exercises_db s)).

Definition get_workout_plans (s : Store) : list WorkoutPlan :=
  dvalues (workout_plans_db s).

Definition get_workout_plans_by_user (user_id : Z) (s : Store) : list WorkoutPlan :=
  List.filter (fun plan => wp_created_by plan =? user_id)
              (dvalues (workout_plans_db s)).

Definition get_progress_logs_by_user (user_id : Z) (s : Store) : list ProgressLog :=
  List.filter (fun log => pl_user_id log =? user_id)
              (dvalues (progress_logs_db s)).

(** ** Authentication ([src/utils/auth.py])

    [verify_password] is passlib's [pwd_context.verify], a library call.
    [authenticate_user] returns the user or [False]; [False] is [None]
    here.  An empty stored hash is false, like a missing one. *)
Definition authenticate_user (verify_password : string -> string -> bool)
    (username password : string) (s : Store) : option User :=
  match find (fun u => bool_decide (u_username u = Some username))
             (dvalues (users_db s)) with
  | None => None
  | Some user =>
      match dget username (users_passwords s) with
      | None => None
      | Some hashed_password =>
          if bool_decide (hashed_password = EmptyString) then None
          else if verify_password password hashed_password then Some user
          else None
      end
  end.

(** ** The HTTP layer ([src/routers])

    A route function either returns a body or raises [HTTPException]; the
    store it leaves behind is the second component.  [current_user] is the
    user the token dependency resolved.  The routers call the CRUD layer as
    [crud.f]. *)
Inductive Response (A : Type) : Type :=
| Returned (body : A)
| HTTPException (status_code : Z) (detail : string).
Arguments Returned {A} body.
Arguments HTTPException {A} status_code detail.

Module crud.
Abbreviation get_user := get_user.
Abbreviation get_user_by_username := get_user_by_username.
Abbreviation get_user_by_email := get_user_by_email.
Abbreviation create_user := create_user.
Abbreviation update_user := update_user.
Abbreviation get_workout := get_workout.
Abbreviation get_workout_detail := get_workout_detail.
Abbreviation get_workouts_by_user := get_workouts_by_user.
Abbreviation create_workout := create_workout.
Abbreviation update_workout := update_workout.
Abbreviation delete_workout := delete_workout.
Abbreviation get_exercise := get_exercise.
Abbreviation create_exercise := create_exercise.
Abbreviation update_exercise := update_exercise.
Abbreviation delete_exercise := delete_exercise.
Abbreviation get_workout_plan := get_workout_plan.
Abbreviation create_workout_plan := create_workout_plan.
Abbreviation update_workout_plan := update_workout_plan.
Abbreviation delete_workout_plan := delete_workout_plan.
Abbreviation add_workout_to_plan := add_workout_to_plan.
Abbreviation remove_workout_from_plan := remove_workout_from_plan.
Abbreviation get_user_stats := get_user_stats.
Abbreviation get_progress_logs_by_user := get_progress_logs_by_user.
Abbreviation get_progress_log := get_progress_log.
Abbreviation create_progress_log := create_progress_log.
Abbreviation delete_progress_log := delete_progress_log.
End crud.

(** *** [routers/users.py] *)
Module users.

Definition register_user (e : Env) (user : UserCreate) (s : Store)
  : Response (option User) * Store :=
  match crud.get_user_by_username (uc_username user) s with
  | Some _ => (HTTPException 400 "Username already registered", s)
  | None =>
      match crud.get_user_by_email (uc_email user) s with
      | Some _ => (HTTPException 400 "Email already registered", s)
      | None =>
          let (new_user, s') := crud.create_user e user s in
          (Returned new_user, s')
      end
  end.

Definition update_user_me (user_update : UserUpdate) (current_user : User)
    (s : Store) : Response User * Store :=
  match crud.update_user (u_id current_user) user_update s with
  | (None, s') => (HTTPException 400 "Failed to update user", s')
  | (Some updated_user, s') => (Returned updated_user, s')
  end.

Definition read_user (user_id : Z) (current_user : User) (s : Store)
  : Response User :=
  match crud.get_user user_id s with
  | None => HTTPException 404 "User not found"
  | Some db_user => Returned db_user
  end.

End users.

(** *** [routers/exercises.py] *)
Module exercises.

Definition get_exercise (exercise_id : Z) (current_user : User) (s : Store)
  : Response Exercise :=
  match crud.get_exercise exercise_id s with
  | None => HTTPException 404 "Exercise not found"
  | Some exercise => Returned exercise
  end.

Definition create_exercise (exercise : ExerciseCreate) (current_user : User)
    (s : Store) : Response Exercise * Store :=
  let (new_exercise, s') :=
    crud.create_exercise exercise (Some (u_id current_user)) s in
  (Returned new_exercise, s').

(** [existing_exercise.created_by and existing_exercise.created_by !=
    current_user.id] *)
Definition created_by_other (existing_exercise : Exercise) (current_user : User)
  : bool :=
  truthy_int (ex_created_by existing_exercise)
  && negb (bool_decide (ex_created_by existing_exercise = Some (u_id current_user))).

Definition update_exercise (exercise_id : Z) (exercise : ExerciseCreate)
    (current_user : User) (s : Store) : Response Exercise * Store :=
  match crud.get_exercise exercise_id s with
  | None => (HTTPException 404 "Exercise not found", s)
  | Some existing_exercise =>
      if created_by_other existing_exercise current_user
      then (HTTPException 403 "Not authorized to update this exercise", s)
      else
        match crud.update_exercise exercise_id exercise s with
        | (None, s') => (HTTPException 400 "Failed to update exercise", s')
        | (Some updated_exercise, s') => (Returned updated_exercise, s')
        end
  end.

Definition delete_exercise (exercise_id : Z) (current_user : User) (s : Store)
  : Response unit * Store :=
  match crud.get_exercise exercise_id s with
  | None => (HTTPException 404 "Exercise not found", s)
  | Some existing_exercise =>
      if created_by_other existing_exercise current_user
      then (HTTPException 403 "Not authorized to delete this exercise", s)
      else
        match crud.delete_exercise exercise_id s with
        | (false, s') =>
            (HTTPException 400
               "Failed to delete exercise. It may be in use in one or more workouts.",
             s')
        | (true, s') => (Returned tt, s')
        end
  end.

End exercises.

(** *** [routers/workouts.py] *)
Module workouts.

Definition get_my_workouts (category : option WorkoutCategory)
    (current_user : User) (s : Store) : list Workout :=
  let workouts := crud.get_workouts_by_user (u_id current_user) s in
  match category with
  | Some category =>
      List.filter (fun w => bool_decide (wb_category (w_base w) = category))
                  workouts
  | None => workouts
  end.

Definition get_workout (workout_id : Z) (current_user : User) (s : Store)
  : Response WorkoutDetail :=
  match crud.get_workout_detail workout_id s with
  | None => HTTPException 404 "Workout not found"
  | Some workout => Returned workout
  end.

Definition create_workout (e : Env) (workout : WorkoutCreate)
    (current_user : User) (s : Store) : Response WorkoutDetail * Store :=
  let (detail, s') := crud.create_workout e workout (Some (u_id current_user)) s in
  (Returned detail, s').

Definition update_workout (workout_id : Z) (workout : WorkoutCreate)
    (current_user : User) (s : Store) : Response WorkoutDetail * Store :=
  match crud.get_workout workout_id s with
  | None => (HTTPException 404 "Workout not found", s)
  | Some existing_workout =>
      if negb (bool_decide (w_user_id existing_workout = Some (u_id current_user)))
      then (HTTPException 403 "Not authorized to update this workout", s)
      else
        match crud.update_workout workout_id workout s with
        | (None, s') => (HTTPException 400 "Failed to update workout", s')
        | (Some updated_workout, s') => (Returned updated_workout, s')
        end
  end.

Definition delete_workout (workout_id : Z) (current_user : User) (s : Store)
  : Response unit * Store :=
  match crud.get_workout workout_id s with
  | None => (HTTPException 404 "Workout not found", s)
  | Some existing_workout =>
      if negb (bool_decide (w_user_id existing_workout = Some (u_id current_user)))
      then (HTTPException 403 "Not authorized to delete this workout", s)
      else
        match crud.delete_workout workout_id s with
        | (false, s') => (HTTPException 400 "Failed to delete workout", s')
        | (true, s') => (Returned tt, s')
        end
  end.

End workouts.

(** *** [routers/workout_plans.py] *)
Module workout_plans.

Definition get_workout_plan (plan_id : Z) (current_user : User) (s : Store)
  : Response WorkoutPlan :=
  match crud.get_workout_plan plan_id s with
  | None => HTTPException 404 "Workout plan not found"
  | Some plan => Returned plan
  end.

Definition create_workout_plan (e : Env) (plan : WorkoutPlanCreate)
    (current_user : User) (s : Store) : Response WorkoutPlan * Store :=
  let (new_plan, s') := crud.create_workout_plan e plan (u_id current_user) s in
  (Returned new_plan, s').

Definition update_workout_plan (plan_id : Z) (plan : WorkoutPlanCreate)
    (current_user : User) (s : Store) : Response WorkoutPlan * Store :=
  match crud.get_workout_plan plan_id s with
  | None => (HTTPException 404 "Workout plan not found", s)
  | Some existing_plan =>
      if negb (wp_created_by existing_plan =? u_id current_user)
      then (HTTPException 403 "Not authorized to update this workout plan", s)
      else
        match crud.update_workout_plan plan_id plan s with
        | (None, s') => (HTTPException 400 "Failed to update workout plan", s')
        | (Some updated_plan, s') => (Returned updated_plan, s')
        end
  end.

Definition delete_workout_plan (plan_id : Z) (current_user : User) (s : Store)
  : Response unit * Store :=
  match crud.get_workout_plan plan_id s with
  | None => (HTTPException 404 "Workout plan not found", s)
  | Some existing_plan =>
      if negb (wp_created_by existing_plan =? u_id current_user)
      then (HTTPException 403 "Not authorized to delete this workout plan", s)
      else
        match crud.delete_workout_plan plan_id s with
        | (false, s') => (HTTPException 400 "Failed to delete workout plan", s')
        | (true, s') => (Returned tt, s')
        end
  end.

Definition add_workout_to_plan (plan_id workout_id : Z) (current_user : User)
    (s : Store) : Response WorkoutPlan * Store :=
  match crud.get_workout_plan plan_id s with
  | None => (HTTPException 404 "Workout plan not found", s)
  | Some existing_plan =>
      if negb (wp_created_by existing_plan =? u_id current_user)
      then (HTTPException 403 "Not authorized to modify this workout plan", s)
      else
        match crud.get_workout workout_id s with
        | None => (HTTPException 404 "Workout not found", s)
        | Some existing_workout =>
            match crud.add_workout_to_plan plan_id workout_id s with
            | (None, s') => (HTTPException 400 "Failed to add workout to plan", s')
            | (Some updated_plan, s') => (Returned updated_plan, s')
            end
        end
  end.

Definition remove_workout_from_plan (plan_id workout_id : Z)
    (current_user : User) (s : Store) : Response WorkoutPlan * Store :=
  match crud.get_workout_plan plan_id s with
  | None => (HTTPException 404 "Workout plan not found", s)
  | Some existing_plan =>
      if negb (wp_created_by existing_plan =? u_id current_user)
      then (HTTPException 403 "Not authorized to modify this workout plan", s)
      else
        match crud.remove_workout_from_plan plan_id workout_id s with
        | (None, s') =>
            (HTTPException 400 "Failed to remove workout from plan", s')
        | (Some updated_plan, s') => (Returned updated_plan, s')
        end
  end.

End workout_plans.

(** *** [routers/progress.py] *)
Module progress.

Definition get_user_stats (current_user : User) (s : Store) : Response UserStats :=
  match crud.get_user_stats (u_id current_user) s with
  | None => HTTPException 404 "User stats not found"
  | Some stats => Returned stats
  end.

(** The date bounds are [date] objects, which are always true. *)
Definition get_progress_logs (from_date to_date : option date)
    (current_user : User) (s : Store) : list ProgressLog :=
  let logs := crud.get_progress_logs_by_user (u_id current_user) s in
  let logs := match from_date with
              | Some from_date =>
                  List.filter (fun log => from_date <=? plb_log_date (pl_base log)) logs
              | None => logs
              end in
  match to_date with
  | Some to_date =>
      List.filter (fun log => plb_log_date (pl_base log) <=? to_date) logs
  | None => logs
  end.

Definition get_progress_log (log_id : Z) (current_user : User) (s : Store)
  : Response ProgressLog :=
  match crud.get_progress_log log_id s with
  | None => HTTPException 404 "Progress log not found"
  | Some log =>
      if negb (pl_user_id log =? u_id current_user)
      then HTTPException 403 "Not authorized to access this progress log"
      else Returned log
  end.

Definition create_progress_log (e : Env) (log : ProgressLogCreate)
    (current_user : User) (s : Store) : Response ProgressLog * Store :=
  let (new_log, s') := crud.create_progress_log e log (u_id current_user) s in
  (Returned new_log, s').

Definition delete_progress_log (log_id : Z) (current_user : User) (s : Store)
  : Response unit * Store :=
  match crud.get_progress_log log_id s with
  | None => (HTTPException 404 "Progress log not found", s)
  | Some log =>
      if negb (pl_user_id log =? u_id current_user)
      then (HTTPException 403 "Not authorized to delete this progress log", s)
      else
        match crud.delete_progress_log log_id s with
        | (false, s') => (HTTPException 400 "Failed to delete progress log", s')
        | (true, s') => (Returned tt, s')
        end
  end.

(** Returns the dictionary [{"streak_days": ..., "last_workout_date": ...}]. *)
Definition get_workout_streak (current_user : User) (s : Store)
  : Response (Z * option date) :=
  match crud.get_user_stats (u_id current_user) s with
  | None => HTTPException 404 "User stats not found"
  | Some stats => Returned (us_streak_days stats, us_last_workout_date stats)
  end.

End progress.

(** ** Further invariants of reachable stores *)

(** Every key in use lies below the counter that hands out keys for its
    collection. *)
Record ids_fresh (s : Store) : Prop := {
  fresh_users : forall k v,
    dget k (users_db s) = Some v -> k < user_id_counter s;
  fresh_stats : forall k v,
    dget k (user_stats_db s) = Some v -> k < user_id_counter s;
  fresh_workouts : forall k v,
    dget k (workouts_db s) = Some v -> k < workout_id_counter s;
  fresh_lists : forall k v,
    dget k (workout_exercise_sets s) = Some v -> k < workout_id_counter s;
  fresh_exercises : forall k v,
    dget k (exercises_db s) = Some v -> k < exercise_id_counter s;
  fresh_sets : forall k v,
    dget k (exercise_sets_db s) = Some v -> k < exercise_set_id_counter s;
  fresh_plans : forall k v,
    dget k (workout_plans_db s) = Some v -> k < workout_plan_id_counter s;
  fresh_logs : forall k v,
    dget k (progress_logs_db s) = Some v -> k < progress_log_id_counter s
}.

(** Exercise sets belong to workouts: every id a workout lists is stored,
    under that id, and no id is listed by two workouts. *)
Record sets_owned (s : Store) : Prop := {
  owned_stored : forall wid l x,
    dget wid (workout_exercise_sets s) = Some l -> In x l ->
    is_Some (dget x (exercise_sets_db s));
  owned_once : forall w1 w2 l1 l2 x,
    dget w1 (workout_exercise_sets s) = Some l1 ->
    dget w2 (workout_exercise_sets s) = Some l2 ->
    In x l1 -> In x l2 -> w1 = w2;
  owned_nodup : forall wid l,
    dget wid (workout_exercise_sets s) = Some l -> List.NoDup l;
  owned_keyed : forall k es,
    dget k (exercise_sets_db s) = Some es -> es_id es = k
}.

(** Every stored exercise set names a stored exercise. *)
Definition refs_ok (s : Store) : Prop :=
  forall es, In es (dvalues (exercise_sets_db s)) ->
             is_Some (dget (es_exercise_id es) (exercises_db s)).

(** The exercise ids an operation brings into the store. *)
Definition op_exercise_ids (o : Op) : list Z :=
  match o with
  | CreateWorkout workout _ =>
      map esc_exercise_id (default [] (wc_exercise_sets workout))
  | UpdateWorkout _ workout_data =>
      map esc_exercise_id (default [] (wc_exercise_sets workout_data))
  | _ => []
  end.

(** A sequence of commands, each with the environment it ran in. *)
Definition runs (ops : list (Env * Op)) (s : Store) : Store :=
  fold_left (fun s eo => run (fst eo) (snd eo) s) ops s.

(** [s'] has grown out of [s]: no counter went down, and a key in use in
    [s'] was in use in [s] or was handed out since. *)
Record grows_from (s s' : Store) : Prop := {
  grow_user_counter : user_id_counter s <= user_id_counter s';
  grow_workout_counter : workout_id_counter s <= workout_id_counter s';
  grow_exercise_counter : exercise_id_counter s <= exercise_id_counter s';
  grow_set_counter : exercise_set_id_counter s <= exercise_set_id_counter s';
  grow_plan_counter : workout_plan_id_counter s <= workout_plan_id_counter s';
  grow_log_counter : progress_log_id_counter s <= progress_log_id_counter s';
  grow_users : forall k v, dget k (users_db s') = Some v ->
    is_Some (dget k (users_db s)) \/ user_id_counter s <= k;
  grow_workouts : forall k v, dget k (workouts_db s') = Some v ->
    is_Some (dget k (workouts_db s)) \/ workout_id_counter s <= k;
  grow_exercises : forall k v, dget k (exercises_db s') = Some v ->
    is_Some (dget k (exercises_db s)) \/ exercise_id_counter s <= k;
  grow_sets : forall k v, dget k (exercise_sets_db s') = Some v ->
    is_Some (dget k (exercise_sets_db s)) \/ exercise_set_id_counter s <= k;
  grow_plans : forall k v, dget k (workout_plans_db s') = Some v ->
    is_Some (dget k (workout_plans_db s)) \/ workout_plan_id_counter s <= k;
  grow_logs : forall k v, dget k (progress_logs_db s') = Some v ->
    is_Some (dget k (progress_logs_db s)) \/ progress_log_id_counter s <= k
}.

Definition sample_plain : WorkoutCreate :=
  {| wc_base := sample_base; wc_exercise_sets := None |}.

(** A Python dictionary holds each key once. *)
Definition dict_wf {K V : Type} (d : dict K V) : Prop := List.NoDup (map fst d).

Record store_wf (s : Store) : Prop := {
  wf_users : dict_wf (users_db s);
  wf_passwords : dict_wf (users_passwords s);
  wf_exercises : dict_wf (exercises_db s);
  wf_sets : dict_wf (exercise_sets_db s);
  wf_workouts : dict_wf (workouts_db s);
  wf_lists : dict_wf (workout_exercise_sets s);
  wf_plans : dict_wf (workout_plans_db s);
  wf_stats : dict_wf (user_stats_db s);
  wf_logs : dict_wf (progress_logs_db s)
}.

Definition sample_user_create : UserCreate :=
  {| uc_email := "alex@example.com"; uc_username := "alex";
     uc_full_name := Some "Alex"; uc_password := "correct horse" |}.

Definition sample_empty_patch : UserUpdate :=
  {| uu_email := None; uu_username := None; uu_full_name := None |}.

Definition sample_rename (name : string) : UserUpdate :=
  {| uu_email := None; uu_username := Some (Some name); uu_full_name := None |}.

(** A password check for the examples: it accepts a password exactly
    against the hash [sample_env] gives it. *)
Definition sample_verify (plain_password hashed_password : string) : bool :=
  bool_decide (hashed_password = get_password_hash sample_env plain_password).

Definition sample_log : ProgressLogCreate :=
  {| plb_log_date := 20396; plb_weight := Some 180.0%float;
     plb_body_fat_percentage := None; plb_notes := None;
     plb_measurements := None |}.

(** [datetime.date()] for timestamps in seconds, for the examples. *)
Definition sample_date_of (t : datetime) : date := t / 86400.

Definition sample_filter : WorkoutFilter :=
  {| wf_from_date := Some 20000; wf_to_date := None;
     wf_categories := Some [CARDIO; MOBILITY];
     wf_min_duration := Some 45; wf_max_duration := Some 0;
     wf_muscle_groups := Some [CORE] |}.

Definition no_filter : WorkoutFilter :=
  {| wf_from_date := None; wf_to_date := None; wf_categories := None;
     wf_min_duration := None; wf_max_duration := None;
     wf_muscle_groups := None |}.

(** The status code of the exception a route raised, if it raised one. *)
Definition raised {A : Type} (r : Response A) : option Z :=
  match r with
  | Returned _ => None
  | HTTPException status_code _ => Some status_code
  end.

Definition sample_caller (id : Z) : User :=
  {| u_id := id; u_email := Some "caller@example.com";
     u_username := Some "caller"; u_full_name := None;
     u_is_active := true; u_created_at := 0 |}.

(** * Properties *)

(** ** Dictionary facts *)
Section dict_facts.
Context {K V : Type} `{EqDecision K}.
Implicit Types (d : dict K V).

Lemma dget_dset (k k' : K) (v : V) d :
  dget k' (dset k v d) = if decide (k' = k) then Some v else dget k' d.
Proof.
  induction d as [|[k0 v0] r IH]; simpl.
  - reflexivity.
  - destruct (decide (k = k0)) as [->|Hk]; simpl.
    + destruct (decide (k' = k0)); reflexivity.
    + destruct (decide (k' = k0)) as [->|Hk'].
      * destruct (decide (k0 = k)); congruence.
      * exact IH.
Qed.

Lemma dget_dset_eq (k : K) (v : V) d : dget k (dset k v d) = Some v.
Proof. rewrite dget_dset. destruct (decide (k = k)); congruence. Qed.

Lemma dget_dset_ne (k k' : K) (v : V) d :
  k' <> k -> dget k' (dset k v d) = dget k' d.
Proof. intros H. rewrite dget_dset. destruct (decide (k' = k)); congruence. Qed.

Lemma dget_ddel (k k' : K) d :
  dget k' (ddel k d) = if decide (k' = k) then None else dget k' d.
Proof.
  induction d as [|[k0 v0] r IH]; simpl.
  - destruct (decide (k' = k)); reflexivity.
  - destruct (decide (k = k0)) as [->|Hk]; simpl.
    + rewrite IH. destruct (decide (k' = k0)); reflexivity.
    + rewrite IH. destruct (decide (k' = k0)) as [->|Hk'].
      * destruct (decide (k0 = k)); congruence.
      * reflexivity.
Qed.

Lemma dget_ddel_eq (k : K) d : dget k (ddel k d) = None.
Proof. rewrite dget_ddel. destruct (decide (k = k)); congruence. Qed.

Lemma dget_ddel_ne (k k' : K) d :
  k' <> k -> dget k' (ddel k d) = dget k' d.
Proof. intros H. rewrite dget_ddel. destruct (decide (k' = k)); congruence. Qed.

(** Re-assigning the value a key already holds leaves the dictionary as
    it is (entries keep their position). *)
Lemma dset_same (k : K) (v : V) d :
  dget k d = Some v -> dset k v d = d.
Proof.
  induction d as [|[k0 v0] r IH]; simpl; [discriminate|].
  destruct (decide (k = k0)) as [->|Hk]; intros H.
  - congruence.
  - f_equal. exact (IH H).
Qed.

Lemma dmem_true (k : K) d : dmem k d = true <-> is_Some (dget k d).
Proof.
  unfold dmem. destruct (dget k d); split; intros H; try reflexivity;
    try discriminate; eauto. destruct H; discriminate.
Qed.

Lemma dmem_false (k : K) d : dmem k d = false <-> dget k d = None.
Proof. unfold dmem. destruct (dget k d); split; congruence. Qed.

(** Every value found under a key is among [values()]. *)
Lemma dget_dvalues (k : K) (v : V) d :
  dget k d = Some v -> In v (dvalues d).
Proof.
  induction d as [|[k0 v0] r IH]; simpl; [discriminate|].
  destruct (decide (k = k0)); intros H.
  - left. congruence.
  - right. exact (IH H).
Qed.

(** Assignments to one key overwrite each other. *)
Lemma dset_dset (k : K) (v v' : V) d : dset k v (dset k v' d) = dset k v d.
Proof.
  induction d as [|[k0 v0] r IH]; simpl.
  - destruct (decide (k = k)); congruence.
  - destruct (decide (k = k0)) as [->|Hk]; simpl.
    + destruct (decide (k0 = k0)); congruence.
    + destruct (decide (k = k0)); [congruence|]. f_equal. exact IH.
Qed.
End dict_facts.

(** Field assignments reduce to the record they build. *)
Ltac store_simpl :=
  cbn [users_db users_passwords exercises_db exercise_sets_db workouts_db
       workout_exercise_sets workout_plans_db user_stats_db progress_logs_db
       user_id_counter workout_id_counter exercise_id_counter
       exercise_set_id_counter workout_plan_id_counter
       progress_log_id_counter fst snd
       set_users_db set_users_passwords set_exercises_db set_exercise_sets_db
       set_workouts_db set_workout_exercise_sets set_workout_plans_db
       set_user_stats_db set_progress_logs_db set_user_id_counter
       set_workout_id_counter set_exercise_id_counter
       set_exercise_set_id_counter set_workout_plan_id_counter
       set_progress_log_id_counter] in *.

(** ** The exercise-set loop *)

(** The created sets carry consecutive ids starting at the counter. *)
Lemma materialize_ids_range c data x :
  In x (map es_id (materialize c data)) ->
  c <= x < c + Z.of_nat (length data).
Proof.
  revert c. induction data as [|d r IH]; intros c; simpl; [tauto|].
  intros [<-|H]; [lia|]. apply IH in H. lia.
Qed.

(** They repeat the input, position by position. *)
Lemma materialize_payload c data :
  map (fun es => (es_base es, es_exercise_id es)) (materialize c data)
  = map (fun es_data => (esc_base es_data, esc_exercise_id es_data)) data.
Proof.
  revert c. induction data as [|d r IH]; intros c; simpl; [reflexivity|].
  f_equal. apply IH.
Qed.

(** Closed form of the loop: it returns the materialized sets, stores each
    under its id, appends their ids to the workout's list and advances the
    counter by the number of inputs. *)
Lemma add_exercise_sets_spec wid data s l0 :
  dget wid (workout_exercise_sets s) = Some l0 ->
  add_exercise_sets wid data s =
    (materialize (exercise_set_id_counter s) data,
     set_exercise_set_id_counter
       (exercise_set_id_counter s + Z.of_nat (length data))
       (set_workout_exercise_sets
          (dset wid (l0 ++ map es_id (materialize (exercise_set_id_counter s) data))
                (workout_exercise_sets s))
          (set_exercise_sets_db
             (store_sets (materialize (exercise_set_id_counter s) data)
                         (exercise_sets_db s)) s))).
Proof.
  revert s l0. induction data as [|d r IH]; intros s l0 Hget.
  - simpl. rewrite app_nil_r, (dset_same _ _ _ Hget), Z.add_0_r.
    destruct s; reflexivity.
  - cbn [add_exercise_sets].
    match goal with |- context [add_exercise_sets wid r ?s3] =>
      rewrite (IH s3 (l0 ++ [exercise_set_id_counter s])) end.
    + unfold append_exercise_set_id. store_simpl. rewrite Hget.
      rewrite dset_dset, <- app_assoc.
      cbn [materialize map length es_id new_exercise_set app].
      rewrite Nat2Z.inj_succ.
      replace (exercise_set_id_counter s + 1 + Z.of_nat (length r))
        with (exercise_set_id_counter s + Z.succ (Z.of_nat (length r))) by lia.
      reflexivity.
    + unfold append_exercise_set_id. store_simpl. rewrite Hget. apply dget_dset_eq.
Qed.

(** Resetting the workout's list to [[]] and then running the loop: the key
    is present when the loop appends to it, and the list ends up holding
    exactly the new ids. *)
Lemma append_after_reset wid data s :
  add_exercise_sets wid data
    (set_workout_exercise_sets (dset wid [] (workout_exercise_sets s)) s) =
    (materialize (exercise_set_id_counter s) data,
     set_exercise_set_id_counter
       (exercise_set_id_counter s + Z.of_nat (length data))
       (set_workout_exercise_sets
          (dset wid (map es_id (materialize (exercise_set_id_counter s) data))
                (workout_exercise_sets s))
          (set_exercise_sets_db
             (store_sets (materialize (exercise_set_id_counter s) data)
                         (exercise_sets_db s)) s))).
Proof.
  rewrite (add_exercise_sets_spec wid data _ []).
  - store_simpl. rewrite dset_dset. reflexivity.
  - store_simpl. apply dget_dset_eq.
Qed.

Lemma materialize_ids_nodup c data : List.NoDup (map es_id (materialize c data)).
Proof.
  revert c. induction data as [|d r IH]; intros c; simpl; constructor.
  - intros H. apply materialize_ids_range in H. lia.
  - apply IH.
Qed.

Lemma dget_store_sets_other x sets (d : dict Z ExerciseSet) :
  ~ In x (map es_id sets) -> dget x (store_sets sets d) = dget x d.
Proof.
  revert d. induction sets as [|a r IH]; intros d H; simpl in *; [reflexivity|].
  unfold store_sets in *. simpl. rewrite IH by tauto.
  apply dget_dset_ne. intros ->. tauto.
Qed.

Lemma dget_store_sets_in es sets (d : dict Z ExerciseSet) :
  List.NoDup (map es_id sets) -> In es sets ->
  dget (es_id es) (store_sets sets d) = Some es.
Proof.
  revert d. induction sets as [|a r IH]; intros d Hnd Hin; simpl in *; [tauto|].
  inversion Hnd as [|? ? Hnotin Hnd']; subst.
  unfold store_sets in *. simpl. destruct Hin as [->|Hin].
  - fold (store_sets r (dset (es_id es) es d)).
    rewrite dget_store_sets_other by assumption. apply dget_dset_eq.
  - apply IH; assumption.
Qed.

(** The deletion loop removes exactly the listed ids. *)
Lemma dget_remove_exercise_sets x ids (d : dict Z ExerciseSet) :
  dget x (remove_exercise_sets ids d) =
  if in_dec Z.eq_dec x ids then None else dget x d.
Proof.
  revert d. induction ids as [|a r IH]; intros d.
  - reflexivity.
  - unfold remove_exercise_sets in *. cbn [fold_left]. rewrite IH.
    assert (Hd : dget x (if dmem a d then ddel a d else d)
                 = if decide (x = a) then None else dget x d).
    { destruct (dmem a d) eqn:Hm.
      - apply dget_ddel.
      - apply dmem_false in Hm.
        destruct (decide (x = a)) as [->|]; [assumption|reflexivity]. }
    rewrite Hd.
    destruct (in_dec Z.eq_dec x r) as [Hr|Hr];
      destruct (in_dec Z.eq_dec x (a :: r)) as [Har|Har]; cbn [In] in *.
    + reflexivity.
    + tauto.
    + destruct Har as [->|]; [|tauto].
      destruct (decide (x = x)); congruence.
    + destruct (decide (x = a)) as [->|]; [tauto|reflexivity].
Qed.

Lemma id_in_true x l : id_in x l = true <-> In x l.
Proof. unfold id_in. destruct (in_dec Z.eq_dec x l); split; auto; discriminate. Qed.

Lemma id_in_false x l : id_in x l = false <-> ~ In x l.
Proof.
  unfold id_in. destruct (in_dec Z.eq_dec x l); split; auto; try discriminate.
  tauto.
Qed.

Lemma list_remove_subset x y l : In y (list_remove x l) -> In y l.
Proof.
  induction l as [|a r IH]; simpl; [tauto|].
  destruct (decide (x = a)); simpl; tauto.
Qed.

Lemma list_remove_nodup x l : List.NoDup l -> List.NoDup (list_remove x l).
Proof.
  induction 1 as [|a r Hnotin Hnd IH]; simpl; [constructor|].
  destruct (decide (x = a)); [assumption|].
  constructor; [|assumption]. intros H. apply Hnotin.
  eapply list_remove_subset; eassumption.
Qed.

Lemma nodup_snoc (x : Z) l : List.NoDup l -> ~ In x l -> List.NoDup (l ++ [x]).
Proof.
  intros Hnd Hx. induction Hnd as [|a r Hnotin Hnd IH]; simpl.
  - constructor; [simpl; tauto | constructor].
  - constructor.
    + rewrite in_app_iff. simpl in *. intros [H|[H|[]]]; [tauto|]. subst. tauto.
    + apply IH. simpl in Hx. tauto.
Qed.

(** ** The invariant holds in every reachable store *)

(** Case analysis on lookups after an assignment or a deletion. *)
Ltac dict_cases :=
  repeat match goal with
  | H : None = Some _ |- _ => discriminate H
  | H : Some _ = Some _ |- _ => injection H as H; try subst
  | H : context [dget _ (dset _ _ _)] |- _ => rewrite dget_dset in H
  | H : context [dget _ (ddel _ _)] |- _ => rewrite dget_ddel in H
  | H : context [if decide ?P then _ else _] |- _ => destruct (decide P); try subst
  end.

Lemma database_inv e : store_inv (database e).
Proof.
  split; cbn -[Z.lt]; intros; dict_cases; cbn in *;
    repeat match goal with
    | H : _ \/ _ |- _ => destruct H; try subst
    | H : False |- _ => destruct H
    end; try lia; try reflexivity;
    repeat constructor; cbn; intuition lia.
Qed.

Lemma create_user_inv e user s :
  store_inv s -> store_inv (snd (create_user e user s)).
Proof.
  intros [H1 H2 H3 H4 H5]. unfold create_user.
  destruct (get_user_by_username _ s); [split; assumption|].
  destruct (get_user_by_email _ s); [split; assumption|].
  split; store_simpl; intros; dict_cases; eauto; lia.
Qed.

Lemma update_user_inv user_id user_data s :
  store_inv s -> store_inv (snd (update_user user_id user_data s)).
Proof.
  intros [H1 H2 H3 H4 H5]. unfold update_user.
  destruct (dget user_id (users_db s)); split; store_simpl; assumption.
Qed.

Lemma delete_user_inv user_id s :
  store_inv s -> store_inv (snd (delete_user user_id s)).
Proof.
  intros [H1 H2 H3 H4 H5]. unfold delete_user.
  destruct (dget user_id (users_db s)) as [user|]; [|split; assumption].
  store_simpl. destruct (u_username user) as [name|]; store_simpl;
    [destruct (dmem name (users_passwords s))|]; store_simpl;
    destruct (dmem user_id (user_stats_db s));
    split; store_simpl; intros; dict_cases; eauto.
Qed.

(** With no sets to add the loop does nothing, so the guard on the input
    list only decides whether the loop is entered. *)
Lemma guarded_loop wid (o : option (list ExerciseSetCreate)) s :
  (if truthy_list o then add_exercise_sets wid (default [] o) s else ([], s))
  = add_exercise_sets wid (default [] o) s.
Proof. destruct o as [[|d r]|]; reflexivity. Qed.

(** [create_workout] in closed form. *)
Lemma create_workout_eq e workout user_id s :
  let wid := workout_id_counter s in
  let c := exercise_set_id_counter s in
  let data := default [] (wc_exercise_sets workout) in
  let new_workout :=
    {| w_base := wc_base workout; w_id := wid;
       w_created_at := env_now e; w_user_id := user_id |} in
  create_workout e workout user_id s =
    ({| wd_workout := new_workout; wd_exercise_sets := materialize c data |},
     set_workout_id_counter (wid + 1)
       (set_user_stats_db
          (update_user_stats e (wb_duration_minutes (wc_base workout)) user_id
             (user_stats_db s))
          (set_exercise_set_id_counter (c + Z.of_nat (length data))
             (set_workout_exercise_sets
                (dset wid (map es_id (materialize c data)) (workout_exercise_sets s))
                (set_exercise_sets_db
                   (store_sets (materialize c data) (exercise_sets_db s))
                   (set_workouts_db (dset wid new_workout (workouts_db s)) s)))))).
Proof.
  intros wid c data new_workout. unfold create_workout.
  rewrite guarded_loop, append_after_reset. reflexivity.
Qed.

(** [update_workout] on a stored workout, in closed form, for an input that
    carries a non-empty list of sets and for one that does not. *)
Lemma update_workout_sets_eq workout_id workout_data s old :
  dget workout_id (workouts_db s) = Some old ->
  truthy_list (wc_exercise_sets workout_data) = true ->
  let c := exercise_set_id_counter s in
  let data := default [] (wc_exercise_sets workout_data) in
  let updated_workout :=
    {| w_base := wc_base workout_data; w_id := workout_id;
       w_created_at := w_created_at old; w_user_id := w_user_id old |} in
  snd (update_workout workout_id workout_data s) =
    set_exercise_set_id_counter (c + Z.of_nat (length data))
      (set_workout_exercise_sets
         (dset workout_id (map es_id (materialize c data)) (workout_exercise_sets s))
         (set_exercise_sets_db
            (store_sets (materialize c data)
               (remove_exercise_sets (exercise_set_ids workout_id s)
                  (exercise_sets_db s)))
            (set_workouts_db (dset workout_id updated_workout (workouts_db s)) s))).
Proof.
  intros Hold Htruthy c data updated_workout. unfold update_workout.
  rewrite Hold, Htruthy. cbn [snd]. rewrite append_after_reset. reflexivity.
Qed.

Lemma update_workout_keep_eq workout_id workout_data s old :
  dget workout_id (workouts_db s) = Some old ->
  truthy_list (wc_exercise_sets workout_data) = false ->
  snd (update_workout workout_id workout_data s) =
    set_workouts_db
      (dset workout_id
         {| w_base := wc_base workout_data; w_id := workout_id;
            w_created_at := w_created_at old; w_user_id := w_user_id old |}
         (workouts_db s)) s.
Proof.
  intros Hold Hfalsy. unfold update_workout. rewrite Hold, Hfalsy. reflexivity.
Qed.

Lemma update_user_stats_key e duration user_id stats uid st :
  dget uid (update_user_stats e duration user_id stats) = Some st ->
  is_Some (dget uid stats).
Proof.
  unfold update_user_stats. destruct (truthy_int user_id); [|eauto].
  destruct user_id as [u|]; [|eauto].
  destruct (dget u stats) eqn:Hu; [|eauto].
  intros H. dict_cases; eauto.
Qed.

Lemma create_workout_inv e workout user_id s :
  store_inv s -> store_inv (snd (create_workout e workout user_id s)).
Proof.
  intros [H1 H2 H3 H4 H5]. rewrite create_workout_eq.
  split; store_simpl; intros; dict_cases; eauto.
  - match goal with H : In _ (map es_id _) |- _ =>
      apply materialize_ids_range in H end. lia.
  - match goal with H : dget _ (workout_exercise_sets s) = Some _ |- _ =>
      pose proof (H1 _ _ _ H ltac:(eassumption)) end. lia.
  - match goal with H : dget _ (update_user_stats _ _ _ _) = Some _ |- _ =>
      apply update_user_stats_key in H; destruct H end. eauto.
Qed.

Lemma update_workout_inv workout_id workout_data s :
  store_inv s -> store_inv (snd (update_workout workout_id workout_data s)).
Proof.
  intros Hinv. destruct (dget workout_id (workouts_db s)) as [old|] eqn:Hold.
  2:{ unfold update_workout. rewrite Hold. exact Hinv. }
  destruct Hinv as [H1 H2 H3 H4 H5].
  destruct (truthy_list (wc_exercise_sets workout_data)) eqn:Ht.
  - rewrite (update_workout_sets_eq _ _ _ _ Hold Ht).
    split; store_simpl; intros; dict_cases; eauto.
    + match goal with H : In _ (map es_id _) |- _ =>
        apply materialize_ids_range in H end. lia.
    + match goal with H : dget _ (workout_exercise_sets s) = Some _ |- _ =>
        pose proof (H1 _ _ _ H ltac:(eassumption)) end. lia.
  - rewrite (update_workout_keep_eq _ _ _ _ Hold Ht).
    split; store_simpl; intros; dict_cases; eauto.
Qed.

Lemma delete_workout_inv workout_id s :
  store_inv s -> store_inv (snd (delete_workout workout_id s)).
Proof.
  intros [H1 H2 H3 H4 H5]. unfold delete_workout.
  destruct (dmem workout_id (workouts_db s)); [|split; assumption].
  store_simpl. destruct (dmem workout_id (workout_exercise_sets s));
    split; store_simpl; intros; dict_cases; eauto.
Qed.

Lemma exercise_ops_inv s :
  store_inv s ->
  (forall exercise user_id, store_inv (snd (create_exercise exercise user_id s))) /\
  (forall exercise_id exercise_data,
      store_inv (snd (update_exercise exercise_id exercise_data s))) /\
  (forall exercise_id, store_inv (snd (delete_exercise exercise_id s))).
Proof.
  intros [H1 H2 H3 H4 H5]. repeat split; store_simpl; try assumption;
    unfold update_exercise, delete_exercise in *;
    repeat match goal with
    | |- context [match ?x with _ => _ end] => destruct x
    end; store_simpl; eauto.
Qed.

Lemma plan_ops_inv e s :
  store_inv s ->
  (forall plan user_id, store_inv (snd (create_workout_plan e plan user_id s))) /\
  (forall plan_id plan_data,
      store_inv (snd (update_workout_plan plan_id plan_data s))) /\
  (forall plan_id, store_inv (snd (delete_workout_plan plan_id s))) /\
  (forall plan_id workout_id,
      store_inv (snd (add_workout_to_plan plan_id workout_id s))) /\
  (forall plan_id workout_id,
      store_inv (snd (remove_workout_from_plan plan_id workout_id s))).
Proof.
  intros [H1 H2 H3 H4 H5].
  unfold create_workout_plan, update_workout_plan, delete_workout_plan,
    add_workout_to_plan, remove_workout_from_plan.
  repeat split; store_simpl; try assumption;
    repeat match goal with
    | |- context [match ?x with _ => _ end] => destruct x eqn:?
    end; store_simpl; try assumption; intros; dict_cases; cbn; eauto.
  - constructor.
  - apply nodup_snoc; [eauto|]. apply id_in_false.
    match goal with H : negb _ = true |- _ => apply negb_true_iff in H; exact H end.
  - apply list_remove_nodup. eauto.
Qed.

Lemma log_ops_inv e s :
  store_inv s ->
  (forall log user_id, store_inv (snd (create_progress_log e log user_id s))) /\
  (forall log_id, store_inv (snd (delete_progress_log log_id s))).
Proof.
  intros [H1 H2 H3 H4 H5]. unfold create_progress_log, delete_progress_log.
  repeat split; store_simpl; try assumption;
    repeat match goal with
    | |- context [match dget ?k ?d with _ => _ end] => destruct (dget k d) eqn:?
    | |- context [if dmem ?k ?d then _ else _] => destruct (dmem k d) eqn:?
    end; store_simpl; try assumption; intros; dict_cases; eauto.
Qed.

Lemma run_inv e o s : store_inv s -> store_inv (run e o s).
Proof.
  intros Hinv. destruct o; cbn [run].
  - apply create_user_inv, Hinv.
  - apply update_user_inv, Hinv.
  - apply delete_user_inv, Hinv.
  - apply create_workout_inv, Hinv.
  - apply update_workout_inv, Hinv.
  - apply delete_workout_inv, Hinv.
  - apply (exercise_ops_inv s Hinv).
  - apply (exercise_ops_inv s Hinv).
  - apply (exercise_ops_inv s Hinv).
  - apply (plan_ops_inv e s Hinv).
  - apply (plan_ops_inv e s Hinv).
  - apply (plan_ops_inv e s Hinv).
  - apply (plan_ops_inv e s Hinv).
  - apply (plan_ops_inv e s Hinv).
  - apply (log_ops_inv e s Hinv).
  - apply (log_ops_inv e s Hinv).
Qed.

Lemma reachable_inv s : reachable s -> store_inv s.
Proof.
  induction 1 as [e|e o s _ IH]; [apply database_inv | apply run_inv, IH].
Qed.

(** ** Workouts and their exercise sets *)

(** Reading back the sets just stored, in list order, gives them back. *)
Lemma omap_store_sets sets (d : dict Z ExerciseSet) :
  List.NoDup (map es_id sets) ->
  omap (fun es_id => dget es_id (store_sets sets d)) (map es_id sets) = sets.
Proof.
  intros Hnd.
  assert (H : forall l, (forall es, In es l -> In es sets) ->
            omap (fun es_id => dget es_id (store_sets sets d)) (map es_id l) = l).
  { induction l as [|a r IH]; intros Hsub; [reflexivity|].
    cbn [map omap list_omap].
    rewrite (dget_store_sets_in a sets d Hnd) by (apply Hsub; left; reflexivity).
    f_equal. apply IH. intros es Hes. apply Hsub. right. exact Hes. }
  apply H. auto.
Qed.

(** What [update_workout] returns when it replaces the sets. *)
Lemma update_workout_result workout_id workout_data s old :
  dget workout_id (workouts_db s) = Some old ->
  truthy_list (wc_exercise_sets workout_data) = true ->
  fst (update_workout workout_id workout_data s) =
    Some {| wd_workout :=
              {| w_base := wc_base workout_data; w_id := workout_id;
                 w_created_at := w_created_at old; w_user_id := w_user_id old |};
            wd_exercise_sets :=
              materialize (exercise_set_id_counter s)
                          (default [] (wc_exercise_sets workout_data)) |}.
Proof.
  intros Hold Ht.
  assert (Hfst : fst (update_workout workout_id workout_data s)
                 = get_workout_detail workout_id
                     (snd (update_workout workout_id workout_data s))).
  { unfold update_workout. rewrite Hold. reflexivity. }
  rewrite Hfst, (update_workout_sets_eq _ _ _ _ Hold Ht).
  unfold get_workout_detail, exercise_set_ids. store_simpl.
  rewrite !dget_dset_eq. cbn [default].
  rewrite omap_store_sets by apply materialize_ids_nodup. reflexivity.
Qed.

(** C1: [update_workout] on a stored workout with a non-empty list of
    exercise sets, in a reachable store.  Every exercise set the workout
    owned before is gone from [exercise_sets_db]; the workout's membership
    list is exactly the ids of the newly created sets, which are stored
    under those ids, repeat the input position by position and are what the
    call returns; the workout keeps its id, [created_at] and [user_id]. *)
Theorem update_workout_replaces_exercise_sets
    workout_id workout_data s old es_data rest :
  reachable s ->
  dget workout_id (workouts_db s) = Some old ->
  wc_exercise_sets workout_data = Some (es_data :: rest) ->
  let result := update_workout workout_id workout_data s in
  let new_sets := materialize (exercise_set_id_counter s) (es_data :: rest) in
  (forall x, In x (exercise_set_ids workout_id s) ->
             dget x (exercise_sets_db (snd result)) = None) /\
  dget workout_id (workout_exercise_sets (snd result)) = Some (map es_id new_sets) /\
  (forall es, In es new_sets ->
              dget (es_id es) (exercise_sets_db (snd result)) = Some es) /\
  map (fun es => (es_base es, es_exercise_id es)) new_sets
    = map (fun d => (esc_base d, esc_exercise_id d)) (es_data :: rest) /\
  exists updated,
    dget workout_id (workouts_db (snd result)) = Some updated /\
    w_id updated = w_id old /\
    w_created_at updated = w_created_at old /\
    w_user_id updated = w_user_id old /\
    fst result = Some {| wd_workout := updated; wd_exercise_sets := new_sets |}.
Proof.
  intros Hreach Hold Hsets result new_sets.
  pose proof (reachable_inv s Hreach) as [Hids Hkey _ _ _].
  assert (Ht : truthy_list (wc_exercise_sets workout_data) = true)
    by (rewrite Hsets; reflexivity).
  pose proof (update_workout_result _ _ _ _ Hold Ht) as Hfst.
  pose proof (update_workout_sets_eq _ _ _ _ Hold Ht) as Hsnd.
  cbv zeta in Hsnd. rewrite Hsets in Hfst, Hsnd. cbn [default] in Hfst, Hsnd.
  fold new_sets in Hfst, Hsnd. fold result in Hfst, Hsnd.
  rewrite Hfst, Hsnd. store_simpl. rewrite dget_dset_eq.
  pose proof (materialize_ids_nodup (exercise_set_id_counter s) (es_data :: rest))
    as Hnd. fold new_sets in Hnd.
  split; [|split; [|split; [|split]]].
  - intros x Hx. rewrite dget_store_sets_other.
    + rewrite dget_remove_exercise_sets.
      destruct (in_dec Z.eq_dec x _) as [|Hn]; [reflexivity|].
      exfalso. apply Hn. exact Hx.
    + intros Hnew. apply materialize_ids_range in Hnew.
      unfold exercise_set_ids in Hx.
      destruct (dget workout_id (workout_exercise_sets s)) as [l|] eqn:Hl;
        cbn [default] in Hx; [|destruct Hx].
      pose proof (Hids _ _ _ Hl Hx). lia.
  - reflexivity.
  - intros es Hes. apply dget_store_sets_in; assumption.
  - apply materialize_payload.
  - eexists. rewrite dget_dset_eq. split; [reflexivity|].
    cbn [w_id w_created_at w_user_id]. rewrite (Hkey _ _ Hold).
    repeat split.
Qed.

Lemma update_workout_replaces_exercise_sets_witness :
  dget 1 (exercise_sets_db (snd (update_workout 2 sample_update (database sample_env))))
    = None /\
  dget 2 (workout_exercise_sets
            (snd (update_workout 2 sample_update (database sample_env))))
    = Some [5; 6].
Proof.
  edestruct (update_workout_replaces_exercise_sets 2 sample_update
               (database sample_env)) as (Hgone & Hlist & _).
  - apply reachable_init.
  - reflexivity.
  - reflexivity.
  - split.
    + apply Hgone. left. reflexivity.
    + exact Hlist.
Defined.

(** C2: [delete_workout] on a stored workout returns [True] and leaves
    neither the workout nor any exercise set it listed in the store; on an
    id that is not stored it returns [False] and the store is as before. *)
Theorem delete_workout_cascades workout_id s :
  (is_Some (dget workout_id (workouts_db s)) ->
   fst (delete_workout workout_id s) = true /\
   dget workout_id (workouts_db (snd (delete_workout workout_id s))) = None /\
   dget workout_id (workout_exercise_sets (snd (delete_workout workout_id s)))
     = None /\
   forall x, In x (exercise_set_ids workout_id s) ->
             dget x (exercise_sets_db (snd (delete_workout workout_id s))) = None)
  /\
  (dget workout_id (workouts_db s) = None ->
   delete_workout workout_id s = (false, s)).
Proof.
  unfold delete_workout. split.
  - intros Hin. apply dmem_true in Hin. rewrite Hin. store_simpl.
    assert (Hsets : forall x, In x (exercise_set_ids workout_id s) ->
              dget x (remove_exercise_sets (exercise_set_ids workout_id s)
                        (exercise_sets_db s)) = None).
    { intros x Hx. rewrite dget_remove_exercise_sets.
      destruct (in_dec Z.eq_dec x _); [reflexivity|contradiction]. }
    destruct (dmem workout_id (workout_exercise_sets s)) eqn:Hm; store_simpl;
      repeat split; auto using dget_ddel_eq.
    apply dmem_false. exact Hm.
  - intros Hout. apply dmem_false in Hout. rewrite Hout. reflexivity.
Qed.

Lemma delete_workout_cascades_witness :
  (fst (delete_workout 1 (database sample_env)) = true /\
   dget 3 (exercise_sets_db (snd (delete_workout 1 (database sample_env)))) = None)
  /\ delete_workout 9 (database sample_env) = (false, database sample_env).
Proof.
  destruct (delete_workout_cascades 1 (database sample_env)) as [Hin _].
  destruct (delete_workout_cascades 9 (database sample_env)) as [_ Hout].
  destruct Hin as (Hres & _ & _ & Hsets).
  - eexists. reflexivity.
  - split; [split|].
    + exact Hres.
    + apply Hsets. left. reflexivity.
    + apply Hout. reflexivity.
Defined.

(** ** Statistics *)

(** The streak test of [create_workout] compares the date that was assigned
    on the line before with the date read again: it succeeds exactly when
    the two readings agree. *)
Lemma streak_test e user_stats :
  bool_decide
    (us_last_workout_date (set_us_last_workout_date (Some (env_today e)) user_stats)
     = Some (env_today_check e))
  = bool_decide (env_today_check e = env_today e).
Proof.
  cbn [us_last_workout_date set_us_last_workout_date].
  destruct (decide (env_today_check e = env_today e)) as [Heq|Hne].
  - rewrite (bool_decide_eq_true_2 _ Heq). apply bool_decide_eq_true.
    congruence.
  - rewrite (bool_decide_eq_false_2 _ Hne). apply bool_decide_eq_false.
    congruence.
Qed.

Lemma record_workout_fields e duration user_stats :
  let st := record_workout e duration user_stats in
  us_total_workouts st = us_total_workouts user_stats + 1 /\
  us_total_workout_minutes st = us_total_workout_minutes user_stats + duration /\
  us_last_workout_date st = Some (env_today e) /\
  us_streak_days st
    = (if bool_decide (env_today_check e = env_today e)
       then us_streak_days user_stats + 1 else 1) /\
  us_last_updated st = env_now e /\
  us_user_id st = us_user_id user_stats /\
  us_weight st = us_weight user_stats /\
  us_height st = us_height user_stats /\
  us_body_fat_percentage st = us_body_fat_percentage user_stats.
Proof.
  unfold record_workout. rewrite streak_test.
  destruct (bool_decide (env_today_check e = env_today e)); repeat split.
Qed.

(** C3, as the code has it: [create_workout] for an owner who has a
    [UserStats] record, in a reachable store.  Afterwards the record has
    [total_workouts] one higher, [total_workout_minutes] higher by the
    workout's [duration_minutes] and [last_workout_date] equal to the date
    read when it is assigned.  [streak_days] is one higher when the date
    read again for the streak test is that same date; the branch that sets
    it to 1 is taken exactly when the date changes between the two
    readings, and then [streak_days] is 1. *)
Theorem create_workout_updates_stats e workout owner s user_stats :
  reachable s ->
  dget owner (user_stats_db s) = Some user_stats ->
  exists user_stats',
    dget owner (user_stats_db (snd (create_workout e workout (Some owner) s)))
      = Some user_stats' /\
    us_total_workouts user_stats' = us_total_workouts user_stats + 1 /\
    us_total_workout_minutes user_stats'
      = us_total_workout_minutes user_stats
        + wb_duration_minutes (wc_base workout) /\
    us_last_workout_date user_stats' = Some (env_today e) /\
    (env_today_check e = env_today e ->
     us_streak_days user_stats' = us_streak_days user_stats + 1) /\
    (env_today_check e <> env_today e -> us_streak_days user_stats' = 1) /\
    us_last_updated user_stats' = env_now e.
Proof.
  intros Hreach Hstats.
  pose proof (inv_stats_key s (reachable_inv s Hreach) _ _ Hstats) as Hpos.
  rewrite create_workout_eq. store_simpl.
  unfold update_user_stats, truthy_int.
  replace (owner =? 0) with false by (symmetry; apply Z.eqb_neq; lia).
  cbn [negb]. rewrite Hstats, dget_dset_eq.
  eexists. split; [reflexivity|].
  pose proof (record_workout_fields e (wb_duration_minutes (wc_base workout))
                user_stats) as H.
  cbv zeta in H. destruct H as (H1 & H2 & H3 & H4 & H5 & _).
  split; [exact H1|]. split; [exact H2|]. split; [exact H3|].
  split; [|split; [|exact H5]].
  - intros Heq. rewrite H4, (bool_decide_eq_true_2 _ Heq). reflexivity.
  - intros Hne. rewrite H4, (bool_decide_eq_false_2 _ Hne). reflexivity.
Qed.

Lemma create_workout_updates_stats_witness :
  (exists user_stats',
     dget 1 (user_stats_db
               (snd (create_workout sample_env sample_update (Some 1)
                       (database sample_env))))
       = Some user_stats' /\
     us_total_workouts user_stats' = 16 /\
     us_total_workout_minutes user_stats' = 770 /\
     us_last_workout_date user_stats' = Some (env_today sample_env) /\
     us_streak_days user_stats' = 4 /\
     us_last_updated user_stats' = env_now sample_env) /\
  (exists user_stats',
     dget 1 (user_stats_db
               (snd (create_workout sample_env_midnight sample_update (Some 1)
                       (database sample_env))))
       = Some user_stats' /\
     us_streak_days user_stats' = 1).
Proof.
  split.
  - edestruct (create_workout_updates_stats sample_env sample_update 1
                 (database sample_env))
      as (st & Hget & Hcount & Hmin & Hdate & Hsame & _ & Hupd).
    + apply reachable_init.
    + reflexivity.
    + exists st. split; [exact Hget|]. split; [exact Hcount|].
      split; [exact Hmin|]. split; [exact Hdate|].
      split; [exact (Hsame eq_refl) | exact Hupd].
  - edestruct (create_workout_updates_stats sample_env_midnight sample_update 1
                 (database sample_env))
      as (st & Hget & _ & _ & _ & _ & Hreset & _).
    + apply reachable_init.
    + reflexivity.
    + exists st. split; [exact Hget|]. apply Hreset. discriminate.
Defined.

(** C3 as the claim words it fails: user 1 has a streak of 3; a workout is
    created while the day changes between the two readings of the date,
    and the streak is reset to 1 instead of going up to 4. *)
Lemma create_workout_streak_reset :
  exists user_stats user_stats',
    dget 1 (user_stats_db (database sample_env)) = Some user_stats /\
    dget 1 (user_stats_db
              (snd (create_workout sample_env_midnight sample_update (Some 1)
                      (database sample_env))))
      = Some user_stats' /\
    us_streak_days user_stats = 3 /\
    us_streak_days user_stats' = 1 /\
    us_streak_days user_stats' <> us_streak_days user_stats + 1.
Proof.
  eexists. eexists. split; [reflexivity|]. split; [reflexivity|].
  split; [reflexivity|]. split; [reflexivity|]. discriminate.
Qed.

(** ** Users *)

Lemma get_user_by_username_none username s :
  get_user_by_username username s = None ->
  forall u, In u (dvalues (users_db s)) -> u_username u <> Some username.
Proof.
  intros Hnone u Hu Heq. unfold get_user_by_username in Hnone.
  pose proof (find_none _ _ Hnone u Hu) as Hf. cbn beta in Hf.
  apply bool_decide_eq_false in Hf. contradiction.
Qed.

Lemma get_user_by_email_none email s :
  get_user_by_email email s = None ->
  forall u, In u (dvalues (users_db s)) -> u_email u <> Some email.
Proof.
  intros Hnone u Hu Heq. unfold get_user_by_email in Hnone.
  pose proof (find_none _ _ Hnone u Hu) as Hf. cbn beta in Hf.
  apply bool_decide_eq_false in Hf. contradiction.
Qed.

(** C4: when some stored user already has the input's username, or some
    stored user already has the input's e-mail address, [create_user]
    returns [None] and the store is the one it was given: no user, password
    hash or statistics record is added and no id is consumed. *)
Theorem create_user_duplicate_rejected e user s :
  (exists u, In u (dvalues (users_db s)) /\
             (u_username u = Some (uc_username user) \/
              u_email u = Some (uc_email user))) ->
  create_user e user s = (None, s).
Proof.
  intros (u & Hu & Hdup). unfold create_user.
  destruct (get_user_by_username (uc_username user) s) eqn:Hname;
    [reflexivity|].
  destruct (get_user_by_email (uc_email user) s) eqn:Hmail; [reflexivity|].
  exfalso. destruct Hdup as [Hdup|Hdup].
  - exact (get_user_by_username_none _ _ Hname u Hu Hdup).
  - exact (get_user_by_email_none _ _ Hmail u Hu Hdup).
Qed.

Lemma create_user_duplicate_rejected_witness :
  create_user sample_env
    {| uc_email := "jane@example.com"; uc_username := "jane2";
       uc_full_name := None; uc_password := "correct horse" |}
    (database sample_env)
  = (None, database sample_env).
Proof.
  apply create_user_duplicate_rejected.
  eexists. split.
  - right. left. reflexivity.
  - right. reflexivity.
Defined.

(** [create_user] keeps names and addresses unique: the sibling of
    [update_user] that does check. *)
Lemma create_user_unique e user s :
  users_unique s -> users_unique (snd (create_user e user s)).
Proof.
  intros Huniq. unfold create_user.
  destruct (get_user_by_username (uc_username user) s) eqn:Hname; [exact Huniq|].
  destruct (get_user_by_email (uc_email user) s) eqn:Hmail; [exact Huniq|].
  pose proof (get_user_by_username_none _ _ Hname) as Hn.
  pose proof (get_user_by_email_none _ _ Hmail) as Hm.
  intros id1 id2 u1 u2 Hne H1 H2. store_simpl.
  rewrite dget_dset in H1, H2.
  destruct (decide (id1 = user_id_counter s)) as [->|];
    destruct (decide (id2 = user_id_counter s)) as [->|]; try congruence.
  - injection H1 as <-. apply dget_dvalues in H2. cbn.
    split; intros x [= <-]; [apply Hn | apply Hm]; exact H2.
  - injection H2 as <-. apply dget_dvalues in H1. cbn.
    split; intros x Hx [= <-]; [eapply Hn | eapply Hm]; eassumption.
  - exact (Huniq _ _ _ _ Hne H1 H2).
Qed.

Lemma delete_user_users_db user_id s user :
  dget user_id (users_db s) = Some user ->
  users_db (snd (delete_user user_id s)) = ddel user_id (users_db s).
Proof.
  intros H. unfold delete_user. rewrite H. store_simpl.
  destruct (u_username user) as [name|];
    [destruct (dmem name (users_passwords s))|]; store_simpl;
    destruct (dmem user_id (user_stats_db s)); reflexivity.
Qed.

Lemma delete_user_unique user_id s :
  users_unique s -> users_unique (snd (delete_user user_id s)).
Proof.
  intros Huniq.
  destruct (dget user_id (users_db s)) as [user|] eqn:Huser.
  - intros id1 id2 u1 u2 Hne H1 H2.
    rewrite (delete_user_users_db _ _ _ Huser), dget_ddel in H1, H2.
    destruct (decide (id1 = user_id)); [discriminate|].
    destruct (decide (id2 = user_id)); [discriminate|].
    exact (Huniq _ _ _ _ Hne H1 H2).
  - unfold delete_user. rewrite Huser. exact Huniq.
Qed.

(** A patch that sets neither [username] nor [email] cannot break
    uniqueness. *)
Lemma update_user_other_fields_unique user_id user_data s :
  uu_username user_data = None -> uu_email user_data = None ->
  users_unique s -> users_unique (snd (update_user user_id user_data s)).
Proof.
  intros Hname Hmail Huniq. unfold update_user.
  destruct (dget user_id (users_db s)) as [user|] eqn:Huser; [|exact Huniq].
  assert (Hsame : u_username (apply_user_update user_data user) = u_username user
                  /\ u_email (apply_user_update user_data user) = u_email user).
  { unfold apply_user_update. rewrite Hname, Hmail.
    destruct (uu_full_name user_data); split; reflexivity. }
  destruct Hsame as [Hn Hm].
  intros id1 id2 u1 u2 Hne H1 H2. store_simpl. rewrite dget_dset in H1, H2.
  destruct (decide (id1 = user_id)) as [->|];
    destruct (decide (id2 = user_id)) as [->|]; try congruence.
  - injection H1 as <-. rewrite Hn, Hm. exact (Huniq _ _ _ _ Hne Huser H2).
  - injection H2 as <-. rewrite Hn, Hm. exact (Huniq _ _ _ _ Hne H1 Huser).
  - exact (Huniq _ _ _ _ Hne H1 H2).
Qed.

(** The operations on workouts, exercises, plans and logs do not touch
    [users_db]. *)
Lemma run_users_db e o s :
  match o with
  | CreateUser _ | UpdateUser _ _ | DeleteUser _ => True
  | _ => users_db (run e o s) = users_db s
  end.
Proof.
  destruct o; cbn [run]; try exact I.
  - rewrite create_workout_eq. reflexivity.
  - destruct (dget workout_id (workouts_db s)) as [old|] eqn:Hold.
    + destruct (truthy_list (wc_exercise_sets workout_data)) eqn:Ht.
      * rewrite (update_workout_sets_eq _ _ _ _ Hold Ht). reflexivity.
      * rewrite (update_workout_keep_eq _ _ _ _ Hold Ht). reflexivity.
    + unfold update_workout. rewrite Hold. reflexivity.
  - unfold delete_workout. destruct (dmem workout_id (workouts_db s));
      [|reflexivity]. store_simpl.
    destruct (dmem workout_id (workout_exercise_sets s)); reflexivity.
  - reflexivity.
  - unfold update_exercise. destruct (dget exercise_id (exercises_db s));
      reflexivity.
  - unfold delete_exercise. destruct (dmem exercise_id (exercises_db s));
      [destruct (existsb _ _)|]; reflexivity.
  - reflexivity.
  - unfold update_workout_plan. destruct (dget plan_id (workout_plans_db s));
      reflexivity.
  - unfold delete_workout_plan. destruct (dmem plan_id (workout_plans_db s));
      reflexivity.
  - unfold add_workout_to_plan.
    destruct (negb _ || negb _); [reflexivity|].
    destruct (dget plan_id (workout_plans_db s)) as [plan|]; [|reflexivity].
    destruct (negb (id_in workout_id (wp_workouts plan))); reflexivity.
  - unfold remove_workout_from_plan.
    destruct (dget plan_id (workout_plans_db s)) as [plan|]; [|reflexivity].
    destruct (id_in workout_id (wp_workouts plan)); reflexivity.
  - unfold create_progress_log. store_simpl.
    destruct (dget user_id (user_stats_db s)); reflexivity.
  - unfold delete_progress_log. destruct (dmem log_id (progress_logs_db s));
      reflexivity.
Qed.

(** Every command other than [update_user] preserves uniqueness. *)
Lemma run_unique e o s :
  (forall user_id user_data, o <> UpdateUser user_id user_data) ->
  users_unique s -> users_unique (run e o s).
Proof.
  intros Hop Huniq. pose proof (run_users_db e o s) as Hdb.
  destruct o;
    try (unfold users_unique in *; rewrite Hdb; exact Huniq).
  - apply create_user_unique, Huniq.
  - exfalso. exact (Hop _ _ eq_refl).
  - apply delete_user_unique, Huniq.
Qed.

(** C6: [update_user] assigns a new username without looking for another
    user who has it.  In the seed store names and addresses are unique;
    after user 2 takes the username of user 1 they no longer are. *)
Theorem update_user_breaks_uniqueness :
  users_unique (database sample_env) /\
  fst (update_user 2 {| uu_email := None; uu_username := Some (Some "johndoe");
                        uu_full_name := None |} (database sample_env))
    <> None /\
  ~ users_unique
      (snd (update_user 2 {| uu_email := None;
                             uu_username := Some (Some "johndoe");
                             uu_full_name := None |} (database sample_env))).
Proof.
  split; [|split].
  - intros id1 id2 u1 u2 Hne H1 H2. cbn in H1, H2.
    repeat match goal with
    | H : context [if decide ?P then _ else _] |- _ => destruct (decide P); try subst
    | H : Some _ = Some _ |- _ => injection H as <-
    | H : None = Some _ |- _ => discriminate H
    end; try congruence; cbn; split; intros x [= <-]; discriminate.
  - discriminate.
  - intros Huniq.
    destruct (Huniq 1 2 _ _ ltac:(lia) eq_refl eq_refl) as [Hname _].
    exact (Hname "johndoe"%string eq_refl eq_refl).
Qed.

(** ** Exercises *)

Lemma in_use_test exercise_id s :
  existsb (fun es => es_exercise_id es =? exercise_id)
          (dvalues (exercise_sets_db s)) = true
  <-> exists es, In es (dvalues (exercise_sets_db s)) /\
                 es_exercise_id es = exercise_id.
Proof.
  rewrite existsb_exists. split; intros (es & Hes & Heq); exists es;
    (split; [exact Hes|]); [apply Z.eqb_eq | apply Z.eqb_eq]; exact Heq.
Qed.

(** C5, as the code has it: for a stored exercise, [delete_exercise]
    returns [False] and changes nothing when some exercise set in the store
    has its id as [exercise_id], and otherwise returns [True] and removes
    the exercise (and nothing else); for an id that is not stored it also
    returns [False] and changes nothing, so the two failures are the same
    value. *)
Theorem delete_exercise_guard exercise_id s :
  (is_Some (dget exercise_id (exercises_db s)) ->
   (exists es, In es (dvalues (exercise_sets_db s)) /\
               es_exercise_id es = exercise_id) ->
   delete_exercise exercise_id s = (false, s)) /\
  (is_Some (dget exercise_id (exercises_db s)) ->
   (forall es, In es (dvalues (exercise_sets_db s)) ->
               es_exercise_id es <> exercise_id) ->
   delete_exercise exercise_id s
     = (true, set_exercises_db (ddel exercise_id (exercises_db s)) s) /\
   dget exercise_id (exercises_db (snd (delete_exercise exercise_id s))) = None) /\
  (dget exercise_id (exercises_db s) = None ->
   delete_exercise exercise_id s = (false, s)).
Proof.
  assert (Hfree : is_Some (dget exercise_id (exercises_db s)) ->
            (forall es, In es (dvalues (exercise_sets_db s)) ->
                        es_exercise_id es <> exercise_id) ->
            delete_exercise exercise_id s
            = (true, set_exercises_db (ddel exercise_id (exercises_db s)) s)).
  { intros Hin Hfree. unfold delete_exercise. apply dmem_true in Hin.
    rewrite Hin. destruct (existsb _ _) eqn:Huse; [|reflexivity].
    apply in_use_test in Huse. destruct Huse as (es & Hes & Heq).
    exfalso. exact (Hfree es Hes Heq). }
  split; [|split].
  - intros Hin Huse. unfold delete_exercise.
    apply dmem_true in Hin. apply in_use_test in Huse.
    rewrite Hin, Huse. reflexivity.
  - intros Hin Hnone. rewrite (Hfree Hin Hnone). split; [reflexivity|].
    store_simpl. apply dget_ddel_eq.
  - intros Hout. unfold delete_exercise. apply dmem_false in Hout.
    rewrite Hout. reflexivity.
Qed.

Lemma delete_exercise_guard_witness :
  delete_exercise 1 (database sample_env) = (false, database sample_env) /\
  fst (delete_exercise 3 (database sample_env)) = true /\
  dget 3 (exercises_db (snd (delete_exercise 3 (database sample_env)))) = None /\
  delete_exercise 42 (database sample_env) = (false, database sample_env).
Proof.
  destruct (delete_exercise_guard 1 (database sample_env)) as (Huse & _ & _).
  destruct (delete_exercise_guard 3 (database sample_env)) as (_ & Hfree & _).
  destruct (delete_exercise_guard 42 (database sample_env)) as (_ & _ & Hout).
  destruct Hfree as [Hres Hgone].
  - eexists. reflexivity.
  - intros es Hes. cbn in Hes.
    repeat destruct Hes as [<-|Hes]; try discriminate. destruct Hes.
  - split; [|split; [|split]].
    + apply Huse.
      * eexists. reflexivity.
      * eexists. split; [left; reflexivity | reflexivity].
    + rewrite Hres. reflexivity.
    + exact Hgone.
    + apply Hout. reflexivity.
Defined.

(** C5 as the claim words it fails: exercise 1 is stored and in use,
    exercise 42 is not stored, and [delete_exercise] answers both with the
    same [False]. *)
Lemma delete_exercise_same_signal :
  is_Some (dget 1 (exercises_db (database sample_env))) /\
  (exists es, In es (dvalues (exercise_sets_db (database sample_env))) /\
              es_exercise_id es = 1) /\
  dget 42 (exercises_db (database sample_env)) = None /\
  fst (delete_exercise 1 (database sample_env))
    = fst (delete_exercise 42 (database sample_env)).
Proof.
  repeat split.
  - eexists. reflexivity.
  - eexists. split; [left; reflexivity | reflexivity].
Qed.

(** ** Exercise references of created sets *)

Lemma materialize_exercise_ids c data :
  map es_exercise_id (materialize c data) = map esc_exercise_id data.
Proof.
  revert c. induction data as [|d r IH]; intros c; simpl; [reflexivity|].
  f_equal. apply IH.
Qed.





(** ** Workout plans *)

(** C8, as the code has it: [add_workout_to_plan] tests both ids.  It
    returns a plan exactly when the plan id is stored and the workout id is
    stored in [workouts_db]; otherwise it returns [None] and leaves the
    store as it was. *)
Theorem add_workout_to_plan_checks_both plan_id workout_id s :
  (is_Some (fst (add_workout_to_plan plan_id workout_id s)) <->
   is_Some (dget plan_id (workout_plans_db s)) /\
   is_Some (dget workout_id (workouts_db s))) /\
  (fst (add_workout_to_plan plan_id workout_id s) = None ->
   snd (add_workout_to_plan plan_id workout_id s) = s).
Proof.
  unfold add_workout_to_plan.
  destruct (dmem plan_id (workout_plans_db s)) eqn:Hplan; cbn [negb orb].
  - destruct (dmem workout_id (workouts_db s)) eqn:Hworkout; cbn [negb].
    + apply dmem_true in Hplan, Hworkout. destruct Hplan as [plan Hplan].
      rewrite Hplan.
      destruct (negb (id_in workout_id (wp_workouts plan))); cbn [fst snd];
        (split; [split; eauto | discriminate]).
    + apply dmem_false in Hworkout. rewrite Hworkout. cbn [fst snd].
      split; [|reflexivity].
      split; [intros [? [=]] | intros [_ [? [=]]]].
  - apply dmem_false in Hplan. rewrite Hplan. cbn [fst snd].
    split; [|reflexivity].
    split; [intros [? [=]] | intros [[? [=]] _]].
Qed.

Lemma add_workout_to_plan_checks_both_witness :
  is_Some (fst (add_workout_to_plan 2 3 (database sample_env))) /\
  snd (add_workout_to_plan 7 3 (database sample_env)) = database sample_env.
Proof.
  destruct (add_workout_to_plan_checks_both 2 3 (database sample_env))
    as [[_ Hboth] _].
  destruct (add_workout_to_plan_checks_both 7 3 (database sample_env))
    as [_ Hnone].
  split.
  - apply Hboth. split; eexists; reflexivity.
  - apply Hnone. reflexivity.
Defined.

(** C8 as the claim words it fails: plan 1 is stored, workout 99 is not,
    and the call returns [None]. *)
Lemma add_workout_to_plan_missing_workout :
  is_Some (dget 1 (workout_plans_db (database sample_env))) /\
  dget 99 (workouts_db (database sample_env)) = None /\
  add_workout_to_plan 1 99 (database sample_env) = (None, database sample_env).
Proof. repeat split. eexists. reflexivity. Qed.

Lemma count_occ_nodup_in (x : Z) l :
  List.NoDup l -> In x l -> count_occ Z.eq_dec l x = 1%nat.
Proof. intros Hnd Hin. apply (proj1 (NoDup_count_occ' Z.eq_dec l) Hnd). exact Hin. Qed.

(** [add_workout_to_plan] when both ids are stored. *)
Lemma add_workout_to_plan_present plan_id workout_id s plan :
  dget plan_id (workout_plans_db s) = Some plan ->
  is_Some (dget workout_id (workouts_db s)) ->
  add_workout_to_plan plan_id workout_id s =
    if id_in workout_id (wp_workouts plan) then (Some plan, s)
    else (Some (set_wp_workouts (wp_workouts plan ++ [workout_id]) plan),
          set_workout_plans_db
            (dset plan_id
               (set_wp_workouts (wp_workouts plan ++ [workout_id]) plan)
               (workout_plans_db s)) s).
Proof.
  intros Hplan Hworkout. unfold add_workout_to_plan.
  assert (Hmp : dmem plan_id (workout_plans_db s) = true)
    by (apply dmem_true; eauto).
  apply dmem_true in Hworkout. rewrite Hmp, Hworkout, Hplan. cbn [negb orb].
  destruct (id_in workout_id (wp_workouts plan)); reflexivity.
Qed.

(** C9, as the code has it: in a reachable store, for a stored plan and a
    stored workout, calling [add_workout_to_plan] twice with the same ids
    returns the same plan both times, the second call changes nothing, and
    the plan lists the workout exactly once; no plan of a reachable store
    lists a workout twice. *)
Theorem add_workout_to_plan_idempotent plan_id workout_id s :
  reachable s ->
  is_Some (dget plan_id (workout_plans_db s)) ->
  is_Some (dget workout_id (workouts_db s)) ->
  (exists plan,
     fst (add_workout_to_plan plan_id workout_id s) = Some plan /\
     add_workout_to_plan plan_id workout_id
       (snd (add_workout_to_plan plan_id workout_id s))
       = (Some plan, snd (add_workout_to_plan plan_id workout_id s)) /\
     dget plan_id
       (workout_plans_db (snd (add_workout_to_plan plan_id workout_id s)))
       = Some plan /\
     count_occ Z.eq_dec (wp_workouts plan) workout_id = 1%nat) /\
  (forall pid plan, dget pid (workout_plans_db s) = Some plan ->
                    List.NoDup (wp_workouts plan)).
Proof.
  intros Hreach [plan Hplan] Hworkout.
  pose proof (inv_plan_nodup s (reachable_inv s Hreach)) as Hnodup.
  split; [|exact Hnodup].
  pose proof (Hnodup _ _ Hplan) as Hnd.
  rewrite (add_workout_to_plan_present _ _ _ _ Hplan Hworkout).
  destruct (id_in workout_id (wp_workouts plan)) eqn:Hin; cbn [fst snd].
  - exists plan.
    rewrite (add_workout_to_plan_present _ _ _ _ Hplan Hworkout), Hin.
    apply id_in_true in Hin.
    repeat split; auto using count_occ_nodup_in.
  - exists (set_wp_workouts (wp_workouts plan ++ [workout_id]) plan).
    assert (Hlisted : In workout_id (wp_workouts plan ++ [workout_id]))
      by (apply in_or_app; right; left; reflexivity).
    rewrite (add_workout_to_plan_present plan_id workout_id _
               (set_wp_workouts (wp_workouts plan ++ [workout_id]) plan));
      store_simpl; [|apply dget_dset_eq|exact Hworkout].
    cbn [wp_workouts set_wp_workouts].
    rewrite (proj2 (id_in_true _ _) Hlisted), dget_dset_eq.
    repeat split.
    apply count_occ_nodup_in; [|exact Hlisted].
    apply nodup_snoc; [exact Hnd|]. apply id_in_false. exact Hin.
Qed.

Lemma add_workout_to_plan_idempotent_witness :
  exists plan,
    dget 2 (workout_plans_db
              (snd (add_workout_to_plan 2 3
                      (snd (add_workout_to_plan 2 3 (database sample_env))))))
      = Some plan /\
    wp_workouts plan = [1; 3] /\
    count_occ Z.eq_dec (wp_workouts plan) 3 = 1%nat.
Proof.
  edestruct (add_workout_to_plan_idempotent 2 3 (database sample_env))
    as [(plan & Hfst & Htwice & Hget & Hcount) _].
  - apply reachable_init.
  - eexists. reflexivity.
  - eexists. reflexivity.
  - exists plan. rewrite Htwice. cbn [snd].
    split; [exact Hget|]. split; [|exact Hcount].
    cbn in Hfst. injection Hfst as <-. reflexivity.
Defined.

(** C9 as the claim words it fails: plan 1 is stored, workout 99 is not;
    after two calls the plan still does not list 99. *)
Lemma add_workout_to_plan_twice_missing_workout :
  is_Some (dget 1 (workout_plans_db (database sample_env))) /\
  exists plan,
    dget 1 (workout_plans_db
              (snd (add_workout_to_plan 1 99
                      (snd (add_workout_to_plan 1 99 (database sample_env))))))
      = Some plan /\
    count_occ Z.eq_dec (wp_workouts plan) 99 = 0%nat.
Proof.
  split; [eexists; reflexivity|]. eexists. split; reflexivity.
Qed.

(** ** An explicitly empty list of sets *)

(** C10: [update_workout] on a stored workout with [exercise_sets=[]]
    does what it does with [exercise_sets=None]: the truth test on the list
    fails, so the exercise sets, the workout's membership list and the id
    counter are left as they were and only the workout record is replaced. *)
Theorem update_workout_empty_list_keeps_sets workout_id base s old :
  dget workout_id (workouts_db s) = Some old ->
  update_workout workout_id {| wc_base := base; wc_exercise_sets := Some [] |} s
    = update_workout workout_id {| wc_base := base; wc_exercise_sets := None |} s /\
  exercise_sets_db
    (snd (update_workout workout_id
            {| wc_base := base; wc_exercise_sets := Some [] |} s))
    = exercise_sets_db s /\
  workout_exercise_sets
    (snd (update_workout workout_id
            {| wc_base := base; wc_exercise_sets := Some [] |} s))
    = workout_exercise_sets s /\
  exercise_set_id_counter
    (snd (update_workout workout_id
            {| wc_base := base; wc_exercise_sets := Some [] |} s))
    = exercise_set_id_counter s /\
  (forall x es, In x (exercise_set_ids workout_id s) ->
     dget x (exercise_sets_db s) = Some es ->
     dget x (exercise_sets_db
               (snd (update_workout workout_id
                       {| wc_base := base; wc_exercise_sets := Some [] |} s)))
       = Some es).
Proof.
  intros Hold. split; [reflexivity|].
  rewrite (update_workout_keep_eq workout_id
             {| wc_base := base; wc_exercise_sets := Some [] |} s old Hold eq_refl).
  store_simpl.
  repeat split. intros x es _ Hes. exact Hes.
Qed.

Lemma update_workout_empty_list_keeps_sets_witness :
  dget 1 (exercise_sets_db
            (snd (update_workout 2
                    {| wc_base := sample_base; wc_exercise_sets := Some [] |}
                    (database sample_env))))
    = dget 1 (exercise_sets_db (database sample_env)) /\
  dget 2 (workout_exercise_sets
            (snd (update_workout 2
                    {| wc_base := sample_base; wc_exercise_sets := Some [] |}
                    (database sample_env))))
    = Some [1].
Proof.
  edestruct (update_workout_empty_list_keeps_sets 2 sample_base
               (database sample_env)) as (_ & Hsets & Hlist & _).
  - reflexivity.
  - rewrite Hsets, Hlist. split; reflexivity.
Defined.

(** * Further properties *)

(** ** Identifiers *)

Lemma dget_store_sets_some k sets (d : dict Z ExerciseSet) v :
  dget k (store_sets sets d) = Some v ->
  In k (map es_id sets) \/ dget k d = Some v.
Proof.
  intros H. destruct (in_dec Z.eq_dec k (map es_id sets)) as [Hin|Hout].
  - left. exact Hin.
  - right. rewrite dget_store_sets_other in H by exact Hout. exact H.
Qed.

Lemma dget_remove_some k ids (d : dict Z ExerciseSet) v :
  dget k (remove_exercise_sets ids d) = Some v ->
  dget k d = Some v /\ ~ In k ids.
Proof.
  rewrite dget_remove_exercise_sets.
  destruct (in_dec Z.eq_dec k ids); [discriminate|]. auto.
Qed.

(** Lookups after the store changes of the workout operations. *)
Ltac sets_cases :=
  repeat match goal with
  | H : dget _ (store_sets _ _) = Some _ |- _ =>
      apply dget_store_sets_some in H; destruct H as [H|H];
      [apply materialize_ids_range in H|]
  | H : dget _ (remove_exercise_sets _ _) = Some _ |- _ =>
      apply dget_remove_some in H; destruct H as [H ?]
  | H : dget _ (update_user_stats _ _ _ _) = Some _ |- _ =>
      apply update_user_stats_key in H; destruct H as [? H]
  end.

Lemma database_fresh e : ids_fresh (database e).
Proof.
  split; cbn -[Z.lt]; intros; dict_cases; lia.
Qed.

Lemma run_fresh e o s : ids_fresh s -> ids_fresh (run e o s).
Proof.
  intros [H1 H2 H3 H4 H5 H6 H7 H8]. destruct o; cbn [run].
  - unfold create_user.
    destruct (get_user_by_username _ s); [split; assumption|].
    destruct (get_user_by_email _ s); [split; assumption|].
    split; store_simpl; intros; dict_cases;
      try lia; eauto using Z.lt_lt_succ_r.
  - unfold update_user. destruct (dget user_id (users_db s)) eqn:Hu;
      split; store_simpl; intros; dict_cases; eauto.
  - unfold delete_user.
    destruct (dget user_id (users_db s)) as [user|]; [|split; assumption].
    store_simpl. destruct (u_username user) as [name|]; store_simpl;
      [destruct (dmem name (users_passwords s))|]; store_simpl;
      destruct (dmem user_id (user_stats_db s));
      split; store_simpl; intros; dict_cases; eauto.
  - rewrite create_workout_eq.
    split; store_simpl; intros; dict_cases; sets_cases;
      try lia; eauto using Z.lt_lt_succ_r.
    match goal with H : dget _ (exercise_sets_db s) = Some _ |- _ =>
      apply H6 in H end. lia.
  - destruct (dget workout_id (workouts_db s)) as [old|] eqn:Hold.
    2:{ unfold update_workout. rewrite Hold. split; assumption. }
    destruct (truthy_list (wc_exercise_sets workout_data)) eqn:Ht.
    + rewrite (update_workout_sets_eq _ _ _ _ Hold Ht).
      split; store_simpl; intros; dict_cases; sets_cases; try lia; eauto.
      match goal with H : dget _ (exercise_sets_db s) = Some _ |- _ =>
        apply H6 in H end. lia.
    + rewrite (update_workout_keep_eq _ _ _ _ Hold Ht).
      split; store_simpl; intros; dict_cases; eauto.
  - unfold delete_workout.
    destruct (dmem workout_id (workouts_db s)); [|split; assumption].
    store_simpl. destruct (dmem workout_id (workout_exercise_sets s));
      split; store_simpl; intros; dict_cases; sets_cases; eauto.
  - unfold create_exercise.
    split; store_simpl; intros; dict_cases; try lia; eauto using Z.lt_lt_succ_r.
  - unfold update_exercise. destruct (dget exercise_id (exercises_db s)) eqn:Hx;
      split; store_simpl; intros; dict_cases; eauto.
  - unfold delete_exercise. destruct (dmem exercise_id (exercises_db s));
      [destruct (existsb _ _)|];
      split; store_simpl; intros; dict_cases; eauto.
  - unfold create_workout_plan.
    split; store_simpl; intros; dict_cases; try lia; eauto using Z.lt_lt_succ_r.
  - unfold update_workout_plan.
    destruct (dget plan_id (workout_plans_db s)) eqn:Hp;
      split; store_simpl; intros; dict_cases; eauto.
  - unfold delete_workout_plan. destruct (dmem plan_id (workout_plans_db s));
      split; store_simpl; intros; dict_cases; eauto.
  - unfold add_workout_to_plan. destruct (negb _ || negb _); [split; assumption|].
    destruct (dget plan_id (workout_plans_db s)) as [plan|] eqn:Hp;
      [|split; assumption].
    destruct (negb (id_in workout_id (wp_workouts plan)));
      split; store_simpl; intros; dict_cases; eauto.
  - unfold remove_workout_from_plan.
    destruct (dget plan_id (workout_plans_db s)) as [plan|] eqn:Hp;
      [|split; assumption].
    destruct (id_in workout_id (wp_workouts plan));
      split; store_simpl; intros; dict_cases; eauto.
  - unfold create_progress_log. store_simpl.
    destruct (dget user_id (user_stats_db s)) eqn:Hs;
      split; store_simpl; intros; dict_cases; try lia;
      eauto using Z.lt_lt_succ_r.
  - unfold delete_progress_log. destruct (dmem log_id (progress_logs_db s));
      split; store_simpl; intros; dict_cases; eauto.
Qed.

Lemma reachable_fresh s : reachable s -> ids_fresh s.
Proof.
  induction 1 as [e|e o s _ IH]; [apply database_fresh | apply run_fresh, IH].
Qed.

Lemma grows_refl s : grows_from s s.
Proof. split; intros; try lia; left; eauto. Qed.

Lemma grows_trans s1 s2 s3 :
  grows_from s1 s2 -> grows_from s2 s3 -> grows_from s1 s3.
Proof.
  intros [A1 A2 A3 A4 A5 A6 A7 A8 A9 A10 A11 A12]
         [B1 B2 B3 B4 B5 B6 B7 B8 B9 B10 B11 B12].
  split; try lia; intros k v Hk.
  - destruct (B7 _ _ Hk) as [[w Hw]|]; [|right; lia].
    destruct (A7 _ _ Hw); [left|right]; assumption.
  - destruct (B8 _ _ Hk) as [[w Hw]|]; [|right; lia].
    destruct (A8 _ _ Hw); [left|right]; assumption.
  - destruct (B9 _ _ Hk) as [[w Hw]|]; [|right; lia].
    destruct (A9 _ _ Hw); [left|right]; assumption.
  - destruct (B10 _ _ Hk) as [[w Hw]|]; [|right; lia].
    destruct (A10 _ _ Hw); [left|right]; assumption.
  - destruct (B11 _ _ Hk) as [[w Hw]|]; [|right; lia].
    destruct (A11 _ _ Hw); [left|right]; assumption.
  - destruct (B12 _ _ Hk) as [[w Hw]|]; [|right; lia].
    destruct (A12 _ _ Hw); [left|right]; assumption.
Qed.

(** Closes a [grows_from] goal once the operation is unfolded. *)
Ltac grows_tac :=
  split; store_simpl; try lia; intros; dict_cases; sets_cases;
  try (right; lia); try (left; eauto; fail).

Lemma run_grows e o s : grows_from s (run e o s).
Proof.
  destruct o; cbn [run].
  - unfold create_user.
    destruct (get_user_by_username _ s); [apply grows_refl|].
    destruct (get_user_by_email _ s); [apply grows_refl|]. grows_tac.
  - unfold update_user. destruct (dget user_id (users_db s)) eqn:Hu;
      [|apply grows_refl]. grows_tac.
  - unfold delete_user.
    destruct (dget user_id (users_db s)) as [user|]; [|apply grows_refl].
    store_simpl. destruct (u_username user) as [name|]; store_simpl;
      [destruct (dmem name (users_passwords s))|]; store_simpl;
      destruct (dmem user_id (user_stats_db s)); grows_tac.
  - rewrite create_workout_eq. grows_tac.
  - destruct (dget workout_id (workouts_db s)) as [old|] eqn:Hold.
    2:{ unfold update_workout. rewrite Hold. apply grows_refl. }
    destruct (truthy_list (wc_exercise_sets workout_data)) eqn:Ht.
    + rewrite (update_workout_sets_eq _ _ _ _ Hold Ht). grows_tac.
    + rewrite (update_workout_keep_eq _ _ _ _ Hold Ht). grows_tac.
  - unfold delete_workout.
    destruct (dmem workout_id (workouts_db s)); [|apply grows_refl].
    store_simpl. destruct (dmem workout_id (workout_exercise_sets s)); grows_tac.
  - unfold create_exercise. grows_tac.
  - unfold update_exercise. destruct (dget exercise_id (exercises_db s)) eqn:Hx;
      [|apply grows_refl]. grows_tac.
  - unfold delete_exercise. destruct (dmem exercise_id (exercises_db s));
      [destruct (existsb _ _)|]; try apply grows_refl. grows_tac.
  - unfold create_workout_plan. grows_tac.
  - unfold update_workout_plan.
    destruct (dget plan_id (workout_plans_db s)) eqn:Hp; [|apply grows_refl].
    grows_tac.
  - unfold delete_workout_plan. destruct (dmem plan_id (workout_plans_db s));
      [|apply grows_refl]. grows_tac.
  - unfold add_workout_to_plan. destruct (negb _ || negb _); [apply grows_refl|].
    destruct (dget plan_id (workout_plans_db s)) as [plan|] eqn:Hp;
      [|apply grows_refl].
    destruct (negb (id_in workout_id (wp_workouts plan))); [|apply grows_refl].
    grows_tac.
  - unfold remove_workout_from_plan.
    destruct (dget plan_id (workout_plans_db s)) as [plan|] eqn:Hp;
      [|apply grows_refl].
    destruct (id_in workout_id (wp_workouts plan)); [|apply grows_refl].
    grows_tac.
  - unfold create_progress_log. store_simpl.
    destruct (dget user_id (user_stats_db s)) eqn:Hs; grows_tac.
  - unfold delete_progress_log. destruct (dmem log_id (progress_logs_db s));
      [|apply grows_refl]. grows_tac.
Qed.

Lemma runs_grows ops s : grows_from s (runs ops s).
Proof.
  revert s. induction ops as [|[e o] ops IH]; intros s.
  - apply grows_refl.
  - unfold runs in *. cbn [fold_left fst snd].
    eapply grows_trans; [apply run_grows | apply IH].
Qed.

Lemma runs_reachable ops s : reachable s -> reachable (runs ops s).
Proof.
  revert s. induction ops as [|[e o] ops IH]; intros s Hs; [exact Hs|].
  unfold runs in *. cbn [fold_left fst snd]. apply IH, reachable_step, Hs.
Qed.

(** X1: in a reachable store the id each counter will hand out next is not
    in use, so a create never overwrites a stored record: no user,
    statistics record, workout, membership list, exercise, plan or log is
    stored under its next id, and no exercise set under the next id or any
    later one. *)
Theorem next_ids_unused s :
  reachable s ->
  dget (user_id_counter s) (users_db s) = None /\
  dget (user_id_counter s) (user_stats_db s) = None /\
  dget (workout_id_counter s) (workouts_db s) = None /\
  dget (workout_id_counter s) (workout_exercise_sets s) = None /\
  dget (exercise_id_counter s) (exercises_db s) = None /\
  (forall k, exercise_set_id_counter s <= k ->
             dget k (exercise_sets_db s) = None) /\
  dget (workout_plan_id_counter s) (workout_plans_db s) = None /\
  dget (progress_log_id_counter s) (progress_logs_db s) = None.
Proof.
  intros Hreach.
  destruct (reachable_fresh s Hreach) as [H1 H2 H3 H4 H5 H6 H7 H8].
  assert (Hnone : forall (V : Type) (d : dict Z V) c,
            (forall k v, dget k d = Some v -> k < c) ->
            forall k, c <= k -> dget k d = None).
  { intros V d c Hlt k Hk. destruct (dget k d) as [v|] eqn:Hv; [|reflexivity].
    apply Hlt in Hv. lia. }
  repeat split; try (eapply Hnone; [eassumption | lia]).
  intros k Hk. eapply Hnone; eassumption.
Qed.

Lemma next_ids_unused_witness :
  dget 5 (workouts_db
            (run sample_env (CreateWorkout sample_update (Some 1))
                 (database sample_env))) = None /\
  dget 7 (exercise_sets_db
            (run sample_env (CreateWorkout sample_update (Some 1))
                 (database sample_env))) = None.
Proof.
  destruct (next_ids_unused
              (run sample_env (CreateWorkout sample_update (Some 1))
                   (database sample_env)))
    as (_ & _ & Hw & _ & _ & Hs & _).
  - apply reachable_step, reachable_init.
  - split; [exact Hw | apply Hs; cbn; lia].
Defined.

(** X2: ids are never reused.  Whatever commands run, no id counter goes
    down, and an id below a counter that is not in use (never stored, or
    deleted) is still not in use afterwards. *)
Theorem ids_never_reused ops s :
  (user_id_counter s <= user_id_counter (runs ops s) /\
   workout_id_counter s <= workout_id_counter (runs ops s) /\
   exercise_id_counter s <= exercise_id_counter (runs ops s) /\
   exercise_set_id_counter s <= exercise_set_id_counter (runs ops s) /\
   workout_plan_id_counter s <= workout_plan_id_counter (runs ops s) /\
   progress_log_id_counter s <= progress_log_id_counter (runs ops s)) /\
  (forall k, k < user_id_counter s -> dget k (users_db s) = None ->
             dget k (users_db (runs ops s)) = None) /\
  (forall k, k < workout_id_counter s -> dget k (workouts_db s) = None ->
             dget k (workouts_db (runs ops s)) = None) /\
  (forall k, k < exercise_id_counter s -> dget k (exercises_db s) = None ->
             dget k (exercises_db (runs ops s)) = None) /\
  (forall k, k < exercise_set_id_counter s -> dget k (exercise_sets_db s) = None ->
             dget k (exercise_sets_db (runs ops s)) = None) /\
  (forall k, k < workout_plan_id_counter s -> dget k (workout_plans_db s) = None ->
             dget k (workout_plans_db (runs ops s)) = None) /\
  (forall k, k < progress_log_id_counter s -> dget k (progress_logs_db s) = None ->
             dget k (progress_logs_db (runs ops s)) = None).
Proof.
  destruct (runs_grows ops s) as [A1 A2 A3 A4 A5 A6 A7 A8 A9 A10 A11 A12].
  assert (Hstay : forall (V : Type) (d d' : dict Z V) c,
            (forall k v, dget k d' = Some v -> is_Some (dget k d) \/ c <= k) ->
            forall k, k < c -> dget k d = None -> dget k d' = None).
  { intros V d d' c Hg k Hk Hnone.
    destruct (dget k d') as [v|] eqn:Hv; [|reflexivity].
    destruct (Hg _ _ Hv) as [[w Hw]|]; [congruence|lia]. }
  split; [repeat split; assumption|].
  repeat split; eapply Hstay; eassumption.
Qed.

Lemma ids_never_reused_witness :
  dget 1 (workouts_db
            (runs [(sample_env, CreateWorkout sample_plain (Some 1));
                   (sample_env, CreateWorkout sample_plain (Some 2))]
                  (run sample_env (DeleteWorkout 1) (database sample_env))))
    = None.
Proof.
  destruct (ids_never_reused
              [(sample_env, CreateWorkout sample_plain (Some 1));
               (sample_env, CreateWorkout sample_plain (Some 2))]
              (run sample_env (DeleteWorkout 1) (database sample_env)))
    as (_ & _ & Hw & _).
  apply Hw; reflexivity.
Defined.

(** ** Dictionaries hold each key once *)

Section dict_wf_facts.
Context {K V : Type} `{EqDecision K}.
Implicit Types (d : dict K V).

Lemma dkeys_dset (k k' : K) (v : V) d :
  In k' (map fst (dset k v d)) <-> k' = k \/ In k' (map fst d).
Proof.
  induction d as [|[k0 v0] r IH]; simpl.
  - intuition.
  - destruct (decide (k = k0)) as [->|]; simpl; [intuition|].
    rewrite IH. intuition.
Qed.

Lemma dkeys_ddel (k k' : K) d :
  In k' (map fst (ddel k d)) -> In k' (map fst d).
Proof.
  induction d as [|[k0 v0] r IH]; simpl; [tauto|].
  destruct (decide (k = k0)); simpl; tauto.
Qed.

Lemma dset_wf (k : K) (v : V) d : dict_wf d -> dict_wf (dset k v d).
Proof.
  unfold dict_wf. induction d as [|[k0 v0] r IH]; simpl; intros Hnd.
  - constructor; [simpl; tauto | constructor].
  - inversion Hnd as [|? ? Hnotin Hnd']; subst.
    destruct (decide (k = k0)) as [->|]; simpl.
    + constructor; assumption.
    + constructor; [|apply IH; assumption].
      rewrite dkeys_dset. intros [->|Hin]; [congruence | contradiction].
Qed.

Lemma ddel_wf (k : K) d : dict_wf d -> dict_wf (ddel k d).
Proof.
  unfold dict_wf. induction d as [|[k0 v0] r IH]; simpl; intros Hnd.
  - constructor.
  - inversion Hnd as [|? ? Hnotin Hnd']; subst.
    destruct (decide (k = k0)); simpl; [apply IH; assumption|].
    constructor; [|apply IH; assumption].
    intros Hin. apply Hnotin. eapply dkeys_ddel. exact Hin.
Qed.

Lemma dget_key (k : K) (v : V) d : dget k d = Some v -> In k (map fst d).
Proof.
  induction d as [|[k0 v0] r IH]; simpl; [discriminate|].
  destruct (decide (k = k0)); [left; congruence | right; auto].
Qed.

(** In a dictionary every value is the one found under its key. *)
Lemma dvalues_dget (v : V) d :
  dict_wf d -> In v (dvalues d) -> exists k, dget k d = Some v.
Proof.
  unfold dict_wf. induction d as [|[k0 v0] r IH]; simpl; [tauto|].
  intros Hnd [<-|Hin].
  - exists k0. destruct (decide (k0 = k0)); congruence.
  - inversion Hnd as [|? ? Hnotin Hnd']; subst.
    destruct (IH Hnd' Hin) as [k Hk]. exists k.
    destruct (decide (k = k0)) as [->|]; [|exact Hk].
    exfalso. apply Hnotin. eapply dget_key. exact Hk.
Qed.

(** A key that is not in use is appended; nothing else changes. *)
Lemma dset_fresh (k : K) (v : V) d :
  dget k d = None -> dset k v d = d ++ [(k, v)].
Proof.
  induction d as [|[k0 v0] r IH]; simpl; [reflexivity|].
  destruct (decide (k = k0)); [discriminate|].
  intros H. f_equal. exact (IH H).
Qed.

Lemma ddel_absent (k : K) d : dget k d = None -> ddel k d = d.
Proof.
  induction d as [|[k0 v0] r IH]; simpl; [reflexivity|].
  destruct (decide (k = k0)); [discriminate|].
  intros H. f_equal. exact (IH H).
Qed.

Lemma ddel_snoc (k : K) (v : V) d :
  dget k d = None -> ddel k (d ++ [(k, v)]) = d.
Proof.
  induction d as [|[k0 v0] r IH]; simpl.
  - destruct (decide (k = k)); congruence.
  - destruct (decide (k = k0)); [discriminate|].
    intros H. f_equal. exact (IH H).
Qed.
End dict_wf_facts.

Lemma store_sets_wf sets (d : dict Z ExerciseSet) :
  dict_wf d -> dict_wf (store_sets sets d).
Proof.
  revert d. induction sets as [|a r IH]; intros d Hd; [exact Hd|].
  unfold store_sets in *. cbn [fold_left]. apply IH, dset_wf, Hd.
Qed.

Lemma remove_exercise_sets_wf ids (d : dict Z ExerciseSet) :
  dict_wf d -> dict_wf (remove_exercise_sets ids d).
Proof.
  revert d. induction ids as [|a r IH]; intros d Hd; [exact Hd|].
  unfold remove_exercise_sets in *. cbn [fold_left]. apply IH.
  destruct (dmem a d); [apply ddel_wf|]; exact Hd.
Qed.

Lemma update_user_stats_wf e duration user_id stats :
  dict_wf stats -> dict_wf (update_user_stats e duration user_id stats).
Proof.
  intros Hd. unfold update_user_stats.
  destruct (truthy_int user_id); [|exact Hd].
  destruct user_id as [uid|]; [|exact Hd].
  destruct (dget uid stats); [apply dset_wf|]; exact Hd.
Qed.

Lemma database_wf e : store_wf (database e).
Proof.
  split; unfold dict_wf; cbn; repeat constructor; cbn;
    intuition (try discriminate; try lia).
Qed.

Ltac wf_tac :=
  split; store_simpl;
  auto using dset_wf, ddel_wf, store_sets_wf, remove_exercise_sets_wf,
             update_user_stats_wf.

Lemma run_wf e o s : store_wf s -> store_wf (run e o s).
Proof.
  intros Hwf. pose proof Hwf as [H1 H2 H3 H4 H5 H6 H7 H8 H9].
  destruct o; cbn [run].
  - unfold create_user.
    destruct (get_user_by_username _ s); [exact Hwf|].
    destruct (get_user_by_email _ s); [exact Hwf|]. wf_tac.
  - unfold update_user. destruct (dget user_id (users_db s)); [|exact Hwf]. wf_tac.
  - unfold delete_user.
    destruct (dget user_id (users_db s)) as [user|]; [|exact Hwf].
    store_simpl. destruct (u_username user) as [name|]; store_simpl;
      [destruct (dmem name (users_passwords s))|]; store_simpl;
      destruct (dmem user_id (user_stats_db s)); wf_tac.
  - rewrite create_workout_eq. wf_tac.
  - destruct (dget workout_id (workouts_db s)) as [old|] eqn:Hold.
    2:{ unfold update_workout. rewrite Hold. exact Hwf. }
    destruct (truthy_list (wc_exercise_sets workout_data)) eqn:Ht.
    + rewrite (update_workout_sets_eq _ _ _ _ Hold Ht). wf_tac.
    + rewrite (update_workout_keep_eq _ _ _ _ Hold Ht). wf_tac.
  - unfold delete_workout.
    destruct (dmem workout_id (workouts_db s)); [|exact Hwf].
    store_simpl. destruct (dmem workout_id (workout_exercise_sets s)); wf_tac.
  - unfold create_exercise. wf_tac.
  - unfold update_exercise. destruct (dget exercise_id (exercises_db s));
      [|exact Hwf]. wf_tac.
  - unfold delete_exercise. destruct (dmem exercise_id (exercises_db s));
      [destruct (existsb _ _)|]; try exact Hwf. wf_tac.
  - unfold create_workout_plan. wf_tac.
  - unfold update_workout_plan.
    destruct (dget plan_id (workout_plans_db s)); [|exact Hwf]. wf_tac.
  - unfold delete_workout_plan. destruct (dmem plan_id (workout_plans_db s));
      [|exact Hwf]. wf_tac.
  - unfold add_workout_to_plan. destruct (negb _ || negb _); [exact Hwf|].
    destruct (dget plan_id (workout_plans_db s)) as [plan|]; [|exact Hwf].
    destruct (negb (id_in workout_id (wp_workouts plan))); [|exact Hwf]. wf_tac.
  - unfold remove_workout_from_plan.
    destruct (dget plan_id (workout_plans_db s)) as [plan|]; [|exact Hwf].
    destruct (id_in workout_id (wp_workouts plan)); [|exact Hwf]. wf_tac.
  - unfold create_progress_log. store_simpl.
    destruct (dget user_id (user_stats_db s)); wf_tac.
  - unfold delete_progress_log. destruct (dmem log_id (progress_logs_db s));
      [|exact Hwf]. wf_tac.
Qed.

Lemma reachable_wf s : reachable s -> store_wf s.
Proof.
  induction 1 as [e|e o s _ IH]; [apply database_wf | apply run_wf, IH].
Qed.

(** ** Users: registration, deletion and patches *)

Lemma find_all_false {A : Type} (f : A -> bool) (l : list A) :
  (forall x, In x l -> f x = false) -> find f l = None.
Proof.
  induction l as [|a r IH]; simpl; intros H; [reflexivity|].
  rewrite (H a) by (left; reflexivity). apply IH. intros x Hx. apply H.
  right. exact Hx.
Qed.

Lemma find_dset_new {V : Type} (f : V -> bool) (k : Z) (v : V) (d : dict Z V) :
  (forall x, In x (dvalues d) -> f x = false) -> f v = true ->
  find f (dvalues (dset k v d)) = Some v.
Proof.
  intros Hold Hv. induction d as [|[k0 v0] r IH]; simpl.
  - rewrite Hv. reflexivity.
  - destruct (decide (k = k0)); simpl.
    + rewrite Hv. reflexivity.
    + rewrite (Hold v0) by (left; reflexivity). apply IH.
      intros x Hx. apply Hold. right. exact Hx.
Qed.

(** X3: when no stored user has the input's username or e-mail address,
    [create_user] returns the new user, who gets the next id, is active and
    carries the input's fields; afterwards the user is found by id, by
    username and by e-mail, the hash of the password is stored under the
    username, a statistics record with zero counters exists for the id, the
    counter has advanced by one and the users under other ids are as
    before. *)
Theorem create_user_registers e user s :
  (forall u, In u (dvalues (users_db s)) ->
             u_username u <> Some (uc_username user) /\
             u_email u <> Some (uc_email user)) ->
  let new_user :=
    {| u_id := user_id_counter s; u_email := Some (uc_email user);
       u_username := Some (uc_username user); u_full_name := uc_full_name user;
       u_is_active := true; u_created_at := env_now e |} in
  fst (create_user e user s) = Some new_user /\
  get_user (user_id_counter s) (snd (create_user e user s)) = Some new_user /\
  get_user_by_username (uc_username user) (snd (create_user e user s))
    = Some new_user /\
  get_user_by_email (uc_email user) (snd (create_user e user s)) = Some new_user /\
  dget (uc_username user) (users_passwords (snd (create_user e user s)))
    = Some (get_password_hash e (uc_password user)) /\
  get_user_stats (user_id_counter s) (snd (create_user e user s))
    = Some {| us_weight := None; us_height := None;
              us_body_fat_percentage := None; us_total_workouts := 0;
              us_total_workout_minutes := 0; us_streak_days := 0;
              us_last_workout_date := None; us_user_id := user_id_counter s;
              us_last_updated := env_now e |} /\
  user_id_counter (snd (create_user e user s)) = user_id_counter s + 1 /\
  (forall k, k <> user_id_counter s ->
             dget k (users_db (snd (create_user e user s))) = dget k (users_db s)).
Proof.
  intros Hfree new_user.
  assert (Hname : get_user_by_username (uc_username user) s = None).
  { unfold get_user_by_username. apply find_all_false. intros u Hu.
    apply bool_decide_eq_false. apply (Hfree u Hu). }
  assert (Hmail : get_user_by_email (uc_email user) s = None).
  { unfold get_user_by_email. apply find_all_false. intros u Hu.
    apply bool_decide_eq_false. apply (Hfree u Hu). }
  unfold create_user. rewrite Hname, Hmail. fold new_user.
  unfold get_user, get_user_by_username, get_user_by_email, get_user_stats.
  store_simpl. rewrite !dget_dset_eq.
  repeat split.
  - apply find_dset_new.
    + intros u Hu. apply bool_decide_eq_false. apply (Hfree u Hu).
    + apply bool_decide_eq_true. reflexivity.
  - apply find_dset_new.
    + intros u Hu. apply bool_decide_eq_false. apply (Hfree u Hu).
    + apply bool_decide_eq_true. reflexivity.
  - intros k Hk. apply dget_dset_ne. exact Hk.
Qed.

Lemma create_user_registers_witness :
  exists new_user,
    fst (create_user sample_env sample_user_create (database sample_env))
      = Some new_user /\
    u_id new_user = 3 /\
    get_user_by_username "alex"
      (snd (create_user sample_env sample_user_create (database sample_env)))
      = Some new_user.
Proof.
  edestruct (create_user_registers sample_env sample_user_create
               (database sample_env)) as (Hfst & _ & Hname & _).
  - intros u Hu. cbn in Hu.
    repeat destruct Hu as [<-|Hu]; try (split; discriminate). destruct Hu.
  - eexists. split; [exact Hfst|]. split; [reflexivity | exact Hname].
Defined.

(** X4: [delete_user] on a stored user returns [True] and removes the
    user, the statistics record of that id and the password entry under the
    user's current username; it does not cascade: workouts, their exercise
    sets, exercises, plans and progress logs are exactly as before.  On an
    id that is not stored it returns [False] and changes nothing. *)
Theorem delete_user_no_cascade user_id s :
  (forall user, dget user_id (users_db s) = Some user ->
     fst (delete_user user_id s) = true /\
     get_user user_id (snd (delete_user user_id s)) = None /\
     get_user_stats user_id (snd (delete_user user_id s)) = None /\
     (forall name, u_username user = Some name ->
        dget name (users_passwords (snd (delete_user user_id s))) = None) /\
     workouts_db (snd (delete_user user_id s)) = workouts_db s /\
     workout_exercise_sets (snd (delete_user user_id s)) = workout_exercise_sets s /\
     exercise_sets_db (snd (delete_user user_id s)) = exercise_sets_db s /\
     exercises_db (snd (delete_user user_id s)) = exercises_db s /\
     workout_plans_db (snd (delete_user user_id s)) = workout_plans_db s /\
     progress_logs_db (snd (delete_user user_id s)) = progress_logs_db s) /\
  (dget user_id (users_db s) = None -> delete_user user_id s = (false, s)).
Proof.
  split.
  - intros user Huser. unfold delete_user, get_user, get_user_stats.
    rewrite Huser. store_simpl.
    destruct (u_username user) as [name|] eqn:Hname; store_simpl;
      [destruct (dmem name (users_passwords s)) eqn:Hpw|]; store_simpl;
      destruct (dmem user_id (user_stats_db s)) eqn:Hst; store_simpl;
      repeat split;
      try apply dget_ddel_eq; try (apply dmem_false; assumption);
      try (intros ? [= <-]; first [apply dget_ddel_eq | apply dmem_false; assumption]);
      try discriminate.
  - intros Hnone. unfold delete_user. rewrite Hnone. reflexivity.
Qed.

Lemma delete_user_no_cascade_witness :
  get_user 2 (snd (delete_user 2 (database sample_env))) = None /\
  get_workouts_by_user 2 (snd (delete_user 2 (database sample_env)))
    = get_workouts_by_user 2 (database sample_env) /\
  delete_user 7 (database sample_env) = (false, database sample_env).
Proof.
  destruct (delete_user_no_cascade 2 (database sample_env)) as [Hin _].
  destruct (delete_user_no_cascade 7 (database sample_env)) as [_ Hout].
  edestruct Hin as (_ & Hgone & _ & _ & Hw & _); [reflexivity|].
  split; [exact Hgone|]. split; [|apply Hout; reflexivity].
  unfold get_workouts_by_user. rewrite Hw. reflexivity.
Defined.

(** X5: [update_user] applies a sparse patch.  On a stored user it returns
    the patched user and stores it under the same id; a field the patch
    does not set keeps its value, a field it sets takes the given value,
    and [id], [is_active] and [created_at] never change; other users,
    password entries and statistics are untouched, and the patch that sets
    nothing leaves the whole store as it was.  On an id that is not stored
    it returns [None] and changes nothing. *)
Theorem update_user_sparse_patch user_id user_data s :
  (forall user, dget user_id (users_db s) = Some user ->
     exists updated,
       fst (update_user user_id user_data s) = Some updated /\
       get_user user_id (snd (update_user user_id user_data s)) = Some updated /\
       u_id updated = u_id user /\
       u_is_active updated = u_is_active user /\
       u_created_at updated = u_created_at user /\
       u_email updated = default (u_email user) (uu_email user_data) /\
       u_username updated = default (u_username user) (uu_username user_data) /\
       u_full_name updated = default (u_full_name user) (uu_full_name user_data) /\
       (forall k, k <> user_id ->
          dget k (users_db (snd (update_user user_id user_data s)))
          = dget k (users_db s)) /\
       users_passwords (snd (update_user user_id user_data s)) = users_passwords s /\
       user_stats_db (snd (update_user user_id user_data s)) = user_stats_db s /\
       (uu_email user_data = None -> uu_username user_data = None ->
        uu_full_name user_data = None ->
        update_user user_id user_data s = (Some user, s))) /\
  (dget user_id (users_db s) = None -> update_user user_id user_data s = (None, s)).
Proof.
  split.
  - intros user Huser. unfold update_user, get_user. rewrite Huser.
    exists (apply_user_update user_data user). store_simpl.
    rewrite dget_dset_eq. unfold apply_user_update.
    destruct user_data as [[em|] [un|] [fn|]]; cbn;
      repeat split; try (intros k Hk; apply dget_dset_ne; exact Hk);
      try discriminate.
    intros _ _ _. rewrite (dset_same _ _ _ Huser).
    destruct s; reflexivity.
  - intros Hnone. unfold update_user. rewrite Hnone. reflexivity.
Qed.

Lemma update_user_sparse_patch_witness :
  update_user 1 sample_empty_patch (database sample_env)
    = (get_user 1 (database sample_env), database sample_env) /\
  update_user 7 (sample_rename "alex") (database sample_env)
    = (None, database sample_env).
Proof.
  destruct (update_user_sparse_patch 1 sample_empty_patch (database sample_env))
    as [Hin _].
  destruct (update_user_sparse_patch 7 (sample_rename "alex") (database sample_env))
    as [_ Hout].
  edestruct Hin as (u & _ & _ & _ & _ & _ & _ & _ & _ & _ & _ & _ & Hid);
    [reflexivity|].
  split; [apply Hid; reflexivity | apply Hout; reflexivity].
Defined.

(** ** Authentication *)

(** X6: after a successful [create_user], [authenticate_user] under the
    new username returns that user exactly when the password check accepts
    the offered password against the hash stored at registration (which
    must not be the empty string); otherwise it returns [False]. *)
Theorem authenticate_after_register verify_password e user s password :
  (forall u, In u (dvalues (users_db s)) ->
             u_username u <> Some (uc_username user) /\
             u_email u <> Some (uc_email user)) ->
  get_password_hash e (uc_password user) <> EmptyString ->
  authenticate_user verify_password (uc_username user) password
    (snd (create_user e user s))
  = if verify_password password (get_password_hash e (uc_password user))
    then fst (create_user e user s) else None.
Proof.
  intros Hfree Hhash.
  assert (Hname : get_user_by_username (uc_username user) s = None).
  { unfold get_user_by_username. apply find_all_false. intros u Hu.
    apply bool_decide_eq_false. apply (Hfree u Hu). }
  assert (Hmail : get_user_by_email (uc_email user) s = None).
  { unfold get_user_by_email. apply find_all_false. intros u Hu.
    apply bool_decide_eq_false. apply (Hfree u Hu). }
  unfold authenticate_user, create_user. rewrite Hname, Hmail. store_simpl.
  rewrite find_dset_new.
  - rewrite dget_dset_eq.
    rewrite (bool_decide_eq_false_2 _ Hhash). reflexivity.
  - intros u Hu. apply bool_decide_eq_false. apply (Hfree u Hu).
  - apply bool_decide_eq_true. reflexivity.
Qed.

Lemma authenticate_after_register_witness :
  authenticate_user sample_verify "alex" "correct horse"
    (snd (create_user sample_env sample_user_create (database sample_env)))
  = fst (create_user sample_env sample_user_create (database sample_env)) /\
  authenticate_user sample_verify "alex" "wrong"
    (snd (create_user sample_env sample_user_create (database sample_env)))
  = None.
Proof.
  assert (Hfree : forall u, In u (dvalues (users_db (database sample_env))) ->
            u_username u <> Some (uc_username sample_user_create) /\
            u_email u <> Some (uc_email sample_user_create)).
  { intros u Hu. cbn in Hu.
    repeat destruct Hu as [<-|Hu]; try (split; discriminate). destruct Hu. }
  assert (Hhash : get_password_hash sample_env (uc_password sample_user_create)
                  <> EmptyString) by discriminate.
  split.
  - exact (authenticate_after_register sample_verify sample_env
             sample_user_create (database sample_env) "correct horse"
             Hfree Hhash).
  - exact (authenticate_after_register sample_verify sample_env
             sample_user_create (database sample_env) "wrong" Hfree Hhash).
Defined.

(** X7: a rename through [update_user] locks the user out.  The password
    table is keyed by username and [update_user] does not touch it: in a
    reachable store, if no password is stored under the new name and no
    other user has the old name, then after the rename [authenticate_user]
    returns [False] for the new name and for the old name, whatever the
    password and the password check. *)
Theorem rename_locks_out user_id old_name new_name s user :
  reachable s ->
  dget user_id (users_db s) = Some user ->
  u_username user = Some old_name ->
  new_name <> old_name ->
  dget new_name (users_passwords s) = None ->
  (forall k u, k <> user_id -> dget k (users_db s) = Some u ->
               u_username u <> Some old_name) ->
  forall verify_password password,
    authenticate_user verify_password new_name password
      (snd (update_user user_id
              {| uu_email := None; uu_username := Some (Some new_name);
                 uu_full_name := None |} s)) = None /\
    authenticate_user verify_password old_name password
      (snd (update_user user_id
              {| uu_email := None; uu_username := Some (Some new_name);
                 uu_full_name := None |} s)) = None.
Proof.
  intros Hreach Huser Hold Hne Hpw Hothers verify_password password.
  pose proof (wf_users s (reachable_wf s Hreach)) as Hwf.
  unfold update_user. rewrite Huser. unfold authenticate_user. store_simpl.
  rewrite Hpw. split.
  - destruct (find _ _); reflexivity.
  - rewrite find_all_false; [reflexivity|].
    intros u Hu. apply bool_decide_eq_false.
    apply dvalues_dget in Hu; [|apply dset_wf; exact Hwf].
    destruct Hu as [k Hk]. rewrite dget_dset in Hk.
    destruct (decide (k = user_id)) as [->|Hk'].
    + injection Hk as <-. cbn. congruence.
    + exact (Hothers k u Hk' Hk).
Qed.

Lemma rename_locks_out_witness :
  authenticate_user sample_verify "jane" "secret"
    (snd (update_user 2 (sample_rename "jane") (database sample_env))) = None /\
  authenticate_user sample_verify "janedoe" "secret"
    (snd (update_user 2 (sample_rename "jane") (database sample_env))) = None.
Proof.
  eapply (rename_locks_out 2 "janedoe" "jane" (database sample_env)).
  - apply reachable_init.
  - reflexivity.
  - reflexivity.
  - discriminate.
  - reflexivity.
  - intros k u Hk Hu. cbn in Hu.
    destruct (decide (k = 1)) as [->|]; [injection Hu as <-; discriminate|].
    destruct (decide (k = 2)) as [->|]; [contradiction | discriminate].
Defined.

(** ** Workouts own their exercise sets *)

Lemma store_sets_keeps x sets (d : dict Z ExerciseSet) :
  is_Some (dget x d) -> is_Some (dget x (store_sets sets d)).
Proof.
  revert d. induction sets as [|a r IH]; intros d Hx; [exact Hx|].
  unfold store_sets in *. cbn [fold_left]. apply IH.
  rewrite dget_dset. destruct (decide (x = es_id a)); eauto.
Qed.

Lemma store_sets_keyed sets (d : dict Z ExerciseSet) :
  (forall k es, dget k d = Some es -> es_id es = k) ->
  forall k es, dget k (store_sets sets d) = Some es -> es_id es = k.
Proof.
  revert d. induction sets as [|a r IH]; intros d Hd; [exact Hd|].
  unfold store_sets in *. cbn [fold_left]. apply IH.
  intros k es Hk. rewrite dget_dset in Hk.
  destruct (decide (k = es_id a)) as [->|]; [congruence | eauto].
Qed.

Lemma store_sets_listed x sets (d : dict Z ExerciseSet) :
  List.NoDup (map es_id sets) -> In x (map es_id sets) ->
  is_Some (dget x (store_sets sets d)).
Proof.
  intros Hnd Hx. apply in_map_iff in Hx. destruct Hx as (es & <- & Hes).
  rewrite (dget_store_sets_in es sets d Hnd Hes). eauto.
Qed.

(** The ids listed for [wid], read as [exercise_set_ids] reads them. *)
Lemma exercise_set_ids_listed wid s l :
  dget wid (workout_exercise_sets s) = Some l -> exercise_set_ids wid s = l.
Proof. intros H. unfold exercise_set_ids. rewrite H. reflexivity. Qed.

(** An id listed by another workout is not among the ids of [wid]. *)
Lemma other_workout_ids s wid w l x :
  sets_owned s -> w <> wid ->
  dget w (workout_exercise_sets s) = Some l -> In x l ->
  ~ In x (exercise_set_ids wid s).
Proof.
  intros Hown Hne Hl Hx Hin. unfold exercise_set_ids in Hin.
  destruct (dget wid (workout_exercise_sets s)) as [l'|] eqn:Hl';
    cbn [default] in Hin; [|destruct Hin].
  apply Hne. exact (owned_once s Hown _ _ _ _ _ Hl Hl' Hx Hin).
Qed.

Lemma database_owned e : sets_owned (database e).
Proof.
  split; cbn; intros; dict_cases; cbn in *;
    repeat match goal with
    | H : _ \/ _ |- _ => destruct H; try subst
    | H : False |- _ => destruct H
    end; try lia; try reflexivity; try discriminate; eauto;
    repeat constructor; cbn; intuition lia.
Qed.

(** What the replaced list and the new sets contribute to the ownership
    invariant, shared by [create_workout] and [update_workout]. *)
Lemma replace_sets_owned s c wid data (lists : dict Z (list Z))
    (sets : dict Z ExerciseSet) :
  (forall w l x, w <> wid -> dget w lists = Some l -> In x l ->
                 x < c /\ is_Some (dget x sets)) ->
  (forall w1 w2 l1 l2 x, w1 <> wid -> w2 <> wid ->
     dget w1 lists = Some l1 -> dget w2 lists = Some l2 ->
     In x l1 -> In x l2 -> w1 = w2) ->
  (forall w l, w <> wid -> dget w lists = Some l -> List.NoDup l) ->
  (forall k es, dget k sets = Some es -> es_id es = k) ->
  workout_exercise_sets s = dset wid (map es_id (materialize c data)) lists ->
  exercise_sets_db s = store_sets (materialize c data) sets ->
  sets_owned s.
Proof.
  intros Hold Honce Hnd Hkey Hl Hs.
  pose proof (materialize_ids_nodup c data) as Hnew.
  split; rewrite ?Hl, ?Hs.
  - intros w l x Hw Hx. rewrite dget_dset in Hw.
    destruct (decide (w = wid)) as [->|Hne].
    + injection Hw as <-. apply store_sets_listed; assumption.
    + apply store_sets_keeps. exact (proj2 (Hold _ _ _ Hne Hw Hx)).
  - intros w1 w2 l1 l2 x H1 H2 Hx1 Hx2. rewrite dget_dset in H1, H2.
    destruct (decide (w1 = wid)) as [->|Hn1];
      destruct (decide (w2 = wid)) as [->|Hn2]; try reflexivity.
    + injection H1 as <-. apply materialize_ids_range in Hx1.
      destruct (Hold _ _ _ Hn2 H2 Hx2). lia.
    + injection H2 as <-. apply materialize_ids_range in Hx2.
      destruct (Hold _ _ _ Hn1 H1 Hx1). lia.
    + eauto.
  - intros w l Hw. rewrite dget_dset in Hw.
    destruct (decide (w = wid)) as [->|Hne]; [injection Hw as <-|]; eauto.
  - apply store_sets_keyed. exact Hkey.
Qed.

Lemma create_workout_owned e workout user_id s :
  store_inv s -> sets_owned s ->
  sets_owned (snd (create_workout e workout user_id s)).
Proof.
  intros Hinv Hown. rewrite create_workout_eq.
  eapply replace_sets_owned with
    (lists := workout_exercise_sets s) (sets := exercise_sets_db s);
    [| | | |store_simpl; reflexivity|store_simpl; reflexivity].
  - intros w l x _ Hw Hx. split.
    + exact (inv_set_ids s Hinv _ _ _ Hw Hx).
    + exact (owned_stored s Hown _ _ _ Hw Hx).
  - intros w1 w2 l1 l2 x _ _. apply (owned_once s Hown).
  - intros w l _. apply (owned_nodup s Hown).
  - apply (owned_keyed s Hown).
Qed.

Lemma update_workout_owned workout_id workout_data s :
  store_inv s -> sets_owned s ->
  sets_owned (snd (update_workout workout_id workout_data s)).
Proof.
  intros Hinv Hown.
  destruct (dget workout_id (workouts_db s)) as [old|] eqn:Hold.
  2:{ unfold update_workout. rewrite Hold. exact Hown. }
  destruct (truthy_list (wc_exercise_sets workout_data)) eqn:Ht.
  - rewrite (update_workout_sets_eq _ _ _ _ Hold Ht).
    eapply replace_sets_owned with
      (lists := workout_exercise_sets s)
      (sets := remove_exercise_sets (exercise_set_ids workout_id s)
                 (exercise_sets_db s));
      [| | | |store_simpl; reflexivity|store_simpl; reflexivity].
    + intros w l x Hne Hw Hx. split.
      * exact (inv_set_ids s Hinv _ _ _ Hw Hx).
      * rewrite dget_remove_exercise_sets.
        destruct (in_dec Z.eq_dec x _) as [Hin|_].
        -- exfalso. exact (other_workout_ids s _ _ _ _ Hown Hne Hw Hx Hin).
        -- exact (owned_stored s Hown _ _ _ Hw Hx).
    + intros w1 w2 l1 l2 x _ _. apply (owned_once s Hown).
    + intros w l _. apply (owned_nodup s Hown).
    + intros k es Hk. apply dget_remove_some in Hk.
      exact (owned_keyed s Hown _ _ (proj1 Hk)).
  - rewrite (update_workout_keep_eq _ _ _ _ Hold Ht).
    destruct Hown as [O1 O2 O3 O4]. split; store_simpl; assumption.
Qed.

(** [delete_workout] on a stored workout, field by field. *)
Lemma delete_workout_fields workout_id s :
  dmem workout_id (workouts_db s) = true ->
  fst (delete_workout workout_id s) = true /\
  exercise_sets_db (snd (delete_workout workout_id s))
    = remove_exercise_sets (exercise_set_ids workout_id s) (exercise_sets_db s) /\
  workout_exercise_sets (snd (delete_workout workout_id s))
    = ddel workout_id (workout_exercise_sets s) /\
  workouts_db (snd (delete_workout workout_id s)) = ddel workout_id (workouts_db s).
Proof.
  intros Hm. unfold delete_workout. rewrite Hm. store_simpl.
  destruct (dmem workout_id (workout_exercise_sets s)) eqn:Hl; store_simpl.
  - repeat split.
  - apply dmem_false in Hl. rewrite (ddel_absent _ _ Hl). repeat split.
Qed.

Lemma delete_workout_owned workout_id s :
  sets_owned s -> sets_owned (snd (delete_workout workout_id s)).
Proof.
  intros Hown. destruct (dmem workout_id (workouts_db s)) eqn:Hm.
  2:{ unfold delete_workout. rewrite Hm. exact Hown. }
  destruct (delete_workout_fields _ _ Hm) as (_ & Hs & Hl & _).
  assert (Hrest : forall w l,
            dget w (ddel workout_id (workout_exercise_sets s)) = Some l ->
            w <> workout_id /\ dget w (workout_exercise_sets s) = Some l).
  { intros w l Hw. rewrite dget_ddel in Hw.
    destruct (decide (w = workout_id)); [discriminate | auto]. }
  split; rewrite ?Hl, ?Hs.
  - intros w l x Hw Hx. destruct (Hrest _ _ Hw) as [Hne Hw'].
    rewrite dget_remove_exercise_sets.
    destruct (in_dec Z.eq_dec x _) as [Hin|_].
    + exfalso. exact (other_workout_ids s _ _ _ _ Hown Hne Hw' Hx Hin).
    + exact (owned_stored s Hown _ _ _ Hw' Hx).
  - intros w1 w2 l1 l2 x H1 H2. apply Hrest in H1, H2.
    exact (owned_once s Hown _ _ _ _ _ (proj2 H1) (proj2 H2)).
  - intros w l Hw. apply Hrest in Hw. exact (owned_nodup s Hown _ _ (proj2 Hw)).
  - intros k es Hk. apply dget_remove_some in Hk.
    exact (owned_keyed s Hown _ _ (proj1 Hk)).
Qed.

(** The other operations leave the exercise sets and the membership lists
    alone. *)
Lemma run_sets_frame e o s :
  match o with
  | CreateWorkout _ _ | UpdateWorkout _ _ | DeleteWorkout _ => True
  | _ => exercise_sets_db (run e o s) = exercise_sets_db s /\
         workout_exercise_sets (run e o s) = workout_exercise_sets s
  end.
Proof.
  destruct o; cbn [run]; try exact I.
  - unfold create_user. destruct (get_user_by_username _ s); [auto|].
    destruct (get_user_by_email _ s); auto.
  - unfold update_user. destruct (dget user_id (users_db s)); auto.
  - unfold delete_user. destruct (dget user_id (users_db s)) as [user|]; [|auto].
    store_simpl. destruct (u_username user) as [name|]; store_simpl;
      [destruct (dmem name (users_passwords s))|]; store_simpl;
      destruct (dmem user_id (user_stats_db s)); auto.
  - auto.
  - unfold update_exercise. destruct (dget exercise_id (exercises_db s)); auto.
  - unfold delete_exercise. destruct (dmem exercise_id (exercises_db s));
      [destruct (existsb _ _)|]; auto.
  - auto.
  - unfold update_workout_plan. destruct (dget plan_id (workout_plans_db s)); auto.
  - unfold delete_workout_plan. destruct (dmem plan_id (workout_plans_db s)); auto.
  - unfold add_workout_to_plan. destruct (negb _ || negb _); [auto|].
    destruct (dget plan_id (workout_plans_db s)) as [plan|]; [|auto].
    destruct (negb (id_in workout_id (wp_workouts plan))); auto.
  - unfold remove_workout_from_plan.
    destruct (dget plan_id (workout_plans_db s)) as [plan|]; [|auto].
    destruct (id_in workout_id (wp_workouts plan)); auto.
  - unfold create_progress_log. store_simpl.
    destruct (dget user_id (user_stats_db s)); auto.
  - unfold delete_progress_log. destruct (dmem log_id (progress_logs_db s)); auto.
Qed.

Lemma run_owned e o s :
  store_inv s -> sets_owned s -> sets_owned (run e o s).
Proof.
  intros Hinv Hown. pose proof (run_sets_frame e o s) as Hframe.
  destruct o; cbn [run] in *;
    try (apply create_workout_owned; assumption);
    try (apply update_workout_owned; assumption);
    try (apply delete_workout_owned; assumption);
    destruct Hframe as [Hs Hl]; destruct Hown as [O1 O2 O3 O4];
    split; rewrite ?Hs, ?Hl; assumption.
Qed.

Lemma reachable_owned s : reachable s -> sets_owned s.
Proof.
  induction 1 as [e|e o s Hs IH]; [apply database_owned|].
  apply run_owned; [apply reachable_inv, Hs | exact IH].
Qed.

Lemma omap_ext_in {A B : Type} (f g : A -> option B) (l : list A) :
  (forall x, In x l -> f x = g x) -> omap f l = omap g l.
Proof.
  induction l as [|a r IH]; intros H; [reflexivity|].
  cbn [omap list_omap]. rewrite (H a) by (left; reflexivity).
  rewrite IH by (intros x Hx; apply H; right; exact Hx). reflexivity.
Qed.

Lemma omap_all_some {A B : Type} (f : A -> option B) (g : B -> A) (l : list A) :
  (forall x, In x l -> exists y, f x = Some y /\ g y = x) ->
  map g (omap f l) = l.
Proof.
  induction l as [|a r IH]; intros H; [reflexivity|].
  cbn [omap list_omap]. destruct (H a) as (y & Hy & Hg); [left; reflexivity|].
  rewrite Hy. cbn [map]. rewrite Hg. f_equal.
  apply IH. intros x Hx. apply H. right. exact Hx.
Qed.

(** X8: in every reachable store the exercise sets are owned as the
    membership lists say: every id a workout lists is stored in
    [exercise_sets_db] under that id, no id is listed by two workouts, and
    no list names an id twice. *)
Theorem exercise_sets_exclusively_owned s :
  reachable s ->
  (forall wid l x,
     dget wid (workout_exercise_sets s) = Some l -> In x l ->
     exists es, dget x (exercise_sets_db s) = Some es /\ es_id es = x) /\
  (forall w1 w2 l1 l2 x,
     dget w1 (workout_exercise_sets s) = Some l1 ->
     dget w2 (workout_exercise_sets s) = Some l2 ->
     In x l1 -> In x l2 -> w1 = w2) /\
  (forall wid l, dget wid (workout_exercise_sets s) = Some l -> List.NoDup l).
Proof.
  intros Hreach. destruct (reachable_owned s Hreach) as [O1 O2 O3 O4].
  split; [|split; assumption].
  intros wid l x Hl Hx. destruct (O1 _ _ _ Hl Hx) as [es Hes].
  exists es. split; [exact Hes | exact (O4 _ _ Hes)].
Qed.

Lemma exercise_sets_exclusively_owned_witness :
  exists es,
    dget 6 (exercise_sets_db
              (run sample_env (UpdateWorkout 2 sample_update)
                   (database sample_env))) = Some es /\
    es_id es = 6.
Proof.
  destruct (exercise_sets_exclusively_owned
              (run sample_env (UpdateWorkout 2 sample_update)
                   (database sample_env))) as [Hstored _].
  - apply reachable_step, reachable_init.
  - apply (Hstored 2 [5; 6] 6); [reflexivity | right; left; reflexivity].
Defined.

(** X9: in a reachable store [get_workout_detail] on a stored workout
    returns that workout with one exercise set for every id on its
    membership list, in list order; nothing is skipped.  For an id that is
    not stored it returns [None]. *)
Theorem get_workout_detail_complete workout_id s :
  reachable s ->
  (forall workout, dget workout_id (workouts_db s) = Some workout ->
     exists detail,
       get_workout_detail workout_id s = Some detail /\
       wd_workout detail = workout /\
       map es_id (wd_exercise_sets detail) = exercise_set_ids workout_id s) /\
  (dget workout_id (workouts_db s) = None ->
   get_workout_detail workout_id s = None).
Proof.
  intros Hreach. pose proof (reachable_owned s Hreach) as Hown. split.
  - intros workout Hw. unfold get_workout_detail. rewrite Hw.
    eexists. split; [reflexivity|]. split; [reflexivity|].
    cbn [wd_exercise_sets]. apply omap_all_some.
    intros x Hx. unfold exercise_set_ids in Hx.
    destruct (dget workout_id (workout_exercise_sets s)) as [l|] eqn:Hl;
      cbn [default] in Hx; [|destruct Hx].
    destruct (owned_stored s Hown _ _ _ Hl Hx) as [es Hes].
    exists es. split; [exact Hes | exact (owned_keyed s Hown _ _ Hes)].
  - intros Hnone. unfold get_workout_detail. rewrite Hnone. reflexivity.
Qed.

Lemma get_workout_detail_complete_witness :
  (exists detail,
     get_workout_detail 1 (database sample_env) = Some detail /\
     map es_id (wd_exercise_sets detail) = [3]) /\
  get_workout_detail 9 (database sample_env) = None.
Proof.
  destruct (get_workout_detail_complete 1 (database sample_env)
              (reachable_init sample_env)) as [Hin _].
  destruct (get_workout_detail_complete 9 (database sample_env)
              (reachable_init sample_env)) as [_ Hout].
  split; [|apply Hout; reflexivity].
  edestruct Hin as (detail & Hget & _ & Hids); [reflexivity|].
  exists detail. split; [exact Hget | exact Hids].
Defined.

(** X10: what [create_workout] returns is what [get_workout_detail] reads
    back under the new id: the workout with the input's fields, the given
    owner and the current time, and the created exercise sets, one per
    input specification. *)
Theorem create_workout_read_back e workout user_id s :
  get_workout_detail (workout_id_counter s) (snd (create_workout e workout user_id s))
    = Some (fst (create_workout e workout user_id s)) /\
  wd_workout (fst (create_workout e workout user_id s))
    = {| w_base := wc_base workout; w_id := workout_id_counter s;
         w_created_at := env_now e; w_user_id := user_id |} /\
  length (wd_exercise_sets (fst (create_workout e workout user_id s)))
    = length (default [] (wc_exercise_sets workout)) /\
  workout_id_counter (snd (create_workout e workout user_id s))
    = workout_id_counter s + 1.
Proof.
  rewrite create_workout_eq. unfold get_workout_detail, exercise_set_ids.
  store_simpl. rewrite !dget_dset_eq. cbn [default wd_workout wd_exercise_sets].
  rewrite omap_store_sets by apply materialize_ids_nodup.
  repeat split.
  rewrite <- (length_map es_exercise_id (materialize _ _)).
  rewrite materialize_exercise_ids. apply length_map.
Qed.

(** X11: after [delete_workout] the workout cannot be read any more, and
    deleting it again returns [False] and changes nothing; this holds
    whether or not the first call found the workout. *)
Theorem delete_workout_twice workout_id s :
  get_workout workout_id (snd (delete_workout workout_id s)) = None /\
  get_workout_detail workout_id (snd (delete_workout workout_id s)) = None /\
  delete_workout workout_id (snd (delete_workout workout_id s))
    = (false, snd (delete_workout workout_id s)).
Proof.
  assert (Hgone : dget workout_id (workouts_db (snd (delete_workout workout_id s)))
                  = None).
  { destruct (dmem workout_id (workouts_db s)) eqn:Hm.
    - destruct (delete_workout_fields _ _ Hm) as (_ & _ & _ & Hw).
      rewrite Hw. apply dget_ddel_eq.
    - unfold delete_workout. rewrite Hm. apply dmem_false. exact Hm. }
  unfold get_workout, get_workout_detail. rewrite Hgone.
  split; [reflexivity|]. split; [reflexivity|].
  unfold delete_workout at 1.
  rewrite (proj2 (dmem_false _ _) Hgone). reflexivity.
Qed.

Lemma detail_frame other s s' :
  dget other (workouts_db s') = dget other (workouts_db s) ->
  dget other (workout_exercise_sets s') = dget other (workout_exercise_sets s) ->
  (forall x, In x (exercise_set_ids other s) ->
             dget x (exercise_sets_db s') = dget x (exercise_sets_db s)) ->
  get_workout_detail other s' = get_workout_detail other s.
Proof.
  intros Hw Hl Hs. unfold get_workout_detail, exercise_set_ids in *.
  rewrite Hw, Hl. destruct (dget other (workouts_db s)); [|reflexivity].
  f_equal. f_equal. apply omap_ext_in. exact Hs.
Qed.

(** X12: replacing or deleting the exercise sets of one workout does not
    touch another workout.  In a reachable store, after [update_workout] or
    [delete_workout] on one id, [get_workout_detail] of any other id
    returns what it returned before. *)
Theorem other_workouts_untouched workout_id other workout_data s :
  reachable s -> other <> workout_id ->
  get_workout_detail other (snd (update_workout workout_id workout_data s))
    = get_workout_detail other s /\
  get_workout_detail other (snd (delete_workout workout_id s))
    = get_workout_detail other s.
Proof.
  intros Hreach Hne.
  pose proof (reachable_inv s Hreach) as Hinv.
  pose proof (reachable_owned s Hreach) as Hown.
  assert (Hkept : forall x, In x (exercise_set_ids other s) ->
            dget x (remove_exercise_sets (exercise_set_ids workout_id s)
                      (exercise_sets_db s)) = dget x (exercise_sets_db s)).
  { intros x Hx. rewrite dget_remove_exercise_sets.
    destruct (in_dec Z.eq_dec x _) as [Hin|_]; [|reflexivity].
    exfalso. unfold exercise_set_ids in Hx.
    destruct (dget other (workout_exercise_sets s)) as [l|] eqn:Hl;
      cbn [default] in Hx; [|destruct Hx].
    exact (other_workout_ids s _ _ _ _ Hown Hne Hl Hx Hin). }
  split.
  - destruct (dget workout_id (workouts_db s)) as [old|] eqn:Hold.
    2:{ unfold update_workout. rewrite Hold. reflexivity. }
    destruct (truthy_list (wc_exercise_sets workout_data)) eqn:Ht.
    + rewrite (update_workout_sets_eq _ _ _ _ Hold Ht).
      apply detail_frame; store_simpl.
      * apply dget_dset_ne. exact Hne.
      * apply dget_dset_ne. exact Hne.
      * intros x Hx. rewrite dget_store_sets_other; [apply Hkept; exact Hx|].
        intros Hnew. apply materialize_ids_range in Hnew.
        unfold exercise_set_ids in Hx.
        destruct (dget other (workout_exercise_sets s)) as [l|] eqn:Hl;
          cbn [default] in Hx; [|destruct Hx].
        pose proof (inv_set_ids s Hinv _ _ _ Hl Hx). lia.
    + rewrite (update_workout_keep_eq _ _ _ _ Hold Ht).
      apply detail_frame; store_simpl; try reflexivity.
      apply dget_dset_ne. exact Hne.
  - destruct (dmem workout_id (workouts_db s)) eqn:Hm.
    2:{ unfold delete_workout. rewrite Hm. reflexivity. }
    destruct (delete_workout_fields _ _ Hm) as (_ & Hs & Hl & Hw).
    apply detail_frame; rewrite ?Hs, ?Hl, ?Hw.
    + apply dget_ddel_ne. exact Hne.
    + apply dget_ddel_ne. exact Hne.
    + exact Hkept.
Qed.

Lemma other_workouts_untouched_witness :
  get_workout_detail 1 (snd (update_workout 2 sample_update (database sample_env)))
    = get_workout_detail 1 (database sample_env) /\
  get_workout_detail 1 (snd (delete_workout 2 (database sample_env)))
    = get_workout_detail 1 (database sample_env).
Proof.
  apply other_workouts_untouched; [apply reachable_init | discriminate].
Defined.

(** ** References from exercise sets to exercises *)

Lemma dvalues_dset {V : Type} (k : Z) (v x : V) (d : dict Z V) :
  In x (dvalues (dset k v d)) -> x = v \/ In x (dvalues d).
Proof.
  induction d as [|[k0 v0] r IH]; simpl.
  - intros [H|[]]. left. congruence.
  - destruct (decide (k = k0)); simpl.
    + intros [H|H]; [left; congruence | right; right; exact H].
    + intros [H|H]; [right; left; exact H |].
      destruct (IH H); [left | right; right]; assumption.
Qed.

Lemma dvalues_ddel {V : Type} (k : Z) (x : V) (d : dict Z V) :
  In x (dvalues (ddel k d)) -> In x (dvalues d).
Proof.
  induction d as [|[k0 v0] r IH]; simpl; [tauto|].
  destruct (decide (k = k0)); simpl.
  - intros H. right. exact (IH H).
  - intros [H|H]; [left; exact H | right; exact (IH H)].
Qed.

Lemma dvalues_store_sets es sets (d : dict Z ExerciseSet) :
  In es (dvalues (store_sets sets d)) -> In es sets \/ In es (dvalues d).
Proof.
  revert d. induction sets as [|a r IH]; intros d H; [right; exact H|].
  unfold store_sets in *. cbn [fold_left] in H. apply IH in H.
  destruct H as [H|H]; [left; right; exact H|].
  apply dvalues_dset in H. destruct H as [->|H]; [left; left; reflexivity|].
  right. exact H.
Qed.

Lemma dvalues_remove_exercise_sets es ids (d : dict Z ExerciseSet) :
  In es (dvalues (remove_exercise_sets ids d)) -> In es (dvalues d).
Proof.
  revert d. induction ids as [|a r IH]; intros d H; [exact H|].
  unfold remove_exercise_sets in *. cbn [fold_left] in H. apply IH in H.
  destruct (dmem a d); [apply dvalues_ddel in H|]; exact H.
Qed.

Lemma materialize_in_ref c data es :
  In es (materialize c data) -> In (es_exercise_id es) (map esc_exercise_id data).
Proof.
  intros H. rewrite <- (materialize_exercise_ids c data).
  apply in_map. exact H.
Qed.

(** The operations on users, plans and logs, and the workout operations,
    leave [exercises_db] alone. *)
Lemma run_exercises_frame e o s :
  match o with
  | CreateExercise _ _ | UpdateExercise _ _ | DeleteExercise _ => True
  | _ => exercises_db (run e o s) = exercises_db s
  end.
Proof.
  destruct o; cbn [run]; try exact I.
  - unfold create_user. destruct (get_user_by_username _ s); [auto|].
    destruct (get_user_by_email _ s); auto.
  - unfold update_user. destruct (dget user_id (users_db s)); auto.
  - unfold delete_user. destruct (dget user_id (users_db s)) as [user|]; [|auto].
    store_simpl. destruct (u_username user) as [name|]; store_simpl;
      [destruct (dmem name (users_passwords s))|]; store_simpl;
      destruct (dmem user_id (user_stats_db s)); auto.
  - rewrite create_workout_eq. reflexivity.
  - destruct (dget workout_id (workouts_db s)) as [old|] eqn:Hold.
    + destruct (truthy_list (wc_exercise_sets workout_data)) eqn:Ht.
      * rewrite (update_workout_sets_eq _ _ _ _ Hold Ht). reflexivity.
      * rewrite (update_workout_keep_eq _ _ _ _ Hold Ht). reflexivity.
    + unfold update_workout. rewrite Hold. reflexivity.
  - unfold delete_workout. destruct (dmem workout_id (workouts_db s));
      [|reflexivity]. store_simpl.
    destruct (dmem workout_id (workout_exercise_sets s)); reflexivity.
  - auto.
  - unfold update_workout_plan. destruct (dget plan_id (workout_plans_db s)); auto.
  - unfold delete_workout_plan. destruct (dmem plan_id (workout_plans_db s)); auto.
  - unfold add_workout_to_plan. destruct (negb _ || negb _); [auto|].
    destruct (dget plan_id (workout_plans_db s)) as [plan|]; [|auto].
    destruct (negb (id_in workout_id (wp_workouts plan))); auto.
  - unfold remove_workout_from_plan.
    destruct (dget plan_id (workout_plans_db s)) as [plan|]; [|auto].
    destruct (id_in workout_id (wp_workouts plan)); auto.
  - unfold create_progress_log. store_simpl.
    destruct (dget user_id (user_stats_db s)); auto.
  - unfold delete_progress_log. destruct (dmem log_id (progress_logs_db s)); auto.
Qed.

(** X13: referential integrity is kept.  If every stored exercise set
    names a stored exercise, and the exercise ids in the command's input
    (the specifications of [create_workout] or [update_workout]) are
    stored, then after any command every stored exercise set still names a
    stored exercise; in particular [delete_exercise] never removes an
    exercise that a set refers to. *)
Theorem references_stay_valid e o s :
  refs_ok s ->
  Forall (fun id => is_Some (dget id (exercises_db s))) (op_exercise_ids o) ->
  refs_ok (run e o s).
Proof.
  intros Hok Hinput.
  pose proof (run_sets_frame e o s) as Hsets.
  pose proof (run_exercises_frame e o s) as Hex.
  rewrite List.Forall_forall in Hinput.
  destruct o; cbn [run op_exercise_ids] in *;
    try (unfold refs_ok; rewrite (proj1 Hsets), Hex; exact Hok).
  - (* create_workout *)
    intros es Hes. rewrite Hex. rewrite create_workout_eq in Hes.
    store_simpl. apply dvalues_store_sets in Hes. destruct Hes as [Hes|Hes].
    + apply Hinput. eapply materialize_in_ref. exact Hes.
    + exact (Hok es Hes).
  - (* update_workout *)
    intros es Hes. rewrite Hex.
    destruct (dget workout_id (workouts_db s)) as [old|] eqn:Hold.
    2:{ unfold update_workout in Hes. rewrite Hold in Hes. exact (Hok es Hes). }
    destruct (truthy_list (wc_exercise_sets workout_data)) eqn:Ht.
    + rewrite (update_workout_sets_eq _ _ _ _ Hold Ht) in Hes. store_simpl.
      apply dvalues_store_sets in Hes. destruct Hes as [Hes|Hes].
      * apply Hinput. eapply materialize_in_ref. exact Hes.
      * apply dvalues_remove_exercise_sets in Hes. exact (Hok es Hes).
    + rewrite (update_workout_keep_eq _ _ _ _ Hold Ht) in Hes.
      exact (Hok es Hes).
  - (* delete_workout *)
    intros es Hes. rewrite Hex.
    destruct (dmem workout_id (workouts_db s)) eqn:Hm.
    + destruct (delete_workout_fields _ _ Hm) as (_ & Hs & _).
      rewrite Hs in Hes. apply dvalues_remove_exercise_sets in Hes.
      exact (Hok es Hes).
    + unfold delete_workout in Hes. rewrite Hm in Hes. exact (Hok es Hes).
  - (* create_exercise *)
    destruct Hsets as [Hs _]. intros es Hes. rewrite Hs in Hes.
    unfold create_exercise. store_simpl. rewrite dget_dset.
    destruct (decide (es_exercise_id es = exercise_id_counter s)); [eauto|].
    exact (Hok es Hes).
  - (* update_exercise *)
    destruct Hsets as [Hs _]. intros es Hes. rewrite Hs in Hes.
    unfold update_exercise.
    destruct (dget exercise_id (exercises_db s)) eqn:Hx; store_simpl;
      [|exact (Hok es Hes)].
    rewrite dget_dset.
    destruct (decide (es_exercise_id es = exercise_id)); [eauto|].
    exact (Hok es Hes).
  - (* delete_exercise *)
    destruct Hsets as [Hs _]. intros es Hes. rewrite Hs in Hes.
    unfold delete_exercise.
    destruct (dmem exercise_id (exercises_db s)); [|exact (Hok es Hes)].
    destruct (existsb _ _) eqn:Huse; [exact (Hok es Hes)|]. store_simpl.
    rewrite dget_ddel_ne; [exact (Hok es Hes)|].
    intros Heq. assert (Hin : existsb
      (fun es0 => es_exercise_id es0 =? exercise_id)
      (dvalues (exercise_sets_db s)) = true).
    { apply existsb_exists. exists es. split; [exact Hes|].
      apply Z.eqb_eq. exact Heq. }
    congruence.
Qed.

Lemma references_stay_valid_witness :
  refs_ok (run sample_env (DeleteExercise 5)
             (run sample_env (CreateWorkout sample_update (Some 1))
                  (database sample_env))).
Proof.
  assert (Hseed : refs_ok (database sample_env)).
  { intros es Hes. cbn in Hes.
    repeat destruct Hes as [<-|Hes]; try (eexists; reflexivity). destruct Hes. }
  apply references_stay_valid; [|constructor].
  apply references_stay_valid; [exact Hseed|].
  repeat constructor; eexists; reflexivity.
Defined.

(** ** Plans: removing workouts *)

Lemma list_remove_snoc x l : ~ In x l -> list_remove x (l ++ [x]) = l.
Proof.
  induction l as [|a r IH]; simpl; intros Hx.
  - destruct (decide (x = x)); congruence.
  - destruct (decide (x = a)) as [->|]; [tauto|]. f_equal. apply IH. tauto.
Qed.

Lemma list_remove_notin x l : ~ In x l -> list_remove x l = l.
Proof.
  induction l as [|a r IH]; simpl; intros Hx; [reflexivity|].
  destruct (decide (x = a)) as [->|]; [tauto|]. f_equal. apply IH. tauto.
Qed.

Lemma list_remove_gone x l : List.NoDup l -> ~ In x (list_remove x l).
Proof.
  induction 1 as [|a r Hnotin Hnd IH]; simpl; [tauto|].
  destruct (decide (x = a)) as [->|]; [exact Hnotin|].
  simpl. intros [->|H]; [congruence | exact (IH H)].
Qed.

Lemma list_remove_other x y l : y <> x -> In y (list_remove x l) <-> In y l.
Proof.
  intros Hne. induction l as [|a r IH]; simpl; [tauto|].
  destruct (decide (x = a)) as [->|]; simpl; [|rewrite IH; tauto].
  split; [tauto|]. intros [->|H]; [congruence | exact H].
Qed.

Lemma wp_workouts_set l plan : wp_workouts (set_wp_workouts l plan) = l.
Proof. reflexivity. Qed.

Lemma set_wp_workouts_back l plan :
  set_wp_workouts (wp_workouts plan) (set_wp_workouts l plan) = plan.
Proof. destruct plan; reflexivity. Qed.

(** [remove_workout_from_plan] on a stored plan. *)
Lemma remove_workout_from_plan_present plan_id workout_id s plan :
  dget plan_id (workout_plans_db s) = Some plan ->
  remove_workout_from_plan plan_id workout_id s =
    if id_in workout_id (wp_workouts plan)
    then (Some (set_wp_workouts (list_remove workout_id (wp_workouts plan)) plan),
          set_workout_plans_db
            (dset plan_id
               (set_wp_workouts (list_remove workout_id (wp_workouts plan)) plan)
               (workout_plans_db s)) s)
    else (Some plan, s).
Proof. intros Hplan. unfold remove_workout_from_plan. rewrite Hplan. reflexivity. Qed.

(** X14: removing a workout that was just added undoes the addition.  For
    a stored plan that does not list the workout and a stored workout,
    [add_workout_to_plan] followed by [remove_workout_from_plan] returns the
    original plan and leaves the store exactly as it was before the two
    calls. *)
Theorem add_then_remove_restores plan_id workout_id s plan :
  dget plan_id (workout_plans_db s) = Some plan ->
  is_Some (dget workout_id (workouts_db s)) ->
  ~ In workout_id (wp_workouts plan) ->
  remove_workout_from_plan plan_id workout_id
    (snd (add_workout_to_plan plan_id workout_id s)) = (Some plan, s).
Proof.
  intros Hplan Hworkout Hnew.
  rewrite (add_workout_to_plan_present _ _ _ _ Hplan Hworkout).
  rewrite (proj2 (id_in_false _ _) Hnew). cbn [snd].
  rewrite (remove_workout_from_plan_present plan_id workout_id _
             (set_wp_workouts (wp_workouts plan ++ [workout_id]) plan))
    by (store_simpl; apply dget_dset_eq).
  rewrite !wp_workouts_set.
  assert (Hin : In workout_id (wp_workouts plan ++ [workout_id]))
    by (apply in_or_app; right; left; reflexivity).
  rewrite (proj2 (id_in_true _ _) Hin), (list_remove_snoc _ _ Hnew).
  rewrite set_wp_workouts_back. store_simpl.
  rewrite dset_dset, (dset_same _ _ _ Hplan). destruct s; reflexivity.
Qed.

Lemma add_then_remove_restores_witness :
  remove_workout_from_plan 2 3
    (snd (add_workout_to_plan 2 3 (database sample_env)))
  = (get_workout_plan 2 (database sample_env), database sample_env).
Proof.
  eapply (add_then_remove_restores 2 3 (database sample_env)).
  - reflexivity.
  - eexists. reflexivity.
  - cbn. intros [H|[]]. discriminate H.
Defined.

(** X15: [remove_workout_from_plan] on a stored plan of a reachable store
    returns the stored plan, which no longer lists the workout and lists
    every other workout as before; whether the workout id names a stored
    workout plays no role, and removing again changes nothing.  On a plan
    id that is not stored it returns [None] and changes nothing. *)
Theorem remove_workout_from_plan_unlists plan_id workout_id s :
  reachable s ->
  (forall plan, dget plan_id (workout_plans_db s) = Some plan ->
     exists plan',
       fst (remove_workout_from_plan plan_id workout_id s) = Some plan' /\
       get_workout_plan plan_id (snd (remove_workout_from_plan plan_id workout_id s))
         = Some plan' /\
       ~ In workout_id (wp_workouts plan') /\
       (forall x, x <> workout_id ->
                  (In x (wp_workouts plan') <-> In x (wp_workouts plan))) /\
       remove_workout_from_plan plan_id workout_id
         (snd (remove_workout_from_plan plan_id workout_id s))
       = (Some plan', snd (remove_workout_from_plan plan_id workout_id s))) /\
  (dget plan_id (workout_plans_db s) = None ->
   remove_workout_from_plan plan_id workout_id s = (None, s)).
Proof.
  intros Hreach. split.
  - intros plan Hplan.
    pose proof (inv_plan_nodup s (reachable_inv s Hreach) _ _ Hplan) as Hnd.
    rewrite (remove_workout_from_plan_present _ _ _ _ Hplan).
    unfold get_workout_plan.
    destruct (id_in workout_id (wp_workouts plan)) eqn:Hin; cbn [fst snd].
    + exists (set_wp_workouts (list_remove workout_id (wp_workouts plan)) plan).
      pose proof (list_remove_gone workout_id _ Hnd) as Hgone.
      store_simpl. rewrite dget_dset_eq. cbn [wp_workouts set_wp_workouts].
      split; [reflexivity|]. split; [reflexivity|]. split; [exact Hgone|].
      split; [intros x Hx; apply list_remove_other; exact Hx|].
      rewrite (remove_workout_from_plan_present plan_id workout_id _
                 (set_wp_workouts (list_remove workout_id (wp_workouts plan)) plan))
        by (store_simpl; apply dget_dset_eq).
      cbn [wp_workouts set_wp_workouts].
      rewrite (proj2 (id_in_false _ _) Hgone). reflexivity.
    + exists plan. apply id_in_false in Hin as Hout.
      split; [reflexivity|]. split; [exact Hplan|]. split; [exact Hout|].
      split; [tauto|].
      rewrite (remove_workout_from_plan_present _ _ _ _ Hplan), Hin. reflexivity.
  - intros Hnone. unfold remove_workout_from_plan. rewrite Hnone. reflexivity.
Qed.

Lemma remove_workout_from_plan_unlists_witness :
  (exists plan',
     fst (remove_workout_from_plan 1 2 (database sample_env)) = Some plan' /\
     wp_workouts plan' = [3]) /\
  remove_workout_from_plan 8 2 (database sample_env)
    = (None, database sample_env).
Proof.
  destruct (remove_workout_from_plan_unlists 1 2 (database sample_env)
              (reachable_init sample_env)) as [Hin _].
  destruct (remove_workout_from_plan_unlists 8 2 (database sample_env)
              (reachable_init sample_env)) as [_ Hout].
  split; [|apply Hout; reflexivity].
  edestruct Hin as (plan' & Hfst & _); [reflexivity|].
  exists plan'. split; [exact Hfst|].
  cbn in Hfst. injection Hfst as <-. reflexivity.
Defined.

(** ** Progress logs *)

(** X16: [create_progress_log] stores the log under the next id and, when
    the user has a statistics record, copies the log's weight and body-fat
    percentage into it where they are true (present and not zero), leaves
    them as they were otherwise, refreshes [last_updated] and touches no
    other statistic.  Without a statistics record the statistics are
    untouched. *)
Theorem create_progress_log_updates_stats e log user_id s :
  get_progress_log (progress_log_id_counter s)
    (snd (create_progress_log e log user_id s))
    = Some (fst (create_progress_log e log user_id s)) /\
  fst (create_progress_log e log user_id s)
    = {| pl_base := log; pl_id := progress_log_id_counter s;
         pl_user_id := user_id; pl_created_at := env_now e |} /\
  (forall stats, dget user_id (user_stats_db s) = Some stats ->
     exists stats',
       get_user_stats user_id (snd (create_progress_log e log user_id s))
         = Some stats' /\
       us_weight stats'
         = (if truthy_float (plb_weight log) then plb_weight log
            else us_weight stats) /\
       us_body_fat_percentage stats'
         = (if truthy_float (plb_body_fat_percentage log)
            then plb_body_fat_percentage log
            else us_body_fat_percentage stats) /\
       us_last_updated stats' = env_now e /\
       us_height stats' = us_height stats /\
       us_total_workouts stats' = us_total_workouts stats /\
       us_total_workout_minutes stats' = us_total_workout_minutes stats /\
       us_streak_days stats' = us_streak_days stats /\
       us_last_workout_date stats' = us_last_workout_date stats /\
       us_user_id stats' = us_user_id stats) /\
  (dget user_id (user_stats_db s) = None ->
   user_stats_db (snd (create_progress_log e log user_id s)) = user_stats_db s).
Proof.
  unfold create_progress_log, get_progress_log, get_user_stats. store_simpl.
  destruct (dget user_id (user_stats_db s)) as [stats|] eqn:Hstats; store_simpl;
    rewrite dget_dset_eq.
  - split; [reflexivity|]. split; [reflexivity|]. split; [|discriminate].
    intros ? [= <-]. rewrite dget_dset_eq. eexists. split; [reflexivity|].
    destruct (truthy_float (plb_weight log));
      destruct (truthy_float (plb_body_fat_percentage log)); repeat split.
  - split; [reflexivity|]. split; [reflexivity|]. split; [discriminate|].
    reflexivity.
Qed.

Lemma create_progress_log_updates_stats_witness :
  exists stats',
    get_user_stats 1 (snd (create_progress_log sample_env sample_log 1
                             (database sample_env))) = Some stats' /\
    us_weight stats' = Some 180.0%float /\
    us_body_fat_percentage stats' = Some 15.0%float.
Proof.
  destruct (create_progress_log_updates_stats sample_env sample_log 1
              (database sample_env)) as (_ & _ & Hstats & _).
  edestruct Hstats as (stats' & Hget & Hw & Hbf & _); [reflexivity|].
  exists stats'. split; [exact Hget|]. split; [exact Hw | exact Hbf].
Defined.

(** X17: deleting a progress log does not undo what it did to the
    statistics.  In a reachable store, create a log and delete it again:
    the deletion succeeds, the log collection is back to what it was, the
    statistics stay as the creation left them and the id is not handed out
    again. *)
Theorem delete_progress_log_no_undo e log user_id s :
  reachable s ->
  fst (delete_progress_log (progress_log_id_counter s)
         (snd (create_progress_log e log user_id s))) = true /\
  progress_logs_db
    (snd (delete_progress_log (progress_log_id_counter s)
            (snd (create_progress_log e log user_id s))))
    = progress_logs_db s /\
  user_stats_db
    (snd (delete_progress_log (progress_log_id_counter s)
            (snd (create_progress_log e log user_id s))))
    = user_stats_db (snd (create_progress_log e log user_id s)) /\
  progress_log_id_counter
    (snd (delete_progress_log (progress_log_id_counter s)
            (snd (create_progress_log e log user_id s))))
    = progress_log_id_counter s + 1.
Proof.
  intros Hreach.
  assert (Hfresh : dget (progress_log_id_counter s) (progress_logs_db s) = None).
  { destruct (dget _ (progress_logs_db s)) eqn:Hk; [|reflexivity].
    apply (fresh_logs s (reachable_fresh s Hreach)) in Hk. lia. }
  unfold delete_progress_log, create_progress_log. store_simpl.
  destruct (dget user_id (user_stats_db s)); store_simpl;
    rewrite (proj2 (dmem_true _ _)) by (rewrite dget_dset_eq; eauto);
    store_simpl; rewrite (dset_fresh _ _ _ Hfresh), (ddel_snoc _ _ _ Hfresh);
    repeat split.
Qed.

Lemma delete_progress_log_no_undo_witness :
  progress_logs_db
    (snd (delete_progress_log 3
            (snd (create_progress_log sample_env sample_log 2
                    (database sample_env)))))
    = progress_logs_db (database sample_env) /\
  (exists stats',
     get_user_stats 2
       (snd (delete_progress_log 3
               (snd (create_progress_log sample_env sample_log 2
                       (database sample_env))))) = Some stats' /\
     us_weight stats' = Some 180.0%float).
Proof.
  destruct (delete_progress_log_no_undo sample_env sample_log 2
              (database sample_env) (reachable_init sample_env))
    as (_ & Hlogs & Hstats & _).
  split; [exact Hlogs|].
  unfold get_user_stats.
  change 3 with (progress_log_id_counter (database sample_env)).
  rewrite Hstats. eexists. split; reflexivity.
Defined.

(** ** Listing workouts with a filter *)

Lemma enum_in_In {A : Type} `{EqDecision A} (x : A) (l : list A) :
  enum_in x l = true <-> In x l.
Proof.
  unfold enum_in. rewrite existsb_exists. split.
  - intros (y & Hy & Heq). apply bool_decide_eq_true in Heq. subst. exact Hy.
  - intros Hx. exists x. split; [exact Hx|]. apply bool_decide_eq_true. reflexivity.
Qed.

Lemma in_filter_opt {A B : Type} (o : option B) (g : B -> A -> bool) l w :
  In w (match o with Some d => List.filter (g d) l | None => l end)
  <-> In w l /\ (forall d, o = Some d -> g d w = true).
Proof.
  destruct o as [d|].
  - rewrite filter_In. split.
    + intros [Hin Hg]. split; [exact Hin|]. intros ? [= <-]. exact Hg.
    + intros [Hin Hg]. split; [exact Hin | apply Hg; reflexivity].
  - split; [intros Hin; split; [exact Hin | discriminate] | tauto].
Qed.

Lemma in_filter_if {A : Type} (b : bool) (f : A -> bool) l w :
  In w (if b then List.filter f l else l) <-> In w l /\ (b = true -> f w = true).
Proof.
  destruct b.
  - rewrite filter_In. intuition.
  - intuition discriminate.
Qed.

Lemma truthy_int_bound (o : option Z) (P : Z -> Prop) :
  (truthy_int o = true -> P (default 0 o)) <->
  (forall m, o = Some m -> m <> 0 -> P m).
Proof.
  destruct o as [m|]; cbn.
  - split.
    + intros H ? [= <-] Hm. apply H. apply negb_true_iff, Z.eqb_neq. exact Hm.
    + intros H Hm. apply (H m eq_refl). apply negb_true_iff, Z.eqb_neq in Hm.
      exact Hm.
  - split; [discriminate | intros _ [=]].
Qed.

Lemma truthy_list_some {A : Type} (o : option (list A)) (P : list A -> Prop) :
  (truthy_list o = true -> P (default [] o)) <->
  (forall x l, o = Some (x :: l) -> P (x :: l)).
Proof.
  destruct o as [[|x l]|]; cbn.
  - split; [discriminate | intros _ [=]].
  - split; [intros H ? ? [= <- <-]; auto | intros H _; exact (H x l eq_refl)].
  - split; [discriminate | intros _ [=]].
Qed.

(** The muscle-group test, spelled out: one of the listed exercise sets is
    stored and names a stored exercise that has one of the wanted groups. *)
Lemma targets_muscle_groups_true muscle_groups w s :
  targets_muscle_groups muscle_groups w s = true <->
  exists es_id es exercise mg,
    In es_id (exercise_set_ids (w_id w) s) /\
    dget es_id (exercise_sets_db s) = Some es /\
    dget (es_exercise_id es) (exercises_db s) = Some exercise /\
    In mg muscle_groups /\
    In mg (eb_muscle_groups (ex_base exercise)).
Proof.
  unfold targets_muscle_groups. cbv zeta. rewrite existsb_exists. split.
  - intros (exercise_id & Hin & Hex).
    apply list_elem_of_In, list_elem_of_omap in Hin.
    destruct Hin as (es_id & Hid & Hes). apply list_elem_of_In in Hid.
    destruct (dget es_id (exercise_sets_db s)) as [es|] eqn:Hget;
      [|discriminate]. injection Hes as <-.
    destruct (dget (es_exercise_id es) (exercises_db s)) as [exercise|] eqn:Hx;
      [|discriminate].
    apply existsb_exists in Hex. destruct Hex as (mg & Hmg & Hhas).
    apply enum_in_In in Hhas. exists es_id, es, exercise, mg. auto.
  - intros (es_id & es & exercise & mg & Hid & Hget & Hx & Hmg & Hhas).
    exists (es_exercise_id es). split.
    + apply list_elem_of_In, list_elem_of_omap. exists es_id.
      split; [apply list_elem_of_In; exact Hid|]. rewrite Hget. reflexivity.
    + rewrite Hx. apply existsb_exists. exists mg.
      split; [exact Hmg | apply enum_in_In; exact Hhas].
Qed.

(** X18: [get_workouts] with a filter returns the stored workouts that
    pass every filter that is in force, and only those.  A date bound is in
    force when it is set, a duration bound when it is set and not 0 (a
    bound of 0 is skipped), the category and muscle-group filters when
    their list is set and not empty.  A workout passes the muscle-group
    filter when one of its listed exercise sets is stored and names a
    stored exercise with one of the wanted groups. *)
Theorem get_workouts_conjunction date_of filters s w :
  In w (get_workouts date_of (Some filters) s) <->
  In w (dvalues (workouts_db s)) /\
  (forall d, wf_from_date filters = Some d -> d <= date_of (w_created_at w)) /\
  (forall d, wf_to_date filters = Some d -> date_of (w_created_at w) <= d) /\
  (forall c cs, wf_categories filters = Some (c :: cs) ->
                In (wb_category (w_base w)) (c :: cs)) /\
  (forall m, wf_min_duration filters = Some m -> m <> 0 ->
             m <= wb_duration_minutes (w_base w)) /\
  (forall m, wf_max_duration filters = Some m -> m <> 0 ->
             wb_duration_minutes (w_base w) <= m) /\
  (forall g gs, wf_muscle_groups filters = Some (g :: gs) ->
     exists es_id es exercise mg,
       In es_id (exercise_set_ids (w_id w) s) /\
       dget es_id (exercise_sets_db s) = Some es /\
       dget (es_exercise_id es) (exercises_db s) = Some exercise /\
       In mg (g :: gs) /\
       In mg (eb_muscle_groups (ex_base exercise))).
Proof.
  unfold get_workouts. cbv zeta.
  rewrite in_filter_if, in_filter_if, in_filter_if, in_filter_if.
  rewrite (in_filter_opt (wf_to_date filters)
             (fun to_date w => date_of (w_created_at w) <=? to_date)).
  rewrite (in_filter_opt (wf_from_date filters)
             (fun from_date w => from_date <=? date_of (w_created_at w))).
  setoid_rewrite <- targets_muscle_groups_true.
  rewrite <- (truthy_list_some (wf_muscle_groups filters)
                (fun l => targets_muscle_groups l w s = true)).
  rewrite <- (truthy_int_bound (wf_max_duration filters)
                (fun m => wb_duration_minutes (w_base w) <= m)).
  rewrite <- (truthy_int_bound (wf_min_duration filters)
                (fun m => m <= wb_duration_minutes (w_base w))).
  rewrite <- (truthy_list_some (wf_categories filters)
                (fun l => In (wb_category (w_base w)) l)).
  setoid_rewrite Z.leb_le. setoid_rewrite enum_in_In. tauto.
Qed.

Lemma get_workouts_conjunction_witness :
  exists w, get_workout 3 (database sample_env) = Some w /\
            In w (get_workouts sample_date_of (Some sample_filter)
                    (database sample_env)).
Proof.
  eexists. split; [reflexivity|].
  apply (proj2 (get_workouts_conjunction sample_date_of sample_filter
                  (database sample_env) _)).
  split; [right; right; left; reflexivity|].
  split; [intros ? [= <-]; cbn; vm_compute; discriminate|].
  split; [discriminate|].
  split; [intros ? ? [= <- <-]; right; left; reflexivity|].
  split; [intros ? [= <-] _; cbn; lia|].
  split; [intros ? [= <-] Hm; contradiction Hm; reflexivity|].
  intros ? ? [= <- <-]. exists 4. eexists. eexists. exists CORE.
  split; [left; reflexivity|]. split; [reflexivity|]. split; [reflexivity|].
  split; left; reflexivity.
Defined.

Lemma sublist_List_filter {A : Type} (f : A -> bool) (l : list A) :
  sublist (List.filter f l) l.
Proof.
  induction l as [|a r IH]; cbn; [constructor|].
  destruct (f a); [apply sublist_skip | apply sublist_cons]; exact IH.
Qed.

(** X19: without a filter, or with a filter that sets nothing,
    [get_workouts] returns every stored workout in dictionary order; with
    any filter it returns a sublist of them, in the same order; and a
    duration bound of 0 does nothing, so a filter whose only field is
    [max_duration = 0] returns every workout. *)
Theorem get_workouts_unfiltered date_of filters s :
  get_workouts date_of None s = dvalues (workouts_db s) /\
  get_workouts date_of (Some no_filter) s = dvalues (workouts_db s) /\
  sublist (get_workouts date_of filters s) (dvalues (workouts_db s)) /\
  get_workouts date_of
    (Some {| wf_from_date := None; wf_to_date := None; wf_categories := None;
             wf_min_duration := None; wf_max_duration := Some 0;
             wf_muscle_groups := None |}) s
    = dvalues (workouts_db s).
Proof.
  split; [reflexivity|]. split; [reflexivity|]. split; [|reflexivity].
  destruct filters as [filters|]; [|reflexivity].
  unfold get_workouts. cbv zeta.
  repeat match goal with
  | |- sublist (if ?b then _ else _) _ => destruct b
  | |- sublist (match ?o with Some _ => _ | None => _ end) _ => destruct o
  | |- sublist (List.filter _ _) _ =>
      etrans; [apply sublist_List_filter|]
  end; reflexivity.
Qed.

(** ** The HTTP layer *)

Lemma update_workout_some workout_id workout_data s old :
  dget workout_id (workouts_db s) = Some old ->
  exists detail, fst (update_workout workout_id workout_data s) = Some detail.
Proof.
  intros Hold.
  assert (Hfst : fst (update_workout workout_id workout_data s)
                 = get_workout_detail workout_id
                     (snd (update_workout workout_id workout_data s))).
  { unfold update_workout. rewrite Hold. reflexivity. }
  rewrite Hfst. unfold get_workout_detail.
  destruct (truthy_list (wc_exercise_sets workout_data)) eqn:Ht.
  - rewrite (update_workout_sets_eq _ _ _ _ Hold Ht). store_simpl.
    rewrite dget_dset_eq. eauto.
  - rewrite (update_workout_keep_eq _ _ _ _ Hold Ht). store_simpl.
    rewrite dget_dset_eq. eauto.
Qed.

(** X20: [register_user] answers 400 and leaves the store alone when the
    username or the e-mail address is taken; otherwise it returns the user
    that [create_user] created, so the [None] result of [create_user] never
    reaches the client. *)
Theorem register_user_outcome e user s :
  ((exists u, In u (dvalues (users_db s)) /\
              (u_username u = Some (uc_username user) \/
               u_email u = Some (uc_email user))) ->
   snd (users.register_user e user s) = s /\
   raised (fst (users.register_user e user s)) = Some 400) /\
  ((forall u, In u (dvalues (users_db s)) ->
              u_username u <> Some (uc_username user) /\
              u_email u <> Some (uc_email user)) ->
   exists new_user,
     users.register_user e user s
       = (Returned (Some new_user), snd (create_user e user s)) /\
     fst (create_user e user s) = Some new_user /\
     get_user (u_id new_user) (snd (users.register_user e user s))
       = Some new_user).
Proof.
  split.
  - intros (u & Hu & Hdup). unfold users.register_user.
    destruct (get_user_by_username (uc_username user) s) eqn:Hname;
      [split; reflexivity|].
    destruct (get_user_by_email (uc_email user) s) eqn:Hmail;
      [split; reflexivity|].
    exfalso. destruct Hdup as [Hdup|Hdup].
    + exact (get_user_by_username_none _ _ Hname u Hu Hdup).
    + exact (get_user_by_email_none _ _ Hmail u Hu Hdup).
  - intros Hfree.
    assert (Hname : get_user_by_username (uc_username user) s = None).
    { unfold get_user_by_username. apply find_all_false. intros u Hu.
      apply bool_decide_eq_false. apply (Hfree u Hu). }
    assert (Hmail : get_user_by_email (uc_email user) s = None).
    { unfold get_user_by_email. apply find_all_false. intros u Hu.
      apply bool_decide_eq_false. apply (Hfree u Hu). }
    unfold users.register_user. rewrite Hname, Hmail.
    unfold create_user. rewrite Hname, Hmail. cbn [fst snd].
    eexists. split; [reflexivity|]. split; [reflexivity|].
    unfold get_user. store_simpl. cbn [u_id]. apply dget_dset_eq.
Qed.

Lemma register_user_outcome_witness :
  raised (fst (users.register_user sample_env
                 {| uc_email := "new@example.com"; uc_username := "johndoe";
                    uc_full_name := None; uc_password := "correct horse" |}
                 (database sample_env))) = Some 400 /\
  exists new_user,
    fst (users.register_user sample_env sample_user_create (database sample_env))
      = Returned (Some new_user).
Proof.
  split.
  - eapply register_user_outcome. eexists. split.
    + left. reflexivity.
    + left. reflexivity.
  - edestruct (register_user_outcome sample_env sample_user_create
                 (database sample_env)) as [_ Hfree].
    edestruct Hfree as (new_user & Heq & _).
    + intros u Hu. cbn in Hu.
      repeat destruct Hu as [<-|Hu]; try (split; discriminate). destruct Hu.
    + exists new_user. rewrite Heq. reflexivity.
Defined.

(** X21: the guards of the workout routes.  [update_workout] and
    [delete_workout] answer 404 when the workout is not stored and 403
    when its [user_id] is not the caller's id, both without changing the
    store; a workout without an owner is therefore closed to everybody.
    For the owner they return what the CRUD call returns and leave the
    store the CRUD call leaves; the 400 answer is never given. *)
Theorem workout_routes_guards workout_id workout current_user s :
  (dget workout_id (workouts_db s) = None ->
   workouts.update_workout workout_id workout current_user s
     = (HTTPException 404 "Workout not found", s) /\
   workouts.delete_workout workout_id current_user s
     = (HTTPException 404 "Workout not found", s)) /\
  (forall existing, dget workout_id (workouts_db s) = Some existing ->
     w_user_id existing <> Some (u_id current_user) ->
     workouts.update_workout workout_id workout current_user s
       = (HTTPException 403 "Not authorized to update this workout", s) /\
     workouts.delete_workout workout_id current_user s
       = (HTTPException 403 "Not authorized to delete this workout", s)) /\
  (forall existing, dget workout_id (workouts_db s) = Some existing ->
     w_user_id existing = Some (u_id current_user) ->
     (exists detail,
        fst (update_workout workout_id workout s) = Some detail /\
        workouts.update_workout workout_id workout current_user s
          = (Returned detail, snd (update_workout workout_id workout s))) /\
     workouts.delete_workout workout_id current_user s
       = (Returned tt, snd (delete_workout workout_id s))).
Proof.
  unfold workouts.update_workout, workouts.delete_workout, get_workout.
  split; [|split].
  - intros Hnone. rewrite Hnone. split; reflexivity.
  - intros existing Hw Hother. rewrite Hw.
    rewrite (bool_decide_eq_false_2 _ Hother). split; reflexivity.
  - intros existing Hw Hown. rewrite Hw.
    rewrite (bool_decide_eq_true_2 _ Hown). cbn [negb]. split.
    + destruct (update_workout_some workout_id workout s existing Hw)
        as [detail Hdetail].
      exists detail. split; [exact Hdetail|].
      destruct (update_workout workout_id workout s) as [r s'].
      cbn [fst snd] in *. rewrite Hdetail. reflexivity.
    + assert (Hm : dmem workout_id (workouts_db s) = true)
        by (apply dmem_true; eauto).
      destruct (delete_workout_fields _ _ Hm) as (Hres & _).
      destruct (delete_workout workout_id s) as [r s'].
      cbn [fst snd] in *. rewrite Hres. reflexivity.
Qed.

Lemma workout_routes_guards_witness :
  raised (fst (workouts.update_workout 2 sample_update (sample_caller 2)
                 (database sample_env))) = Some 403 /\
  raised (fst (workouts.delete_workout 9 (sample_caller 2)
                 (database sample_env))) = Some 404 /\
  fst (workouts.delete_workout 2 (sample_caller 1) (database sample_env))
    = Returned tt.
Proof.
  destruct (workout_routes_guards 2 sample_update (sample_caller 2)
              (database sample_env)) as (_ & Hother & _).
  destruct (workout_routes_guards 9 sample_update (sample_caller 2)
              (database sample_env)) as (Hmissing & _).
  destruct (workout_routes_guards 2 sample_update (sample_caller 1)
              (database sample_env)) as (_ & _ & Howner).
  edestruct Hother as [Hupdate _]; [reflexivity | discriminate |].
  destruct Hmissing as [_ Hdelete]; [reflexivity|].
  edestruct Howner as [_ Hdeleted]; [reflexivity | reflexivity |].
  rewrite Hupdate, Hdelete, Hdeleted. repeat split.
Defined.

(** X22: the exercise deletion route tells the failures apart that
    [crud.delete_exercise] reports with one value.  It answers 404 when the
    exercise is not stored; 403 when the exercise has a creator other than
    the caller (an exercise whose [created_by] is unset or 0 is open to
    everybody); 400, with the store unchanged, when the caller may delete
    but some exercise set refers to the exercise; and otherwise removes
    the exercise. *)
Theorem delete_exercise_route exercise_id current_user s :
  (dget exercise_id (exercises_db s) = None ->
   exercises.delete_exercise exercise_id current_user s
     = (HTTPException 404 "Exercise not found", s)) /\
  (forall existing, dget exercise_id (exercises_db s) = Some existing ->
     (exercises.created_by_other existing current_user = true <->
      exists creator, ex_created_by existing = Some creator /\
                      creator <> 0 /\ creator <> u_id current_user) /\
     (exercises.created_by_other existing current_user = true ->
      exercises.delete_exercise exercise_id current_user s
        = (HTTPException 403 "Not authorized to delete this exercise", s)) /\
     (exercises.created_by_other existing current_user = false ->
      (exists es, In es (dvalues (exercise_sets_db s)) /\
                  es_exercise_id es = exercise_id) ->
      raised (fst (exercises.delete_exercise exercise_id current_user s))
        = Some 400 /\
      snd (exercises.delete_exercise exercise_id current_user s) = s) /\
     (exercises.created_by_other existing current_user = false ->
      (forall es, In es (dvalues (exercise_sets_db s)) ->
                  es_exercise_id es <> exercise_id) ->
      exercises.delete_exercise exercise_id current_user s
        = (Returned tt, set_exercises_db (ddel exercise_id (exercises_db s)) s))).
Proof.
  unfold exercises.delete_exercise, get_exercise. split.
  - intros Hnone. rewrite Hnone. reflexivity.
  - intros existing Hex. rewrite Hex.
    assert (Hm : dmem exercise_id (exercises_db s) = true)
      by (apply dmem_true; eauto).
    split; [|split; [|split]].
    + unfold exercises.created_by_other, truthy_int.
      destruct (ex_created_by existing) as [c|]; cbn.
      * rewrite andb_true_iff, !negb_true_iff, Z.eqb_neq, bool_decide_eq_false.
        split.
        -- intros [Hc Hne]. exists c. repeat split; congruence.
        -- intros (c' & [= <-] & Hc & Hne). split; congruence.
      * split; [discriminate | intros (c & [=] & _)].
    + intros Hother. rewrite Hother. reflexivity.
    + intros Hmine Huse. rewrite Hmine. unfold delete_exercise.
      rewrite Hm, (proj2 (in_use_test _ _) Huse). split; reflexivity.
    + intros Hmine Hfree. rewrite Hmine. unfold delete_exercise. rewrite Hm.
      destruct (existsb _ _) eqn:Huse; [|reflexivity].
      apply in_use_test in Huse. destruct Huse as (es & Hes & Heq).
      exfalso. exact (Hfree es Hes Heq).
Qed.

Lemma delete_exercise_route_witness :
  raised (fst (exercises.delete_exercise 9 (sample_caller 1)
                 (database sample_env))) = Some 404 /\
  raised (fst (exercises.delete_exercise 1 (sample_caller 2)
                 (database sample_env))) = Some 403 /\
  raised (fst (exercises.delete_exercise 1 (sample_caller 1)
                 (database sample_env))) = Some 400 /\
  fst (exercises.delete_exercise 3 (sample_caller 1) (database sample_env))
    = Returned tt.
Proof.
  destruct (delete_exercise_route 9 (sample_caller 1) (database sample_env))
    as [Hmissing _].
  destruct (delete_exercise_route 1 (sample_caller 2) (database sample_env))
    as [_ Hother].
  destruct (delete_exercise_route 1 (sample_caller 1) (database sample_env))
    as [_ Hused].
  destruct (delete_exercise_route 3 (sample_caller 1) (database sample_env))
    as [_ Hfree].
  edestruct Hother as (_ & H403 & _); [reflexivity|].
  edestruct Hused as (_ & _ & H400 & _); [reflexivity|].
  edestruct Hfree as (_ & _ & _ & H204); [reflexivity|].
  rewrite (Hmissing eq_refl), (H403 eq_refl).
  destruct H400 as [H400 _];
    [reflexivity | eexists; split; [left; reflexivity | reflexivity] |].
  rewrite H400, H204; [repeat split | reflexivity |].
  intros es Hes. cbn in Hes.
  repeat destruct Hes as [<-|Hes]; try discriminate. destruct Hes.
Defined.

(** X23: the route that adds a workout to a plan checks the workout
    itself.  It answers 404 when the plan is not stored, 403 when the
    caller did not create the plan, 404 when the workout is not stored,
    none of them changing the store; otherwise it returns the plan, which
    then lists the workout. *)
Theorem add_workout_to_plan_route plan_id workout_id current_user s :
  (dget plan_id (workout_plans_db s) = None ->
   workout_plans.add_workout_to_plan plan_id workout_id current_user s
     = (HTTPException 404 "Workout plan not found", s)) /\
  (forall plan, dget plan_id (workout_plans_db s) = Some plan ->
     (wp_created_by plan <> u_id current_user ->
      workout_plans.add_workout_to_plan plan_id workout_id current_user s
        = (HTTPException 403 "Not authorized to modify this workout plan", s)) /\
     (wp_created_by plan = u_id current_user ->
      dget workout_id (workouts_db s) = None ->
      workout_plans.add_workout_to_plan plan_id workout_id current_user s
        = (HTTPException 404 "Workout not found", s)) /\
     (wp_created_by plan = u_id current_user ->
      is_Some (dget workout_id (workouts_db s)) ->
      exists updated,
        workout_plans.add_workout_to_plan plan_id workout_id current_user s
          = (Returned updated, snd (add_workout_to_plan plan_id workout_id s)) /\
        get_workout_plan plan_id (snd (add_workout_to_plan plan_id workout_id s))
          = Some updated /\
        In workout_id (wp_workouts updated))).
Proof.
  unfold workout_plans.add_workout_to_plan, get_workout_plan, get_workout. split.
  - intros Hnone. rewrite Hnone. reflexivity.
  - intros plan Hplan. rewrite Hplan. split; [|split].
    + intros Hother. apply Z.eqb_neq in Hother. rewrite Hother. reflexivity.
    + intros Hmine Hnone. apply Z.eqb_eq in Hmine. rewrite Hmine, Hnone.
      reflexivity.
    + intros Hmine [workout Hworkout]. apply Z.eqb_eq in Hmine.
      rewrite Hmine, Hworkout. cbn [negb].
      rewrite (add_workout_to_plan_present _ _ _ _ Hplan)
        by (rewrite Hworkout; eauto).
      destruct (id_in workout_id (wp_workouts plan)) eqn:Hin; cbn [fst snd].
      * exists plan. split; [reflexivity|]. split; [exact Hplan|].
        apply id_in_true. exact Hin.
      * eexists. split; [reflexivity|]. store_simpl.
        split; [apply dget_dset_eq|]. rewrite wp_workouts_set.
        apply in_or_app. right. left. reflexivity.
Qed.

Lemma add_workout_to_plan_route_witness :
  raised (fst (workout_plans.add_workout_to_plan 2 99 (sample_caller 2)
                 (database sample_env))) = Some 404 /\
  raised (fst (workout_plans.add_workout_to_plan 2 3 (sample_caller 1)
                 (database sample_env))) = Some 403 /\
  exists updated,
    fst (workout_plans.add_workout_to_plan 2 3 (sample_caller 2)
           (database sample_env)) = Returned updated /\
    In 3 (wp_workouts updated).
Proof.
  destruct (add_workout_to_plan_route 2 99 (sample_caller 2) (database sample_env))
    as [_ Hmissing].
  destruct (add_workout_to_plan_route 2 3 (sample_caller 1) (database sample_env))
    as [_ Hother].
  destruct (add_workout_to_plan_route 2 3 (sample_caller 2) (database sample_env))
    as [_ Hadd].
  edestruct Hmissing as (_ & H404 & _); [reflexivity|].
  edestruct Hother as (H403 & _); [reflexivity|].
  edestruct Hadd as (_ & _ & Hok); [reflexivity|].
  rewrite H404, H403; try reflexivity; try discriminate.
  destruct Hok as (updated & Heq & _ & Hin);
    [reflexivity | eexists; reflexivity |].
  split; [reflexivity|]. split; [reflexivity|].
  exists updated. rewrite Heq. split; [reflexivity | exact Hin].
Defined.

(** X24: the [400 "Failed to ..."] answers of the routes that first look
    the record up are never given: once the route has found the record and
    accepted the caller, the CRUD call cannot fail.  This covers updating
    an exercise, updating and deleting a workout, and updating, deleting,
    extending and shrinking a plan, and deleting a progress log. *)
Theorem failure_answers_unreachable
    (exercise_id workout_id plan_id log_id : Z) (exercise : ExerciseCreate)
    (workout : WorkoutCreate) (plan : WorkoutPlanCreate)
    (current_user : User) (s : Store) :
  raised (fst (exercises.update_exercise exercise_id exercise current_user s))
    <> Some 400 /\
  raised (fst (workouts.update_workout workout_id workout current_user s))
    <> Some 400 /\
  raised (fst (workouts.delete_workout workout_id current_user s)) <> Some 400 /\
  raised (fst (workout_plans.update_workout_plan plan_id plan current_user s))
    <> Some 400 /\
  raised (fst (workout_plans.delete_workout_plan plan_id current_user s))
    <> Some 400 /\
  raised (fst (workout_plans.add_workout_to_plan plan_id workout_id current_user s))
    <> Some 400 /\
  raised (fst (workout_plans.remove_workout_from_plan plan_id workout_id
                 current_user s)) <> Some 400 /\
  raised (fst (progress.delete_progress_log log_id current_user s)) <> Some 400.
Proof.
  repeat split.
  - unfold exercises.update_exercise, get_exercise, update_exercise.
    destruct (dget exercise_id (exercises_db s)) as [existing|]; [|discriminate].
    destruct (exercises.created_by_other existing current_user); discriminate.
  - unfold workouts.update_workout, get_workout.
    destruct (dget workout_id (workouts_db s)) as [existing|] eqn:Hw;
      [|discriminate].
    destruct (negb _); [discriminate|].
    destruct (update_workout_some workout_id workout s existing Hw) as [d Hd].
    destruct (update_workout workout_id workout s) as [r s'].
    cbn [fst] in Hd. rewrite Hd. discriminate.
  - unfold workouts.delete_workout, get_workout.
    destruct (dget workout_id (workouts_db s)) as [existing|] eqn:Hw;
      [|discriminate].
    destruct (negb _); [discriminate|].
    assert (Hm : dmem workout_id (workouts_db s) = true)
      by (apply dmem_true; eauto).
    destruct (delete_workout_fields _ _ Hm) as (Hres & _).
    destruct (delete_workout workout_id s) as [r s'].
    cbn [fst] in Hres. rewrite Hres. discriminate.
  - unfold workout_plans.update_workout_plan, get_workout_plan,
      update_workout_plan.
    destruct (dget plan_id (workout_plans_db s)) as [existing|]; [|discriminate].
    destruct (negb _); discriminate.
  - unfold workout_plans.delete_workout_plan, get_workout_plan,
      delete_workout_plan.
    destruct (dget plan_id (workout_plans_db s)) as [existing|] eqn:Hp;
      [|discriminate].
    destruct (negb _); [discriminate|].
    rewrite (proj2 (dmem_true _ _)) by eauto. discriminate.
  - unfold workout_plans.add_workout_to_plan, get_workout_plan, get_workout.
    destruct (dget plan_id (workout_plans_db s)) as [existing|] eqn:Hp;
      [|discriminate].
    destruct (negb _); [discriminate|].
    destruct (dget workout_id (workouts_db s)) as [w|] eqn:Hw; [|discriminate].
    rewrite (add_workout_to_plan_present _ _ _ _ Hp) by (rewrite Hw; eauto).
    destruct (id_in workout_id (wp_workouts existing)); discriminate.
  - unfold workout_plans.remove_workout_from_plan, get_workout_plan.
    destruct (dget plan_id (workout_plans_db s)) as [existing|] eqn:Hp;
      [|discriminate].
    destruct (negb _); [discriminate|].
    rewrite (remove_workout_from_plan_present _ _ _ _ Hp).
    destruct (id_in workout_id (wp_workouts existing)); discriminate.
  - unfold progress.delete_progress_log, get_progress_log, delete_progress_log.
    destruct (dget log_id (progress_logs_db s)) as [log|] eqn:Hl; [|discriminate].
    destruct (negb _); [discriminate|].
    rewrite (proj2 (dmem_true _ _)) by eauto. discriminate.
Qed.

(** X25: progress logs are private.  [get_progress_logs] returns exactly
    the stored logs whose [user_id] is the caller's id and whose date lies
    within the bounds that are set, and [get_progress_log] returns a log
    only to the user it belongs to: it answers 404 for an id that is not
    stored and 403 for another user's log. *)
Theorem progress_logs_private from_date to_date log_id current_user s log :
  (In log (progress.get_progress_logs from_date to_date current_user s) <->
   In log (dvalues (progress_logs_db s)) /\
   pl_user_id log = u_id current_user /\
   (forall d, from_date = Some d -> d <= plb_log_date (pl_base log)) /\
   (forall d, to_date = Some d -> plb_log_date (pl_base log) <= d)) /\
  (progress.get_progress_log log_id current_user s = Returned log <->
   dget log_id (progress_logs_db s) = Some log /\
   pl_user_id log = u_id current_user) /\
  (dget log_id (progress_logs_db s) = None ->
   raised (progress.get_progress_log log_id current_user s) = Some 404) /\
  (forall other, dget log_id (progress_logs_db s) = Some other ->
     pl_user_id other <> u_id current_user ->
     raised (progress.get_progress_log log_id current_user s) = Some 403).
Proof.
  split; [|split; [|split]].
  - unfold progress.get_progress_logs, get_progress_logs_by_user. cbv zeta.
    rewrite (in_filter_opt to_date
               (fun to_date log => plb_log_date (pl_base log) <=? to_date)).
    rewrite (in_filter_opt from_date
               (fun from_date log => from_date <=? plb_log_date (pl_base log))).
    rewrite filter_In. setoid_rewrite Z.leb_le. rewrite Z.eqb_eq. tauto.
  - unfold progress.get_progress_log, get_progress_log.
    destruct (dget log_id (progress_logs_db s)) as [found|].
    + destruct (pl_user_id found =? u_id current_user) eqn:Hown; cbn [negb].
      * apply Z.eqb_eq in Hown. split.
        -- intros [= <-]. auto.
        -- intros [[= <-] _]. reflexivity.
      * apply Z.eqb_neq in Hown. split; [discriminate|].
        intros [[= <-] Hmine]. contradiction.
    + split; [discriminate | intros [[=] _]].
  - intros Hnone. unfold progress.get_progress_log, get_progress_log.
    rewrite Hnone. reflexivity.
  - intros other Hother Hne. unfold progress.get_progress_log, get_progress_log.
    rewrite Hother. apply Z.eqb_neq in Hne. rewrite Hne. reflexivity.
Qed.

Lemma progress_logs_private_witness :
  raised (progress.get_progress_log 9 (sample_caller 1) (database sample_env))
    = Some 404 /\
  raised (progress.get_progress_log 2 (sample_caller 1) (database sample_env))
    = Some 403.
Proof.
  destruct (progress_logs_private None None 9 (sample_caller 1)
              (database sample_env)
              (fst (create_progress_log sample_env sample_log 1
                      (database sample_env))))
    as (_ & _ & Hmissing & _).
  destruct (progress_logs_private None None 2 (sample_caller 1)
              (database sample_env)
              (fst (create_progress_log sample_env sample_log 1
                      (database sample_env))))
    as (_ & _ & _ & Hother).
  split; [apply Hmissing; reflexivity|].
  eapply Hother; [reflexivity | discriminate].
Defined.
